(** * fba command-line workflow (backend/cli.py)

    A shallow embedding of the initialization, provisioning, script-running
    and plugin-installation workflow of [backend/cli.py].

    The Python functions are written in a state-and-exception monad over a
    [World] that holds the process-wide settings, the database server, the
    cache, the plugin registry, the file system, the answers typed at the
    prompts, the entropy source and a chronological log of every external
    call.  The collaborators whose code lives outside this file of the
    repository (database driver, cache client, plugin registry, SQL splitter)
    are an interface, [Collaborators], over which every theorem is
    universally quantified. *)

From Stdlib Require Import String Ascii List ZArith NArith Lia Bool Arith.
From Stdlib Require Import DecimalString.
Import ListNotations.
Open Scope list_scope.
Open Scope string_scope.

Set Implicit Arguments.

(** ** Python values *)

(** Truthiness of a [str | None] value: [None] and [''] are falsy. *)
Definition truthy (o : option string) : bool :=
  match o with
  | Some s => negb (s =? "")
  | None => false
  end.

(** [str.lower()] on the ASCII letters; other bytes are left alone. *)
Definition lower_ascii (c : ascii) : ascii :=
  let n := nat_of_ascii c in
  if andb (Nat.leb 65 n) (Nat.leb n 90) then ascii_of_nat (n + 32) else c.

Fixpoint lower (s : string) : string :=
  match s with
  | EmptyString => EmptyString
  | String c s' => String (lower_ascii c) (lower s')
  end.

(** [needle in haystack] for strings. *)
Fixpoint contains (needle haystack : string) : bool :=
  if prefix needle haystack then true
  else match haystack with
       | EmptyString => false
       | String _ rest => contains needle rest
       end.

(** [', '.join(xs)] and friends. *)
Fixpoint join (sep : string) (xs : list string) : string :=
  match xs with
  | [] => ""
  | [x] => x
  | x :: rest => x ++ sep ++ join sep rest
  end.

(** [pathlib]'s [base / name] for a relative [name]. *)
Definition path_join (base name : string) : string := base ++ "/" ++ name.
Infix "//" := path_join (at level 40, left associativity).

(** ** Exceptions *)

(** The exceptions that an [except Exception] clause catches.
    [BaseExceptionError] is the project's own error class, which carries a
    [msg] attribute next to its [str]; [Exception] stands for every other
    subclass of Python's [Exception], known by its [str]. *)
Inductive Exn : Type :=
| BaseExceptionError (msg : string) (text : string)
| Exception (text : string).

(** [str(e)], what [f'{e}'] interpolates. *)
Definition str (e : Exn) : string :=
  match e with
  | BaseExceptionError _ text => text
  | Exception text => text
  end.

(** What a call raises: an exception of the above, or [cappa.Exit].
    [cappa.Exit] is a [SystemExit], which is no subclass of [Exception]: an
    [except Exception] clause lets it through. *)
Inductive Thrown : Type :=
| Exit (message : string) (code : Z)
| Error (e : Exn).

Coercion Error : Exn >-> Thrown.

Inductive Outcome (A : Type) : Type :=
| Returns (a : A)
| Raises (e : Thrown).
Arguments Returns {A} a.
Arguments Raises {A} e.

(** ** Settings *)

(** The fields of [backend.core.conf.settings] that the workflow reads or
    writes.  Everything is kept as the text that the f-strings interpolate. *)
Record Settings : Type := {
  DATABASE_TYPE : string;
  DATABASE_HOST : string;
  DATABASE_PORT : string;
  DATABASE_USER : string;
  DATABASE_PASSWORD : string;
  DATABASE_SCHEMA : string;
  DATABASE_CHARSET : string;
  DATABASE_PK_MODE : string;
  REDIS_HOST : string;
  REDIS_PORT : string;
  REDIS_PASSWORD : string;
  REDIS_DATABASE : string;
  TOKEN_SECRET_KEY : string;
  OPERA_LOG_ENCRYPT_SECRET_KEY : string;
  JWT_USER_REDIS_PREFIX : string;
  TOKEN_EXTRA_INFO_REDIS_PREFIX : string;
  TOKEN_REDIS_PREFIX : string;
  TOKEN_REFRESH_REDIS_PREFIX : string
}.

(** Modelled from the spec: the members of [backend.common.enums.DataBaseType]
    and [PrimaryKeyType] (string enumerations imported by [cli.py], declared
    outside it); the values are the ones [cli.py] itself uses as prompt
    choices and argument defaults. *)
Module DataBaseType.
Definition mysql : string := "mysql".
Definition postgresql : string := "postgresql".
End DataBaseType.

Module PrimaryKeyType.
Definition autoincrement : string := "autoincrement".
Definition snowflake : string := "snowflake".
End PrimaryKeyType.

(** ** The log of external calls *)

(** [sqlalchemy.URL.create(...)]. *)
Record URL : Type := {
  drivername : string;
  username : string;
  password : string;
  host : string;
  port : string;
  database : option string
}.

(** One entry per call that leaves the process, in the order the calls are
    made.  A fallible call records whether it returned ([true]) or raised
    ([false]). *)
Inductive Event : Type :=
| Print (text : string)
| PrintPanel (title : string) (content : string)
| Ask (prompt : string) (choices : list string) (default : string)
| ReadText (path : string) (ok : bool)
| WriteText (path : string) (content : string) (ok : bool)
| DeletePrefix (prefix : string) (ok : bool)
| DropTables (ok : bool)
| CreateTables (ok : bool)
| Connect (url : URL) (ok : bool)
| AdminExecute (sql : string) (ok : bool)
| Dispose
| Begin
| ParseScript (path : string) (ok : bool)
| Execute (stmt : string) (ok : bool)
| Commit
| Rollback
| InstallZip (file : string) (ok : bool)
| InstallGit (repo_url : string) (ok : bool).

(** ** The world *)

Section World.

  (** States of the database server, of the cache and of the plugin
      registry. *)
Variables DB Cache Plugins : Type.

Record World : Type := {
    settings : Settings;
    db : DB;
    cache : Cache;
    plugins : Plugins;
    files : string -> option string;      (* path to text content *)
    readonly : string -> bool;            (* paths that cannot be written *)
    answers : list string;                (* what the next prompts return *)
    entropy : nat -> Byte.byte;           (* the operating system's random bytes *)
    drawn : nat;                          (* how many of them were consumed *)
    trace : list Event
  }.

  (** The collaborators imported by [cli.py].  Each takes the state it works
      on and either returns or raises an exception of the [Exception]
      family; none of them raises [cappa.Exit]. *)
Record Collaborators : Type := {
    (* [await db.execute(text(stmt))] on the session of a transaction *)
    db_execute : string -> DB -> Exn + DB;
    (* [await conn.execute(text(sql))] on the administrative connection; the
       boolean is [result.fetchone() is not None] *)
    admin_execute : string -> DB -> Exn + (bool * DB);
    (* [URL.create(...)] with these components, which raises on a port that
       is not a number, and [create_async_engine(url, ...)], which loads the
       driver; neither leaves the process *)
    url_create : URL -> option Exn;
    engine_create : URL -> option Exn;
    (* [engine.connect()] *)
    admin_connect : URL -> DB -> option Exn;
    (* [backend.database.db.drop_tables], [create_tables] *)
    drop_all : DB -> Exn + DB;
    create_all : DB -> Exn + DB;
    (* [redis_client.delete_prefix(prefix)] *)
    redis_delete_prefix : string -> Cache -> Exn + Cache;
    (* [backend.plugin.tools.get_plugins], [get_plugin_sql] *)
    plugin_names : Plugins -> list string;
    plugin_sql : string -> string -> string -> Plugins -> option string;
    (* [backend.utils.file_ops.install_zip_plugin], [install_git_plugin] *)
    zip_install : string -> Plugins -> Exn + (string * Plugins);
    git_install : string -> Plugins -> Exn + (string * Plugins);
    (* [backend.utils.file_ops.parse_sql_script] *)
    sql_split : string -> (string -> option string) -> Exn + list string
  }.

End World.

Arguments db_execute {DB Cache Plugins}.
Arguments admin_execute {DB Cache Plugins}.
Arguments url_create {DB Cache Plugins}.
Arguments engine_create {DB Cache Plugins}.
Arguments admin_connect {DB Cache Plugins}.
Arguments drop_all {DB Cache Plugins}.
Arguments create_all {DB Cache Plugins}.
Arguments redis_delete_prefix {DB Cache Plugins}.
Arguments plugin_names {DB Cache Plugins}.
Arguments plugin_sql {DB Cache Plugins}.
Arguments zip_install {DB Cache Plugins}.
Arguments git_install {DB Cache Plugins}.
Arguments sql_split {DB Cache Plugins}.

(** ** Text of the environment file *)

Definition nl : string := String (ascii_of_nat 10) EmptyString.

(** [s.replace(old, new)] for a non-empty [old]: every occurrence, left to
    right, without overlap.  [skip] counts the characters of a match that
    are still to be passed over. *)
Fixpoint replace_from (skip : nat) (old new s : string) : string :=
  match s with
  | EmptyString => EmptyString
  | String c rest =>
      match skip with
      | S k => replace_from k old new rest
      | O =>
          if prefix old s
          then new ++ replace_from (String.length old - 1) old new rest
          else String c (replace_from 0 old new rest)
      end
  end.

Definition replace (old new s : string) : string := replace_from 0 old new s.

(** Length of the shortest prefix of [s] that ends with a quote, the text
    matched by the pattern [[^']*']. *)
Fixpoint quoted_end (s : string) : option nat :=
  match s with
  | EmptyString => None
  | String c rest =>
      if Ascii.eqb c "'" then Some 1 else option_map S (quoted_end rest)
  end.

(** [re.sub(r"KEY='[^']*'", repl, s)], where [head] is [KEY='] and [repl]
    holds no backslash (the secrets are drawn from alphabets without it). *)
Fixpoint sub_quoted_from (skip : nat) (head repl s : string) : string :=
  match s with
  | EmptyString => EmptyString
  | String c rest =>
      match skip with
      | S k => sub_quoted_from k head repl rest
      | O =>
          if prefix head s
          then
            match quoted_end (substring (String.length head) (String.length s) s) with
            | Some n =>
                repl ++ sub_quoted_from (String.length head + n - 1) head repl rest
            | None => String c (sub_quoted_from 0 head repl rest)
            end
          else String c (sub_quoted_from 0 head repl rest)
      end
  end.

Definition sub_quoted (key repl s : string) : string :=
  sub_quoted_from 0 (key ++ "='") repl s.

(** ** Secrets *)

(** The standard library's [secrets.token_hex] and [secrets.token_urlsafe]
    applied to the bytes that [token_bytes] hands them. *)

Definition digit (alphabet : string) (n : N) : ascii :=
  match get (N.to_nat n) alphabet with
  | Some c => c
  | None => "?"%char
  end.

(** Position of [c] in [alphabet]. *)
Fixpoint index_of (alphabet : string) (c : ascii) : option N :=
  match alphabet with
  | EmptyString => None
  | String a rest =>
      if Ascii.eqb a c then Some 0%N else option_map N.succ (index_of rest c)
  end.

Definition hexdigits : string := "0123456789abcdef".

(** [bytes.hex()]. *)
Fixpoint hex (bs : list Byte.byte) : string :=
  match bs with
  | [] => EmptyString
  | b :: rest =>
      let n := Byte.to_N b in
      String (digit hexdigits (n / 16)) (String (digit hexdigits (n mod 16)) (hex rest))
  end.

(** [bytes.fromhex(s)] on lower-case digits. *)
Fixpoint fromhex (s : string) : option (list Byte.byte) :=
  match s with
  | EmptyString => Some []
  | String _ EmptyString => None
  | String hi (String lo rest) =>
      match index_of hexdigits hi, index_of hexdigits lo, fromhex rest with
      | Some h, Some l, Some bs =>
          option_map (fun b => b :: bs) (Byte.of_N (h * 16 + l))
      | _, _, _ => None
      end
  end.

Definition urlsafe_alphabet : string :=
  "ABCDEFGHIJKLMNOPQRSTUVWXYZabcdefghijklmnopqrstuvwxyz0123456789-_".

(** [base64.urlsafe_b64encode(bs)], with its padding. *)
Fixpoint urlsafe_b64encode (bs : list Byte.byte) : string :=
  let d := digit urlsafe_alphabet in
  match bs with
  | [] => EmptyString
  | [a] =>
      let a := Byte.to_N a in
      String (d (a / 4)%N) (String (d (a mod 4 * 16)%N) "==")
  | [a; b] =>
      let a := Byte.to_N a in
      let b := Byte.to_N b in
      String (d (a / 4)%N) (String (d (a mod 4 * 16 + b / 16)%N)
        (String (d (b mod 16 * 4)%N) "="))
  | a :: b :: c :: rest =>
      let a := Byte.to_N a in
      let b := Byte.to_N b in
      let c := Byte.to_N c in
      String (d (a / 4)%N) (String (d (a mod 4 * 16 + b / 16)%N)
        (String (d (b mod 16 * 4 + c / 64)%N) (String (d (c mod 64)%N)
          (urlsafe_b64encode rest))))
  end.

(** [s.rstrip(c)] for a single character. *)
Fixpoint rstrip (c : ascii) (s : string) : string :=
  match s with
  | EmptyString => EmptyString
  | String x rest =>
      match rstrip c rest with
      | EmptyString => if Ascii.eqb x c then EmptyString else String x EmptyString
      | kept => String x kept
      end
  end.

(** The inverse direction, on text without padding: four characters give
    three bytes, a tail of three gives two and a tail of two gives one. *)
Fixpoint urlsafe_b64decode (s : string) : option (list Byte.byte) :=
  let ix := index_of urlsafe_alphabet in
  match s with
  | EmptyString => Some []
  | String _ EmptyString => None
  | String c1 (String c2 EmptyString) =>
      match ix c1, ix c2 with
      | Some s1, Some s2 =>
          option_map (fun a => [a]) (Byte.of_N (s1 * 4 + s2 / 16)%N)
      | _, _ => None
      end
  | String c1 (String c2 (String c3 EmptyString)) =>
      match ix c1, ix c2, ix c3 with
      | Some s1, Some s2, Some s3 =>
          match Byte.of_N (s1 * 4 + s2 / 16)%N, Byte.of_N (s2 mod 16 * 16 + s3 / 4)%N with
          | Some a, Some b => Some [a; b]
          | _, _ => None
          end
      | _, _, _ => None
      end
  | String c1 (String c2 (String c3 (String c4 rest))) =>
      match ix c1, ix c2, ix c3, ix c4, urlsafe_b64decode rest with
      | Some s1, Some s2, Some s3, Some s4, Some bs =>
          match Byte.of_N (s1 * 4 + s2 / 16)%N, Byte.of_N (s2 mod 16 * 16 + s3 / 4)%N,
                Byte.of_N (s3 mod 4 * 64 + s4)%N with
          | Some a, Some b, Some c => Some (a :: b :: c :: bs)
          | _, _, _ => None
          end
      | _, _, _, _, _ => None
      end
  end.

(** ** The workflow monad *)

Section Workflow.

Variables DB Cache Plugins : Type.

(** The collaborators, the installation directory [BASE_PATH] of
    [backend.core.path_conf] and the package's [__version__]. *)
Variable X : Collaborators DB Cache Plugins.
Variable BASE_PATH : string.
Variable version : string.

Abbreviation W := (World DB Cache Plugins).

(** A computation reads and changes the world and either returns a value or
    raises; the world survives an exception. *)
Definition M (A : Type) : Type := W -> Outcome A * W.

Definition ret {A : Type} (a : A) : M A := fun w => (Returns a, w).

Definition raise {A : Type} (e : Thrown) : M A := fun w => (Raises e, w).

Definition bind {A B : Type} (m : M A) (k : A -> M B) : M B :=
  fun w =>
    match m w with
    | (Returns a, w') => k a w'
    | (Raises e, w') => (Raises e, w')
    end.

Notation "x <- m ;; k" := (bind m (fun x => k))
  (at level 61, m at next level, right associativity).
Notation "m ;; k" := (bind m (fun _ => k))
  (at level 61, right associativity).

(** [try: body / except Exception as e: handler e].  A [cappa.Exit] raised
    in the body is not caught. *)
Definition try_except {A : Type} (body : M A) (handler : Exn -> M A) : M A :=
  fun w =>
    match body w with
    | (Returns a, w') => (Returns a, w')
    | (Raises (Error e), w') => handler e w'
    | (Raises (Exit message code), w') => (Raises (Exit message code), w')
    end.

(** [try: body / finally: cleanup]. *)
Definition try_finally {A : Type} (body : M A) (cleanup : M unit) : M A :=
  fun w =>
    match body w with
    | (r, w') =>
        match cleanup w' with
        | (Returns _, w'') => (r, w'')
        | (Raises e, w'') => (Raises e, w'')
        end
    end.

(** [for x in xs: body x]. *)
Fixpoint for_each {A : Type} (xs : list A) (body : A -> M unit) : M unit :=
  match xs with
  | [] => ret tt
  | x :: rest => body x ;; for_each rest body
  end.

(** *** Field updates of the world *)

Definition log (e : Event) (w : W) : W :=
  {| settings := settings w; db := db w; cache := cache w;
     plugins := plugins w; files := files w; readonly := readonly w;
     answers := answers w; entropy := entropy w; drawn := drawn w;
     trace := (trace w ++ [e])%list |}.

Definition with_settings (s : Settings) (w : W) : W :=
  {| settings := s; db := db w; cache := cache w;
     plugins := plugins w; files := files w; readonly := readonly w;
     answers := answers w; entropy := entropy w; drawn := drawn w;
     trace := trace w |}.

Definition with_db (d : DB) (w : W) : W :=
  {| settings := settings w; db := d; cache := cache w;
     plugins := plugins w; files := files w; readonly := readonly w;
     answers := answers w; entropy := entropy w; drawn := drawn w;
     trace := trace w |}.

Definition with_cache (c : Cache) (w : W) : W :=
  {| settings := settings w; db := db w; cache := c;
     plugins := plugins w; files := files w; readonly := readonly w;
     answers := answers w; entropy := entropy w; drawn := drawn w;
     trace := trace w |}.

Definition with_plugins (p : Plugins) (w : W) : W :=
  {| settings := settings w; db := db w; cache := cache w;
     plugins := p; files := files w; readonly := readonly w;
     answers := answers w; entropy := entropy w; drawn := drawn w;
     trace := trace w |}.

Definition with_files (f : string -> option string) (w : W) : W :=
  {| settings := settings w; db := db w; cache := cache w;
     plugins := plugins w; files := f; readonly := readonly w;
     answers := answers w; entropy := entropy w; drawn := drawn w;
     trace := trace w |}.

Definition with_answers (a : list string) (w : W) : W :=
  {| settings := settings w; db := db w; cache := cache w;
     plugins := plugins w; files := files w; readonly := readonly w;
     answers := a; entropy := entropy w; drawn := drawn w;
     trace := trace w |}.

Definition with_drawn (n : nat) (w : W) : W :=
  {| settings := settings w; db := db w; cache := cache w;
     plugins := plugins w; files := files w; readonly := readonly w;
     answers := answers w; entropy := entropy w; drawn := n;
     trace := trace w |}.

(** *** Console *)

(** [console.print(text, style=...)]; the style is dropped. *)
Definition console_print (text : string) : M unit :=
  fun w => (Returns tt, log (Print text) w).

(** [console.print(Panel(content, title=title, ...))]. *)
Definition console_print_panel (title content : string) : M unit :=
  fun w => (Returns tt, log (PrintPanel title content) w).

(** [Prompt.ask(prompt, choices=..., default=...)]: returns what the user
    settles on, the next of [answers]; at the end of the input it raises
    [EOFError].  A prompt without choices has the empty list; the
    [password] flag, which only hides the typing, is dropped. *)
Definition Prompt_ask (prompt : string) (choices : list string)
    (default : string) : M string :=
  fun w =>
    match answers w with
    | a :: rest => (Returns a, with_answers rest (log (Ask prompt choices default) w))
    | [] => (Raises (Exception "EOF when reading a line"),
             log (Ask prompt choices default) w)
    end.

Definition get_settings : M Settings := fun w => (Returns (settings w), w).

(** *** Database session and transaction *)

(** [async with async_db_session.begin() as db: body]: the body works on the
    server inside a transaction, committed when the body returns and rolled
    back, before the exception travels on, when it raises. *)
Definition session_begin {A : Type} (body : M A) : M A :=
  fun w =>
    let saved := db w in
    match body (log Begin w) with
    | (Returns a, w') => (Returns a, log Commit w')
    | (Raises e, w') => (Raises e, log Rollback (with_db saved w'))
    end.

(** [await db.execute(text(stmt))]. *)
Definition session_execute (stmt : string) : M unit :=
  fun w =>
    match db_execute X stmt (db w) with
    | inr d => (Returns tt, log (Execute stmt true) (with_db d w))
    | inl e => (Raises e, log (Execute stmt false) w)
    end.

(** [await parse_sql_script(path)]. *)
Definition parse_sql_script (path : string) : M (list string) :=
  fun w =>
    match sql_split X path (files w) with
    | inr stmts => (Returns stmts, log (ParseScript path true) w)
    | inl e => (Raises e, log (ParseScript path false) w)
    end.

(** ** [execute_sql_scripts] *)

Definition execute_sql_scripts (sql_scripts : string) (is_init : bool) : M unit :=
  session_begin
    (try_except
       (stmts <- parse_sql_script sql_scripts ;;
        for_each stmts (fun stmt => session_execute stmt))
       (fun e => raise (Exit ("SQL 脚本执行失败：" ++ str e) 1))) ;;
  if negb is_init
  then console_print "SQL 脚本已执行完成"
  else ret tt.

(** ** [get_sql_scripts] *)

(** [await anyio.Path(p).exists()]. *)
Definition path_exists (path : string) : M bool :=
  fun w => (Returns (match files w path with Some _ => true | None => false end), w).

(** [get_plugins()]. *)
Definition get_plugins : M (list string) :=
  fun w => (Returns (plugin_names X (plugins w)), w).

(** [await get_plugin_sql(plugin, db_type, pk_type)]. *)
Definition get_plugin_sql (plugin db_type pk_type : string) : M (option string) :=
  fun w => (Returns (plugin_sql X plugin db_type pk_type (plugins w)), w).

(** [for x in xs: acc = body acc x], for loops that grow a local list. *)
Fixpoint for_fold {A S : Type} (xs : list A) (acc : S) (body : S -> A -> M S) : M S :=
  match xs with
  | [] => ret acc
  | x :: rest => acc' <- body acc x ;; for_fold rest acc' body
  end.

(** The local variables [db_dir] and [main_sql_file]. *)
Definition db_dir (s : Settings) : string :=
  if DataBaseType.mysql =? DATABASE_TYPE s
  then BASE_PATH // "sql" // "mysql"
  else BASE_PATH // "sql" // "postgresql".

Definition main_sql_file (s : Settings) : string :=
  if PrimaryKeyType.autoincrement =? DATABASE_PK_MODE s
  then db_dir s // "init_test_data.sql"
  else db_dir s // "init_snowflake_test_data.sql".

Definition get_sql_scripts : M (list string) :=
  s <- get_settings ;;
  let sql_scripts : list string := [] in
  let main_sql_file := main_sql_file s in
  main_exists <- path_exists main_sql_file ;;
  let sql_scripts :=
    if main_exists then (sql_scripts ++ [main_sql_file])%list else sql_scripts in
  plugins <- get_plugins ;;
  for_fold plugins sql_scripts
    (fun sql_scripts plugin =>
       s <- get_settings ;;
       plugin_sql <- get_plugin_sql plugin (DATABASE_TYPE s) (DATABASE_PK_MODE s) ;;
       match plugin_sql with
       | Some script =>
           if truthy plugin_sql then ret (sql_scripts ++ [script])%list else ret sql_scripts
       | None => ret sql_scripts
       end).

(** ** [create_database_if_not_exists] *)

(** The administrative address and the queries of one dialect: the local
    variables [url], [check_sql], [terminate_sql], [drop_sql] and
    [create_sql]. *)
Record Provisioning : Type := {
  url : URL;
  check_sql : string;
  terminate_sql : option string;
  drop_sql : string;
  create_sql : string
}.

Definition provisioning (s : Settings) : Provisioning :=
  if DataBaseType.mysql =? DATABASE_TYPE s
  then
    {| url := {| drivername := "mysql+asyncmy";
                 username := DATABASE_USER s;
                 password := DATABASE_PASSWORD s;
                 host := DATABASE_HOST s;
                 port := DATABASE_PORT s;
                 database := None |};
       check_sql := "SHOW DATABASES LIKE '" ++ DATABASE_SCHEMA s ++ "'";
       terminate_sql := None;
       drop_sql := "DROP DATABASE IF EXISTS `" ++ DATABASE_SCHEMA s ++ "`";
       create_sql :=
         "CREATE DATABASE `" ++ DATABASE_SCHEMA s ++ "` CHARACTER SET "
         ++ DATABASE_CHARSET s ++ " COLLATE " ++ DATABASE_CHARSET s ++ "_unicode_ci" |}
  else
    {| url := {| drivername := "postgresql+asyncpg";
                 username := DATABASE_USER s;
                 password := DATABASE_PASSWORD s;
                 host := DATABASE_HOST s;
                 port := DATABASE_PORT s;
                 database := Some "postgres" |};
       check_sql := "SELECT 1 FROM pg_database WHERE datname = '" ++ DATABASE_SCHEMA s ++ "'";
       terminate_sql :=
         Some ("SELECT pg_terminate_backend(pid) FROM pg_stat_activity "
               ++ "WHERE datname = '" ++ DATABASE_SCHEMA s ++ "' AND pid <> pg_backend_pid()");
       drop_sql := "DROP DATABASE IF EXISTS " ++ DATABASE_SCHEMA s;
       create_sql := "CREATE DATABASE " ++ DATABASE_SCHEMA s |}.

(** [URL.create(drivername=..., ...)]: the address, or an exception. *)
Definition URL_create (u : URL) : M URL :=
  fun w =>
    match url_create X u with
    | None => (Returns u, w)
    | Some e => (Raises e, w)
    end.

(** [create_async_engine(url, isolation_level='AUTOCOMMIT')]. *)
Definition create_async_engine (u : URL) : M unit :=
  fun w =>
    match engine_create X u with
    | None => (Returns tt, w)
    | Some e => (Raises e, w)
    end.

(** [async with engine.connect() as conn]: opening the connection. *)
Definition engine_connect (u : URL) : M unit :=
  fun w =>
    match admin_connect X u (db w) with
    | None => (Returns tt, log (Connect u true) w)
    | Some e => (Raises e, log (Connect u false) w)
    end.

(** [await conn.execute(text(sql))] under AUTOCOMMIT; returns
    [result.fetchone() is not None]. *)
Definition conn_execute (sql : string) : M bool :=
  fun w =>
    match admin_execute X sql (db w) with
    | inr (row, d) => (Returns row, log (AdminExecute sql true) (with_db d w))
    | inl e => (Raises e, log (AdminExecute sql false) w)
    end.

(** [await engine.dispose()]. *)
Definition engine_dispose : M unit :=
  fun w => (Returns tt, log Dispose w).

Definition create_database_if_not_exists : M bool :=
  try_except
    (s <- get_settings ;;
     let q := provisioning s in
     url <- URL_create (url q) ;;
     create_async_engine url ;;
     try_finally
       (engine_connect url ;;
        exists_ <- conn_execute (check_sql q) ;;
        console_print ("重建 " ++ DATABASE_SCHEMA s ++ " 数据库...") ;;
        (if exists_ : bool
         then
           match terminate_sql q with
           | Some sql =>
               if truthy (terminate_sql q)
               then _ <- conn_execute sql ;; ret tt
               else ret tt
           | None => ret tt
           end ;;
           _ <- conn_execute (drop_sql q) ;; ret tt
         else ret tt) ;;
        _ <- conn_execute (create_sql q) ;;
        console_print "数据库创建成功")
       engine_dispose ;;
     ret true)
    (fun e =>
       console_print ("数据库创建失败: " ++ str e) ;;
       ret false).

(** ** [setup_env_file] *)

(** [Path(p).read_text(encoding='utf-8')]. *)
Definition read_text (path : string) : M string :=
  fun w =>
    match files w path with
    | Some content => (Returns content, log (ReadText path true) w)
    | None =>
        (Raises (Exception ("[Errno 2] No such file or directory: '" ++ path ++ "'")),
         log (ReadText path false) w)
    end.

(** [Path(p).write_text(content, encoding='utf-8')]. *)
Definition write_text (path content : string) : M unit :=
  fun w =>
    if readonly w path
    then (Raises (Exception ("[Errno 13] Permission denied: '" ++ path ++ "'")),
          log (WriteText path content false) w)
    else (Returns tt,
          log (WriteText path content true)
            (with_files (fun p => if p =? path then Some content else files w p) w)).

(** [secrets.token_bytes(nbytes)]: the next [nbytes] bytes of the system's
    entropy. *)
Definition token_bytes (nbytes : nat) : M (list Byte.byte) :=
  fun w =>
    (Returns (map (fun i => entropy w (drawn w + i)) (seq 0 nbytes)),
     with_drawn (drawn w + nbytes) w).

(** [secrets.token_urlsafe(nbytes)]. *)
Definition token_urlsafe (nbytes : nat) : M string :=
  tok <- token_bytes nbytes ;;
  ret (rstrip "=" (urlsafe_b64encode tok)).

(** [secrets.token_hex(nbytes)]. *)
Definition token_hex (nbytes : nat) : M string :=
  tok <- token_bytes nbytes ;;
  ret (hex tok).

(** The attributes of [settings] that [setup_env_file] assigns. *)
Inductive Field : Type :=
| F_DATABASE_TYPE | F_DATABASE_HOST | F_DATABASE_PORT | F_DATABASE_USER
| F_DATABASE_PASSWORD | F_REDIS_HOST | F_REDIS_PORT | F_REDIS_PASSWORD
| F_REDIS_DATABASE | F_TOKEN_SECRET_KEY | F_OPERA_LOG_ENCRYPT_SECRET_KEY.

Definition Field_eqb (f g : Field) : bool :=
  match f, g with
  | F_DATABASE_TYPE, F_DATABASE_TYPE | F_DATABASE_HOST, F_DATABASE_HOST
  | F_DATABASE_PORT, F_DATABASE_PORT | F_DATABASE_USER, F_DATABASE_USER
  | F_DATABASE_PASSWORD, F_DATABASE_PASSWORD | F_REDIS_HOST, F_REDIS_HOST
  | F_REDIS_PORT, F_REDIS_PORT | F_REDIS_PASSWORD, F_REDIS_PASSWORD
  | F_REDIS_DATABASE, F_REDIS_DATABASE | F_TOKEN_SECRET_KEY, F_TOKEN_SECRET_KEY
  | F_OPERA_LOG_ENCRYPT_SECRET_KEY, F_OPERA_LOG_ENCRYPT_SECRET_KEY => true
  | _, _ => false
  end.

Definition assign (f : Field) (v : string) (s : Settings) : Settings :=
  let pick g old := if Field_eqb f g then v else old in
  {| DATABASE_TYPE := pick F_DATABASE_TYPE (DATABASE_TYPE s);
     DATABASE_HOST := pick F_DATABASE_HOST (DATABASE_HOST s);
     DATABASE_PORT := pick F_DATABASE_PORT (DATABASE_PORT s);
     DATABASE_USER := pick F_DATABASE_USER (DATABASE_USER s);
     DATABASE_PASSWORD := pick F_DATABASE_PASSWORD (DATABASE_PASSWORD s);
     DATABASE_SCHEMA := DATABASE_SCHEMA s;
     DATABASE_CHARSET := DATABASE_CHARSET s;
     DATABASE_PK_MODE := DATABASE_PK_MODE s;
     REDIS_HOST := pick F_REDIS_HOST (REDIS_HOST s);
     REDIS_PORT := pick F_REDIS_PORT (REDIS_PORT s);
     REDIS_PASSWORD := pick F_REDIS_PASSWORD (REDIS_PASSWORD s);
     REDIS_DATABASE := pick F_REDIS_DATABASE (REDIS_DATABASE s);
     TOKEN_SECRET_KEY := pick F_TOKEN_SECRET_KEY (TOKEN_SECRET_KEY s);
     OPERA_LOG_ENCRYPT_SECRET_KEY :=
       pick F_OPERA_LOG_ENCRYPT_SECRET_KEY (OPERA_LOG_ENCRYPT_SECRET_KEY s);
     JWT_USER_REDIS_PREFIX := JWT_USER_REDIS_PREFIX s;
     TOKEN_EXTRA_INFO_REDIS_PREFIX := TOKEN_EXTRA_INFO_REDIS_PREFIX s;
     TOKEN_REDIS_PREFIX := TOKEN_REDIS_PREFIX s;
     TOKEN_REFRESH_REDIS_PREFIX := TOKEN_REFRESH_REDIS_PREFIX s |}.

(** [settings.FIELD = v]. *)
Definition set_setting (f : Field) (v : string) : M unit :=
  fun w => (Returns tt, with_settings (assign f v (settings w)) w).

Definition setup_env_file : M bool :=
  let env_path := BASE_PATH // ".env" in
  let env_example_path := BASE_PATH // ".env.example" in
  example_exists <- path_exists env_example_path ;;
  if negb example_exists
  then
    console_print ".env.example 文件不存在" ;;
    ret false
  else
    try_except
      (env_content <- read_text env_example_path ;;
       console_print "配置数据库连接信息..." ;;
       db_type <- Prompt_ask "数据库类型" ["mysql"; "postgresql"] "postgresql" ;;
       db_host <- Prompt_ask "数据库主机" [] "127.0.0.1" ;;
       db_port <- Prompt_ask "数据库端口" []
                    (if db_type =? "postgresql" then "5432" else "3306") ;;
       db_user <- Prompt_ask "数据库用户名" []
                    (if db_type =? "postgresql" then "postgres" else "root") ;;
       db_password <- Prompt_ask "数据库密码" [] "123456" ;;

       console_print "配置 Redis 连接信息..." ;;
       redis_host <- Prompt_ask "Redis 主机" [] "127.0.0.1" ;;
       redis_port <- Prompt_ask "Redis 端口" [] "6379" ;;
       redis_password <- Prompt_ask "Redis 密码（留空表示无密码）" [] "" ;;
       redis_db <- Prompt_ask "Redis 数据库编号" [] "0" ;;

       console_print "生成 Token 和操作日志密钥..." ;;
       token_secret <- token_urlsafe 32 ;;
       opera_log_secret <- token_hex 32 ;;

       console_print "写入 .env 文件..." ;;
       let env_content :=
         replace "DATABASE_TYPE='postgresql'" ("DATABASE_TYPE='" ++ db_type ++ "'") env_content in
       set_setting F_DATABASE_TYPE db_type ;;
       let env_content :=
         replace "DATABASE_HOST='127.0.0.1'" ("DATABASE_HOST='" ++ db_host ++ "'") env_content in
       set_setting F_DATABASE_HOST db_host ;;
       let env_content :=
         replace "DATABASE_PORT=5432" ("DATABASE_PORT=" ++ db_port) env_content in
       set_setting F_DATABASE_PORT db_port ;;
       let env_content :=
         replace "DATABASE_USER='postgres'" ("DATABASE_USER='" ++ db_user ++ "'") env_content in
       set_setting F_DATABASE_USER db_user ;;
       let env_content :=
         replace "DATABASE_PASSWORD='123456'" ("DATABASE_PASSWORD='" ++ db_password ++ "'")
           env_content in
       set_setting F_DATABASE_PASSWORD db_password ;;
       let env_content :=
         replace "REDIS_HOST='127.0.0.1'" ("REDIS_HOST='" ++ redis_host ++ "'") env_content in
       set_setting F_REDIS_HOST redis_host ;;
       let env_content :=
         replace "REDIS_PORT=6379" ("REDIS_PORT=" ++ redis_port) env_content in
       set_setting F_REDIS_PORT redis_port ;;
       let env_content :=
         replace "REDIS_PASSWORD=''" ("REDIS_PASSWORD='" ++ redis_password ++ "'") env_content in
       set_setting F_REDIS_PASSWORD redis_password ;;
       let env_content :=
         replace "REDIS_DATABASE=0" ("REDIS_DATABASE=" ++ redis_db) env_content in
       set_setting F_REDIS_DATABASE redis_db ;;
       let env_content :=
         sub_quoted "TOKEN_SECRET_KEY" ("TOKEN_SECRET_KEY='" ++ token_secret ++ "'")
           env_content in
       set_setting F_TOKEN_SECRET_KEY token_secret ;;
       let env_content :=
         sub_quoted "OPERA_LOG_ENCRYPT_SECRET_KEY"
           ("OPERA_LOG_ENCRYPT_SECRET_KEY='" ++ opera_log_secret ++ "'") env_content in
       set_setting F_OPERA_LOG_ENCRYPT_SECRET_KEY opera_log_secret ;;

       write_text env_path env_content ;;
       console_print ".env 文件创建成功" ;;
       ret true)
      (fun e =>
         console_print (".env 文件创建失败: " ++ str e) ;;
         ret false).

(** ** [init] *)

(** [await redis_client.delete_prefix(prefix)]. *)
Definition delete_prefix (prefix : string) : M unit :=
  fun w =>
    match redis_delete_prefix X prefix (cache w) with
    | inr c => (Returns tt, log (DeletePrefix prefix true) (with_cache c w))
    | inl e => (Raises e, log (DeletePrefix prefix false) w)
    end.

(** [await drop_tables()]. *)
Definition drop_tables : M unit :=
  fun w =>
    match drop_all X (db w) with
    | inr d => (Returns tt, log (DropTables true) (with_db d w))
    | inl e => (Raises e, log (DropTables false) w)
    end.

(** [await create_tables()]. *)
Definition create_tables : M unit :=
  fun w =>
    match create_all X (db w) with
    | inr d => (Returns tt, log (CreateTables true) (with_db d w))
    | inl e => (Raises e, log (CreateTables false) w)
    end.

(** The question that [init] asks before it touches anything. *)
Definition init_question : string :=
  "即将[red]新建/重建数据库表[/red]并[red]执行所有数据库脚本[/red]，确认继续吗？".

(** The body of the [try] block of [init]. *)
Definition init_try : M unit :=
  console_print "清理 Redis 缓存" ;;
  s <- get_settings ;;
  delete_prefix (JWT_USER_REDIS_PREFIX s) ;;
  delete_prefix (TOKEN_EXTRA_INFO_REDIS_PREFIX s) ;;
  delete_prefix (TOKEN_REDIS_PREFIX s) ;;
  delete_prefix (TOKEN_REFRESH_REDIS_PREFIX s) ;;
  console_print "重建数据库表" ;;
  drop_tables ;;
  create_tables ;;
  console_print "执行 SQL 脚本" ;;
  sql_scripts <- get_sql_scripts ;;
  for_each sql_scripts
    (fun sql_script =>
       console_print ("正在执行：" ++ sql_script) ;;
       execute_sql_scripts sql_script true) ;;
  console_print "初始化成功" ;;
  console_print (nl ++ "快试试 [bold cyan]fba run[/bold cyan] 启动服务吧~").

(** The text of the panel that [init] shows. *)
Definition init_panel (s : Settings) (plugins : list string) : string :=
  "【数据库配置】"
  ++ nl ++ nl ++ "  • 类型: " ++ DATABASE_TYPE s
  ++ nl ++ "  • 数据库：" ++ DATABASE_SCHEMA s
  ++ nl ++ "  • 主机：" ++ DATABASE_HOST s ++ ":" ++ DATABASE_PORT s
  ++ nl ++ "  • 主键模式：" ++ DATABASE_PK_MODE s
  ++ "（了解详情）"
  ++ nl ++ nl ++ "【Redis 配置】"
  ++ nl ++ nl ++ "  • 数据库：" ++ REDIS_DATABASE s
  ++ nl ++ nl ++ "【已安装插件】"
  ++ nl ++ nl ++ "  • "
  ++ match plugins with
     | [] => "无"
     | _ => join ", " plugins
     end.

Definition init : M unit :=
  s <- get_settings ;;
  plugins <- get_plugins ;;
  let panel_content := init_panel s plugins in
  console_print_panel ("fba v" ++ version ++ " 初始化") panel_content ;;
  ok <- Prompt_ask init_question ["y"; "n"] "n" ;;
  if lower ok =? "y"
  then
    console_print "开始初始化..." ;;
    try_except init_try
      (fun e => raise (Exit ("初始化失败：" ++ str e) 1))
  else
    console_print "已取消初始化操作".

(** ** [auto_init] *)

(** The question that [auto_init] asks before the database is rebuilt. *)
Definition database_question : string :=
  "即将[red]新建/重建数据库[/red]，确认继续吗？".

Definition auto_init : M unit :=
  console_print (nl ++ "[bold cyan]步骤 1/3:[/] 配置环境变量") ;;
  let panel_content :=
    "【环境变量配置】"
    ++ nl ++ nl ++ "  • 数据库连接信息"
    ++ nl ++ "  • Redis 连接信息"
    ++ nl ++ "  • Token 密钥（自动生成）" in
  console_print_panel ("fba v" ++ version ++ " 环境变量") panel_content ;;
  env_ok <- setup_env_file ;;
  (if negb env_ok
   then raise (Exit ".env 文件配置失败" 1)
   else ret tt) ;;

  console_print (nl ++ "[bold cyan]步骤 2/3:[/] 数据库创建") ;;
  s <- get_settings ;;
  let panel_content :=
    "【数据库配置】"
    ++ nl ++ nl ++ "  • 类型: " ++ DATABASE_TYPE s
    ++ nl ++ "  • 数据库：" ++ DATABASE_SCHEMA s
    ++ nl ++ "  • 主机：" ++ DATABASE_HOST s ++ ":" ++ DATABASE_PORT s in
  console_print_panel ("fba v" ++ version ++ " 数据库") panel_content ;;
  ok <- Prompt_ask database_question ["y"; "n"] "n" ;;

  (if lower ok =? "y"
   then
     created <- create_database_if_not_exists ;;
     if negb created
     then raise (Exit "数据库创建失败" 1)
     else ret tt
   else
     console_print "已取消数据库操作") ;;

  console_print (nl ++ "[bold cyan]步骤 3/3:[/] 初始化数据库表和数据") ;;
  init.

(** ** [install_plugin] *)

(** [await install_zip_plugin(file=path)]. *)
Definition install_zip_plugin (file : string) : M string :=
  fun w =>
    match zip_install X file (plugins w) with
    | inr (name, p) => (Returns name, log (InstallZip file true) (with_plugins p w))
    | inl e => (Raises e, log (InstallZip file false) w)
    end.

(** [await install_git_plugin(repo_url=repo_url)]. *)
Definition install_git_plugin (repo_url : string) : M string :=
  fun w =>
    match git_install X repo_url (plugins w) with
    | inr (name, p) => (Returns name, log (InstallGit repo_url true) (with_plugins p w))
    | inl e => (Raises e, log (InstallGit repo_url false) w)
    end.

(** [f'{plugin_name}'] for a name that may still be [None]. *)
Definition format_name (plugin_name : option string) : string :=
  match plugin_name with
  | Some name => name
  | None => "None"
  end.

Definition install_plugin (path repo_url : option string) (no_sql : bool)
    (db_type pk_type : string) : M unit :=
  (if andb (negb (truthy path)) (negb (truthy repo_url))
   then raise (Exit "path 或 repo_url 必须指定其中一项" 1)
   else ret tt) ;;
  (if andb (truthy path) (truthy repo_url)
   then raise (Exit "path 和 repo_url 不能同时指定" 1)
   else ret tt) ;;

  let plugin_name : option string := None in
  console_print "开始安装插件..." ;;

  try_except
    (plugin_name <-
       match path with
       | Some file =>
           if truthy path
           then name <- install_zip_plugin file ;; ret (Some name)
           else ret plugin_name
       | None => ret plugin_name
       end ;;
     plugin_name <-
       match repo_url with
       | Some url =>
           if truthy repo_url
           then name <- install_git_plugin url ;; ret (Some name)
           else ret plugin_name
       | None => ret plugin_name
       end ;;

     console_print ("插件 " ++ format_name plugin_name ++ " 安装成功") ;;

     sql_file <- get_plugin_sql (format_name plugin_name) db_type pk_type ;;
     match sql_file with
     | Some script =>
         if andb (truthy sql_file) (negb no_sql)
         then
           console_print "开始自动执行插件 SQL 脚本..." ;;
           execute_sql_scripts script false
         else ret tt
     | None => ret tt
     end)
    (fun e =>
       raise (Exit (match e with
                    | BaseExceptionError msg _ => msg
                    | _ => str e
                    end) 1)).

(** ** The command line: [FbaCli], [Init], [Add] *)

(** [Init.__call__]. *)
Definition Init_call (auto : bool) : M unit :=
  if auto then auto_init else init.

(** [Add.__call__]. *)
Definition Add_call (path repo_url : option string) (no_sql : bool)
    (db_type pk_type : string) : M unit :=
  install_plugin path repo_url no_sql db_type pk_type.

(** [FbaCli.__call__]. *)
Definition FbaCli_call (sql : string) : M unit :=
  if negb (sql =? "")
  then execute_sql_scripts sql false
  else ret tt.

(** The status with which the process ends: 0 when the command returns, the
    code of a [cappa.Exit], and 1 for an exception that nothing caught. *)
Definition exit_status {A : Type} (r : Outcome A) : Z :=
  match r with
  | Returns _ => 0
  | Raises (Exit _ code) => code
  | Raises _ => 1
  end.

(** ** Vocabulary of the properties *)

(** The state that a list of statements, executed one after the other, leads
    to, or the first error. *)
Fixpoint run_statements (stmts : list string) (d : DB) : Exn + DB :=
  match stmts with
  | [] => inr d
  | stmt :: rest =>
      match db_execute X stmt d with
      | inr d' => run_statements rest d'
      | inl e => inl e
      end
  end.

(** The same for the statements of a script file. *)
Definition script_effect (fs : string -> option string) (path : string) (d : DB)
    : Exn + DB :=
  match sql_split X path fs with
  | inr stmts => run_statements stmts d
  | inl e => inl e
  end.

(** And for several scripts, each applied to what the one before left. *)
Fixpoint run_scripts (fs : string -> option string) (paths : list string) (d : DB)
    : Exn + DB :=
  match paths with
  | [] => inr d
  | path :: rest =>
      match script_effect fs path d with
      | inr d' => run_scripts fs rest d'
      | inl e => inl e
      end
  end.

(** The four cache prefixes, cleared one after the other. *)
Definition clear_prefixes (s : Settings) (c : Cache) : Exn + Cache :=
  match redis_delete_prefix X (JWT_USER_REDIS_PREFIX s) c with
  | inl e => inl e
  | inr c1 =>
      match redis_delete_prefix X (TOKEN_EXTRA_INFO_REDIS_PREFIX s) c1 with
      | inl e => inl e
      | inr c2 =>
          match redis_delete_prefix X (TOKEN_REDIS_PREFIX s) c2 with
          | inl e => inl e
          | inr c3 => redis_delete_prefix X (TOKEN_REFRESH_REDIS_PREFIX s) c3
          end
      end
  end.

(** The seed script that a plugin contributes, if any. *)
Definition plugin_script (s : Settings) (p : Plugins) (name : string) : list string :=
  match plugin_sql X name (DATABASE_TYPE s) (DATABASE_PK_MODE s) p with
  | Some script => if script =? "" then [] else [script]
  | None => []
  end.

(** The main seed script, if its file is there. *)
Definition main_script (s : Settings) (fs : string -> option string) : list string :=
  match fs (main_sql_file s) with
  | Some _ => [main_sql_file s]
  | None => []
  end.

(** The scripts of a bulk initialization, in the order of their execution. *)
Definition resolved_scripts (w : W) : list string :=
  (main_script (settings w) (files w)
   ++ flat_map (plugin_script (settings w) (plugins w)) (plugin_names X (plugins w)))%list.

(** *** The expected log of a script run *)

(** The world once the server and the cache have moved on to [d] and [c]
    and [es] was logged. *)
Definition evolve (d : DB) (c : Cache) (es : list Event) (w : W) : W :=
  {| settings := settings w; db := d; cache := c;
     plugins := plugins w; files := files w; readonly := readonly w;
     answers := answers w; entropy := entropy w; drawn := drawn w;
     trace := (trace w ++ es)%list |}.

(** The statements executed, up to and with the first that raises. *)
Fixpoint statements_log (stmts : list string) (d : DB) : list Event :=
  match stmts with
  | [] => []
  | stmt :: rest =>
      match db_execute X stmt d with
      | inr d' => Execute stmt true :: statements_log rest d'
      | inl _ => [Execute stmt false]
      end
  end.

(** The state in which the statements stop: after the last one, or before
    the first that raises. *)
Fixpoint reached (stmts : list string) (d : DB) : DB :=
  match stmts with
  | [] => d
  | stmt :: rest =>
      match db_execute X stmt d with
      | inr d' => reached rest d'
      | inl _ => d
      end
  end.

(** The exit into which [execute_sql_scripts] turns an error. *)
Definition sql_error (e : Exn) : Thrown := Exit ("SQL 脚本执行失败：" ++ str e) 1.

(** The log of one script run in its transaction. *)
Definition script_log (fs : string -> option string) (path : string) (d : DB)
    : list Event :=
  match sql_split X path fs with
  | inl _ => [Begin; ParseScript path false; Rollback]
  | inr stmts =>
      (Begin :: ParseScript path true :: statements_log stmts d
       ++ [match run_statements stmts d with inr _ => Commit | inl _ => Rollback end])%list
  end.

(** The log of the loop of [init] over its scripts. *)
Fixpoint scripts_log (fs : string -> option string) (paths : list string) (d : DB)
    : list Event :=
  match paths with
  | [] => []
  | path :: rest =>
      (Print ("正在执行：" ++ path) :: script_log fs path d
       ++ match script_effect fs path d with
          | inr d' => scripts_log fs rest d'
          | inl _ => []
          end)%list
  end.

(** The state that the scripts leave behind: that of the last script that
    went through. *)
Fixpoint committed (fs : string -> option string) (paths : list string) (d : DB) : DB :=
  match paths with
  | [] => d
  | path :: rest =>
      match script_effect fs path d with
      | inr d' => committed fs rest d'
      | inl _ => d
      end
  end.

End Workflow.

(** *** Reading a log *)

(** The steps of a bulk initialization. *)
Inductive Step : Type :=
| ClearPrefix (prefix : string)
| DropAllTables
| CreateAllTables
| RunScript (path : string).

(** The step that an event opens: a script's run is known by the parsing of
    its file, the first thing done in its transaction. *)
Definition step_of (e : Event) : list Step :=
  match e with
  | DeletePrefix prefix _ => [ClearPrefix prefix]
  | DropTables _ => [DropAllTables]
  | CreateTables _ => [CreateAllTables]
  | ParseScript path _ => [RunScript path]
  | _ => []
  end.

Definition steps_started (es : list Event) : list Step := flat_map step_of es.

(** A call that raised. *)
Definition failed (e : Event) : bool :=
  match e with
  | ReadText _ ok | WriteText _ _ ok | DeletePrefix _ ok | DropTables ok
  | CreateTables ok | Connect _ ok | AdminExecute _ ok | ParseScript _ ok
  | Execute _ ok | InstallZip _ ok | InstallGit _ ok => negb ok
  | _ => false
  end.

(** What is logged after the first call that raised. *)
Fixpoint after_first_failure (es : list Event) : list Event :=
  match es with
  | [] => []
  | e :: rest => if failed e then rest else after_first_failure rest
  end.

(** The queries sent over the administrative connection. *)
Definition query_of (e : Event) : list string :=
  match e with
  | AdminExecute sql _ => [sql]
  | _ => []
  end.

Definition queries (es : list Event) : list string := flat_map query_of es.

(** An event of the database provisioning. *)
Definition provisions (e : Event) : bool :=
  match e with
  | Connect _ _ | AdminExecute _ _ | Dispose => true
  | _ => false
  end.

(** Work on the schema and its data: the tables and the scripts. *)
Definition schema_work (e : Event) : bool :=
  match e with
  | DropTables _ | CreateTables _ | Begin | ParseScript _ _
  | Execute _ _ | Commit | Rollback => true
  | _ => false
  end.

(** The clearing of a cache prefix. *)
Definition clears (e : Event) : bool :=
  match e with
  | DeletePrefix _ _ => true
  | _ => false
  end.

(** An event of the schema initialization: cache clearing or schema work. *)
Definition initializes (e : Event) : bool := clears e || schema_work e.

(** The events before the first that satisfies [P]. *)
Fixpoint before (P : Event -> bool) (es : list Event) : list Event :=
  match es with
  | [] => []
  | e :: rest => if P e then [] else e :: before P rest
  end.

(** The bounds of the transactions. *)
Definition bounds (e : Event) : bool :=
  match e with
  | Begin | Commit | Rollback => true
  | _ => false
  end.

(** A question put to the user. *)
Definition asks (e : Event) : bool :=
  match e with
  | Ask _ _ _ => true
  | _ => false
  end.

(** A yes-or-no confirmation, known by its choices. *)
Definition confirmation_of (e : Event) : list string :=
  match e with
  | Ask prompt ["y"; "n"] _ => [prompt]
  | _ => []
  end.

Definition confirmations (es : list Event) : list string := flat_map confirmation_of es.


(** An event that is not a yes-or-no confirmation. *)
Definition unconfirmed (e : Event) : bool :=
  match confirmation_of e with
  | [] => true
  | _ => false
  end.

(** An event that provisions nothing, initializes nothing and confirms
    nothing. *)
Definition idle (e : Event) : bool :=
  negb (provisions e) && negb (initializes e) && unconfirmed e.

(** The writing of a file. *)
Definition writes (e : Event) : bool :=
  match e with
  | WriteText _ _ _ => true
  | _ => false
  end.

(** Nobody is asked, nothing is provisioned and nothing is written. *)
Definition unattended (e : Event) : bool := negb (provisions e || asks e || writes e).

(** An event that touches neither the schema nor the files and confirms
    nothing. *)
Definition administrative (e : Event) : bool :=
  negb (initializes e || writes e) && unconfirmed e.

(** The disposal of the engine. *)
Definition disposes (e : Event) : bool :=
  match e with
  | Dispose => true
  | _ => false
  end.

(** A call over the administrative connection: its opening or a query. *)
Definition calls_server (e : Event) : bool :=
  match e with
  | Connect _ _ | AdminExecute _ _ => true
  | _ => false
  end.

(** A call of the provisioner that raised. *)
Definition provision_failure (e : Event) : bool := provisions e && failed e.

(** The events after the first that satisfies [P]. *)
Fixpoint after (P : Event -> bool) (es : list Event) : list Event :=
  match es with
  | [] => []
  | e :: rest => if P e then rest else after P rest
  end.

(** A file that was written, the call having returned. *)
Definition written (e : Event) : bool :=
  match e with
  | WriteText _ _ ok => ok
  | _ => false
  end.

(** The two installers. *)
Definition installs_zip (e : Event) : bool :=
  match e with
  | InstallZip _ _ => true
  | _ => false
  end.

Definition installs_git (e : Event) : bool :=
  match e with
  | InstallGit _ _ => true
  | _ => false
  end.

(** ** The sequences, as the specification words them *)

Section Sequences.

Variables DB Cache Plugins : Type.
Variable X : Collaborators DB Cache Plugins.

(** What one step of the bulk initialization does to the server and the
    cache when it goes through, and the exception it meets when it does
    not; a script that fails leaves the server as it found it. *)
Definition step_effect (fs : string -> option string) (st : Step) (d : DB) (c : Cache)
    : Exn + (DB * Cache) :=
  match st with
  | ClearPrefix prefix =>
      match redis_delete_prefix X prefix c with
      | inr c' => inr (d, c')
      | inl e => inl e
      end
  | DropAllTables =>
      match drop_all X d with
      | inr d' => inr (d', c)
      | inl e => inl e
      end
  | CreateAllTables =>
      match create_all X d with
      | inr d' => inr (d', c)
      | inl e => inl e
      end
  | RunScript path =>
      match script_effect X fs path d with
      | inr d' => inr (d', c)
      | inl e => inl e
      end
  end.

(** How far a sequence of steps got: the steps that were started, the step
    that failed with its exception, if one did, and the server and the
    cache at the end. *)
Record Progress : Type := {
  started : list Step;
  stopped : option (Step * Exn);
  server : DB;
  cached : Cache
}.

(** The steps taken one by one in the order of the list, each on what the
    one before left, and none after the first that fails. *)
Fixpoint sequence (fs : string -> option string) (steps : list Step) (d : DB) (c : Cache)
    : Progress :=
  match steps with
  | [] => {| started := []; stopped := None; server := d; cached := c |}
  | st :: rest =>
      match step_effect fs st d c with
      | inl e => {| started := [st]; stopped := Some (st, e); server := d; cached := c |}
      | inr (d', c') =>
          let p := sequence fs rest d' c' in
          {| started := st :: started p; stopped := stopped p;
             server := server p; cached := cached p |}
      end
  end.

(** How far a list of queries got over the administrative connection: the
    queries that were sent, the exception that the last of them met, if it
    met one, and the server at the end. *)
Record Sent : Type := {
  sent : list string;
  refused : option Exn;
  state : DB
}.

(** The queries sent one by one in the order of the list, each on what the
    one before left, and none after the first that fails. *)
Fixpoint send (sqls : list string) (d : DB) : Sent :=
  match sqls with
  | [] => {| sent := []; refused := None; state := d |}
  | sql :: rest =>
      match admin_execute X sql d with
      | inl e => {| sent := [sql]; refused := Some e; state := d |}
      | inr (_, d') =>
          let r := send rest d' in
          {| sent := sql :: sent r; refused := refused r; state := state r |}
      end
  end.

End Sequences.

(** ** [run] *)

(** [str.upper()] on the ASCII letters; other bytes are left alone. *)
Definition upper_ascii (c : ascii) : ascii :=
  let n := nat_of_ascii c in
  if andb (Nat.leb 97 n) (Nat.leb n 122) then ascii_of_nat (n - 32) else c.

Fixpoint upper (s : string) : string :=
  match s with
  | EmptyString => EmptyString
  | String c s' => String (upper_ascii c) (upper s')
  end.

(** [f'{n}'] for an integer. *)
Definition decimal (n : Z) : string := NilZero.string_of_int (Z.to_int n).

(** The fields of [settings] that only [run] reads. *)
Record ServerSettings : Type := {
  FASTAPI_API_V1_PATH : string;
  FASTAPI_DOCS_URL : string;
  FASTAPI_REDOC_URL : string;
  FASTAPI_OPENAPI_URL : option string;
  ENVIRONMENT : string
}.

(** [sys.version_info]. *)
Record VersionInfo : Type := {
  major : Z;
  minor : Z;
  micro : Z
}.

(** The extensions that [CustomReloadFilter] adds to those of
    [PythonFilter]. *)
Definition CustomReloadFilter : list string := [".json"; ".yaml"; ".yml"].

(** The arguments of [granian.Granian(...)]. *)
Module granian.
Record Granian : Type := {
  target : string;
  interface : string;
  address : string;
  port : Z;
  reload : bool;
  reload_filter : list string;
  workers : Z
}.
End granian.

Section Server.

Variables DB Cache Plugins : Type.
Variable X : Collaborators DB Cache Plugins.
Variable version : string.
Variable server : ServerSettings.
Variable version_info : VersionInfo.

(** [run] prints its panel and serves; the value returned here is the server
    on which [serve()] is called. *)
Definition run (host : string) (port : Z) (reload : bool) (workers : Z)
    : M DB Cache Plugins granian.Granian :=
  let url := "http://" ++ host ++ ":" ++ decimal port in
  let docs_url := url ++ FASTAPI_DOCS_URL server in
  let redoc_url := url ++ FASTAPI_REDOC_URL server in
  let openapi_url :=
    url ++ match FASTAPI_OPENAPI_URL server with
           | Some path => path
           | None => ""
           end in
  bind (get_plugins X)
    (fun plugins =>
       let panel_content :=
         "Python 版本："
         ++ decimal (major version_info) ++ "." ++ decimal (minor version_info)
         ++ "." ++ decimal (micro version_info)
         ++ nl ++ "API 请求地址: " ++ url ++ FASTAPI_API_V1_PATH server
         ++ nl ++ nl ++ "环境模式：" ++ upper (ENVIRONMENT server)
         ++ nl ++ "已安装插件："
         ++ match plugins with
            | [] => "无"
            | _ => join ", " plugins
            end
         ++ (if ENVIRONMENT server =? "dev"
             then nl ++ nl ++ "📖 Swagger 文档: " ++ docs_url
                  ++ nl ++ "📚 Redoc   文档: " ++ redoc_url
                  ++ nl ++ "📡 OpenAPI JSON: " ++ openapi_url
             else "")
         ++ nl ++ "🌐 架构官方文档: "
         ++ "https://fastapi-practices.github.io/fastapi_best_architecture_docs/" in
       bind (console_print_panel ("fba v" ++ version) panel_content)
         (fun _ =>
            ret {| granian.target := "backend.main:app";
                   granian.interface := "asgi";
                   granian.address := host;
                   granian.port := port;
                   granian.reload := negb reload;
                   granian.reload_filter := CustomReloadFilter;
                   granian.workers := workers |})).

(** [Run.__call__]. *)
Definition Run_call (host : string) (port : Z) (no_reload : bool) (workers : Z)
    : M DB Cache Plugins granian.Granian :=
  run host port no_reload workers.

End Server.

(** ** A small installation to run the workflow on *)

Module Demo.

(** The server is the list of the statements applied to it, the cache the
    list of the prefixes cleared, the registry the installed plugins with
    their seed scripts. *)
Definition DB : Type := list string.
Definition Cache : Type := list string.
Definition Plugins : Type := list (string * option string).

(** Statements are separated by semicolons. *)
Fixpoint split_from (cur s : string) : list string :=
  match s with
  | EmptyString => if cur =? "" then [] else [cur]
  | String c rest =>
      if Ascii.eqb c ";"
      then cur :: split_from "" rest
      else split_from (cur ++ String c "") rest
  end.

Definition lookup (name : string) (p : Plugins) : option string :=
  match find (fun entry => fst entry =? name) p with
  | Some (_, script) => script
  | None => None
  end.

(** A port is a number when it is made of digits. *)
Fixpoint digits (s : string) : bool :=
  match s with
  | EmptyString => true
  | String c rest =>
      andb (andb (Nat.leb 48 (nat_of_ascii c)) (Nat.leb (nat_of_ascii c) 57))
           (digits rest)
  end.

Definition numeric (s : string) : bool := andb (negb (s =? "")) (digits s).

(** A statement that starts with FAIL raises; the target database is there
    as soon as anything was applied to the server; an address is refused
    when its port is not a number. *)
Definition services : Collaborators DB Cache Plugins :=
  {| db_execute := fun stmt d =>
       if prefix "FAIL" stmt then inl (Exception "boom") else inr (d ++ [stmt])%list;
     admin_execute := fun sql d =>
       if prefix "DROP" sql then inr (false, [])
       else if prefix "CREATE" sql then inr (false, ["<database>"])
       else inr (match d with [] => false | _ => true end, d);
     url_create := fun u =>
       if numeric (port u) then None
       else Some (Exception ("invalid literal for int() with base 10: '"
                             ++ port u ++ "'"));
     engine_create := fun _ => None;
     admin_connect := fun _ _ => None;
     drop_all := fun _ => inr [];
     create_all := fun d => inr (d ++ ["<tables>"])%list;
     redis_delete_prefix := fun prefix c => inr (c ++ [prefix])%list;
     plugin_names := fun p => map fst p;
     plugin_sql := fun name _ _ p => lookup name p;
     zip_install := fun file p => inr ("zip_plugin", (p ++ [("zip_plugin", None)])%list);
     git_install := fun url p => inr ("git_plugin", (p ++ [("git_plugin", None)])%list);
     sql_split := fun path fs =>
       match fs path with
       | Some content => inr (split_from "" content)
       | None => inl (Exception ("no script at " ++ path))
       end |}.

Definition base : string := "/srv/fba".
Definition version : string := "1.0.0".

Definition conf : Settings :=
  {| DATABASE_TYPE := "postgresql";
     DATABASE_HOST := "127.0.0.1";
     DATABASE_PORT := "5432";
     DATABASE_USER := "postgres";
     DATABASE_PASSWORD := "123456";
     DATABASE_SCHEMA := "fba";
     DATABASE_CHARSET := "utf8mb4";
     DATABASE_PK_MODE := "autoincrement";
     REDIS_HOST := "127.0.0.1";
     REDIS_PORT := "6379";
     REDIS_PASSWORD := "";
     REDIS_DATABASE := "0";
     TOKEN_SECRET_KEY := "";
     OPERA_LOG_ENCRYPT_SECRET_KEY := "";
     JWT_USER_REDIS_PREFIX := "fba:user";
     TOKEN_EXTRA_INFO_REDIS_PREFIX := "fba:token_extra_info";
     TOKEN_REDIS_PREFIX := "fba:token";
     TOKEN_REFRESH_REDIS_PREFIX := "fba:refresh_token" |}.

Definition mysql_conf : Settings := assign F_DATABASE_TYPE "mysql" conf.

Definition main_sql : string := "/srv/fba/sql/postgresql/init_test_data.sql".
Definition plugin_b_sql : string := "/srv/fba/plugin/b/sql/postgresql/init.sql".

Definition disk (path : string) : option string :=
  if path =? "/srv/fba/.env.example"
  then Some ("DATABASE_TYPE='postgresql'" ++ nl ++ "TOKEN_SECRET_KEY='x'" ++ nl
             ++ "OPERA_LOG_ENCRYPT_SECRET_KEY='y'" ++ nl)
  else if path =? main_sql then Some "INSERT m1;INSERT m2"
  else if path =? plugin_b_sql
  then Some "INSERT b1;INSERT b2;FAIL b3;INSERT b4;INSERT b5"
  else None.

(** The same disk without the main seed script. *)
Definition disk_without_main (path : string) : option string :=
  if path =? main_sql then None else disk path.

Definition registry : Plugins := [("a", None); ("b", Some plugin_b_sql)].

Definition random (i : nat) : Byte.byte :=
  match Byte.of_N (N.of_nat (7 * i + 3) mod 256) with
  | Some b => b
  | None => Byte.x00
  end.

(** A world with the given settings, disk and typed answers. *)
Definition world (s : Settings) (fs : string -> option string) (typed : list string)
    : World DB Cache Plugins :=
  {| settings := s; db := ["<old>"]; cache := []; plugins := registry;
     files := fs; readonly := fun _ => false; answers := typed;
     entropy := random; drawn := 0; trace := [] |}.

Definition nine_answers : list string :=
  ["postgresql"; "127.0.0.1"; "5432"; "postgres"; "123456";
   "127.0.0.1"; "6379"; ""; "0"].

End Demo.

(** ** The same installation with one service out of order *)

Module Outage.

Inductive Fault : Type :=
| cache_down
| drop_down
| create_down
| server_down
| archive_bad
| seeded.

(** The services of [Demo], except for the one that is out of order.  With
    [archive_bad] the archive of a plugin is refused with a project error;
    otherwise the plugin installed from an archive comes with a seed
    script. *)
Definition services (f : Fault) : Collaborators Demo.DB Demo.Cache Demo.Plugins :=
  {| db_execute := db_execute Demo.services;
     admin_execute := admin_execute Demo.services;
     url_create := url_create Demo.services;
     engine_create := engine_create Demo.services;
     admin_connect := fun _ _ =>
       match f with
       | server_down => Some (Exception "connection refused")
       | _ => None
       end;
     drop_all := fun d =>
       match f with
       | drop_down => inl (Exception "cannot drop")
       | _ => drop_all Demo.services d
       end;
     create_all := fun d =>
       match f with
       | create_down => inl (Exception "cannot create")
       | _ => create_all Demo.services d
       end;
     redis_delete_prefix := fun prefix c =>
       match f with
       | cache_down => inl (Exception "redis is down")
       | _ => redis_delete_prefix Demo.services prefix c
       end;
     plugin_names := plugin_names Demo.services;
     plugin_sql := plugin_sql Demo.services;
     zip_install := fun file p =>
       match f with
       | archive_bad => inl (BaseExceptionError "插件压缩包格式非法" "400: 插件压缩包格式非法")
       | _ => inr ("seeded", (p ++ [("seeded", Some Demo.main_sql)])%list)
       end;
     git_install := git_install Demo.services;
     sql_split := sql_split Demo.services |}.

(** A world whose files cannot be written. *)
Definition locked (typed : list string) : World Demo.DB Demo.Cache Demo.Plugins :=
  {| settings := Demo.conf; db := ["<old>"]; cache := []; plugins := Demo.registry;
     files := Demo.disk; readonly := fun _ => true; answers := typed;
     entropy := Demo.random; drawn := 0; trace := [] |}.

(** What is typed for a MySQL server on another host. *)
Definition mysql_answers : list string :=
  ["mysql"; "db.local"; "3306"; "root"; "secret"; "cache.local"; "6380"; "pw"; "1"].

(** A production server. *)
Definition production : ServerSettings :=
  {| FASTAPI_API_V1_PATH := "/api/v1";
     FASTAPI_DOCS_URL := "/docs";
     FASTAPI_REDOC_URL := "/redoc";
     FASTAPI_OPENAPI_URL := Some "/openapi";
     ENVIRONMENT := "prod" |}.

End Outage.

(** * Properties *)

(** ** Logs *)

Lemma steps_started_app (es1 es2 : list Event) :
  steps_started (es1 ++ es2) = (steps_started es1 ++ steps_started es2)%list.
Proof. unfold steps_started. apply flat_map_app. Qed.

Lemma queries_app (es1 es2 : list Event) :
  queries (es1 ++ es2) = (queries es1 ++ queries es2)%list.
Proof. unfold queries. apply flat_map_app. Qed.

Lemma confirmations_app (es1 es2 : list Event) :
  confirmations (es1 ++ es2) = (confirmations es1 ++ confirmations es2)%list.
Proof. unfold confirmations. apply flat_map_app. Qed.

Lemma after_first_failure_app (es1 es2 : list Event) :
  after_first_failure (es1 ++ es2) =
  if existsb failed es1
  then (after_first_failure es1 ++ es2)%list
  else after_first_failure es2.
Proof.
  induction es1 as [|e es1 IH]; simpl; [reflexivity|].
  destruct (failed e); simpl; [reflexivity | exact IH].
Qed.

Section ScriptRunner.

Variables DB Cache Plugins : Type.
Variable X : Collaborators DB Cache Plugins.

Abbreviation W := (World DB Cache Plugins).

(** ** Worlds *)

Lemma evolve_nothing (w : W) : evolve (db w) (cache w) [] w = w.
Proof. destruct w; unfold evolve; simpl. rewrite app_nil_r. reflexivity. Qed.

Lemma evolve_evolve (d d' : DB) (c c' : Cache) (es es' : list Event) (w : W) :
  evolve d' c' es' (evolve d c es w) = evolve d' c' (es ++ es') w.
Proof. unfold evolve; simpl. rewrite app_assoc. reflexivity. Qed.

Lemma log_evolve (e : Event) (d : DB) (c : Cache) (es : list Event) (w : W) :
  log e (evolve d c es w) = evolve d c (es ++ [e]) w.
Proof. unfold log, evolve; simpl. rewrite app_assoc. reflexivity. Qed.

Lemma with_db_evolve (d d' : DB) (c : Cache) (es : list Event) (w : W) :
  with_db d' (evolve d c es w) = evolve d' c es w.
Proof. reflexivity. Qed.

Lemma with_cache_evolve (d : DB) (c c' : Cache) (es : list Event) (w : W) :
  with_cache c' (evolve d c es w) = evolve d c' es w.
Proof. reflexivity. Qed.

(** ** The statements of a script *)

Lemma for_each_execute (stmts : list string) :
  forall (d : DB) (c : Cache) (es : list Event) (w : W),
    for_each stmts (fun stmt => session_execute X stmt) (evolve d c es w) =
    (match run_statements X stmts d with
     | inr _ => Returns tt
     | inl e => Raises e
     end,
     evolve (reached X stmts d) c (es ++ statements_log X stmts d) w).
Proof.
  induction stmts as [|stmt rest IH]; intros d c es w; simpl.
  - rewrite app_nil_r. reflexivity.
  - unfold bind, session_execute at 1. simpl.
    destruct (db_execute X stmt d) as [e|d1] eqn:Hstmt.
    + rewrite log_evolve. reflexivity.
    + rewrite with_db_evolve, log_evolve, IH.
      rewrite <- app_assoc. reflexivity.
Qed.

Lemma reached_run_statements (stmts : list string) :
  forall (d d' : DB), run_statements X stmts d = inr d' -> reached X stmts d = d'.
Proof.
  induction stmts as [|stmt rest IH]; intros d d' H; simpl in *.
  - congruence.
  - destruct (db_execute X stmt d); [discriminate | auto].
Qed.

(** ** One script *)

Lemma execute_sql_scripts_run (path : string) (is_init : bool)
    (d : DB) (c : Cache) (es : list Event) (w : W) :
  execute_sql_scripts X path is_init (evolve d c es w) =
  match script_effect X (files w) path d with
  | inr d' =>
      (Returns tt,
       evolve d' c
         (es ++ script_log X (files w) path d
          ++ if is_init then [] else [Print "SQL 脚本已执行完成"]) w)
  | inl e =>
      (Raises (sql_error e), evolve d c (es ++ script_log X (files w) path d) w)
  end.
Proof.
  unfold execute_sql_scripts, bind, session_begin, try_except, parse_sql_script,
    script_effect, script_log, raise, sql_error.
  simpl.
  destruct (sql_split X path (files w)) as [e|stmts] eqn:Hsplit.
  - rewrite !log_evolve, with_db_evolve, !log_evolve.
    rewrite <- !app_assoc. reflexivity.
  - rewrite !log_evolve, for_each_execute.
    destruct (run_statements X stmts d) as [e|d'] eqn:Hrun.
    + rewrite with_db_evolve, log_evolve. rewrite <- !app_assoc. reflexivity.
    + rewrite (reached_run_statements _ _ Hrun), log_evolve.
      destruct is_init; simpl.
      * unfold ret. rewrite <- !app_assoc. simpl. rewrite ?app_nil_r. reflexivity.
      * unfold console_print. rewrite log_evolve, <- !app_assoc. reflexivity.
Qed.

Lemma run_statements_app (pre post : list string) :
  forall d : DB,
    run_statements X (pre ++ post) d =
    match run_statements X pre d with
    | inr d1 => run_statements X post d1
    | inl e => inl e
    end.
Proof.
  induction pre as [|stmt pre IH]; intros d; simpl; [reflexivity|].
  destruct (db_execute X stmt d); [reflexivity | apply IH].
Qed.

Lemma statements_log_app (pre post : list string) :
  forall d : DB,
    statements_log X (pre ++ post) d =
    match run_statements X pre d with
    | inr d1 => (statements_log X pre d ++ statements_log X post d1)%list
    | inl _ => statements_log X pre d
    end.
Proof.
  induction pre as [|stmt pre IH]; intros d; simpl; [reflexivity|].
  destruct (db_execute X stmt d) as [e|d1]; [reflexivity|].
  rewrite IH. destruct (run_statements X pre d1); reflexivity.
Qed.

Lemma statements_log_ok (stmts : list string) :
  forall d d' : DB,
    run_statements X stmts d = inr d' ->
    statements_log X stmts d = map (fun stmt => Execute stmt true) stmts.
Proof.
  induction stmts as [|stmt rest IH]; intros d d' H; simpl in *; [reflexivity|].
  destruct (db_execute X stmt d) as [e|d1]; [discriminate|].
  f_equal. eapply IH; eassumption.
Qed.

(** C1.  A script run by [execute_sql_scripts] is one transaction over its
    statements taken in file order: when every statement succeeds they are
    executed one after the other and committed together, so that the server
    is in the state they lead to; when a statement fails, the statements
    before it were executed in order, nothing after it is, the transaction
    is rolled back and the server is in the state it had before the
    script. *)
Theorem execute_sql_scripts_atomic (path : string) (is_init : bool) (w : W)
    (stmts : list string) :
  sql_split X path (files w) = inr stmts ->
  let run := execute_sql_scripts X path is_init w in
  (forall d' : DB,
     run_statements X stmts (db w) = inr d' ->
     fst run = Returns tt /\
     db (snd run) = d' /\
     trace (snd run) =
       (trace w ++ [Begin; ParseScript path true]
        ++ map (fun stmt => Execute stmt true) stmts ++ [Commit]
        ++ if is_init then [] else [Print "SQL 脚本已执行完成"])%list)
  /\
  (forall (pre post : list string) (stmt : string) (d1 : DB) (e : Exn),
     stmts = (pre ++ stmt :: post)%list ->
     run_statements X pre (db w) = inr d1 ->
     db_execute X stmt d1 = inl e ->
     fst run = Raises (sql_error e) /\
     db (snd run) = db w /\
     trace (snd run) =
       (trace w ++ [Begin; ParseScript path true]
        ++ map (fun stmt => Execute stmt true) pre
        ++ [Execute stmt false; Rollback])%list).
Proof.
  intros Hsplit run. subst run.
  replace (execute_sql_scripts X path is_init w)
    with (execute_sql_scripts X path is_init (evolve (db w) (cache w) [] w))
    by (rewrite evolve_nothing; reflexivity).
  rewrite execute_sql_scripts_run.
  unfold script_effect, script_log. rewrite Hsplit.
  split.
  - intros d' Hrun. rewrite Hrun. simpl.
    rewrite (statements_log_ok _ _ Hrun).
    repeat split. rewrite <- !app_assoc. reflexivity.
  - intros pre post stmt d1 e -> Hpre Hstmt.
    assert (Hrun : run_statements X (pre ++ stmt :: post) (db w) = inl e).
    { rewrite run_statements_app, Hpre. simpl. rewrite Hstmt. reflexivity. }
    rewrite Hrun. simpl.
    rewrite statements_log_app, Hpre, (statements_log_ok _ _ Hpre).
    simpl. rewrite Hstmt.
    repeat split. rewrite <- !app_assoc. reflexivity.
Qed.

End ScriptRunner.

Lemma execute_sql_scripts_atomic_witness :
  let w := Demo.world Demo.conf Demo.disk [] in
  let good := execute_sql_scripts Demo.services Demo.main_sql false w in
  let bad := execute_sql_scripts Demo.services Demo.plugin_b_sql false w in
  (fst good = Returns tt /\
   db (snd good) = ["<old>"; "INSERT m1"; "INSERT m2"]) /\
  (fst bad = Raises (sql_error (Exception "boom")) /\
   db (snd bad) = ["<old>"]).
Proof.
  intros w good bad. split.
  - destruct (execute_sql_scripts_atomic Demo.services Demo.main_sql false w
                (stmts := ["INSERT m1"; "INSERT m2"]) eq_refl) as [Hok _].
    destruct (Hok ["<old>"; "INSERT m1"; "INSERT m2"] eq_refl) as (Hr & Hd & _).
    split; assumption.
  - destruct (execute_sql_scripts_atomic Demo.services Demo.plugin_b_sql false w
                (stmts := ["INSERT b1"; "INSERT b2"; "FAIL b3"; "INSERT b4"; "INSERT b5"])
                eq_refl) as [_ Hbad].
    destruct (Hbad ["INSERT b1"; "INSERT b2"] ["INSERT b4"; "INSERT b5"] "FAIL b3"
                ["<old>"; "INSERT b1"; "INSERT b2"] (Exception "boom")
                eq_refl eq_refl eq_refl) as (Hr & Hd & _).
    split; assumption.
Defined.

(** ** The scripts of a bulk initialization *)

Section Resolution.

Variables DB Cache Plugins : Type.
Variable X : Collaborators DB Cache Plugins.
Variable BASE_PATH : string.

Abbreviation W := (World DB Cache Plugins).

Lemma plugin_loop (names : list string) :
  let body (sql_scripts : list string) (plugin : string) :=
    bind (@get_settings DB Cache Plugins)
      (fun s =>
         bind (get_plugin_sql X plugin (DATABASE_TYPE s) (DATABASE_PK_MODE s))
           (fun plugin_sql =>
              match plugin_sql with
              | Some script =>
                  if truthy plugin_sql
                  then ret (sql_scripts ++ [script])%list
                  else ret sql_scripts
              | None => ret sql_scripts
              end)) in
  forall (acc : list string) (w : W),
    for_fold names acc body w =
    (Returns (acc ++ flat_map (plugin_script X (settings w) (plugins w)) names)%list, w).
Proof.
  intros body.
  induction names as [|name rest IH]; intros acc w.
  - simpl. unfold ret. rewrite app_nil_r. reflexivity.
  - cbn [for_fold flat_map]. unfold bind at 1.
    assert (Hbody : body acc name w =
                    (Returns (acc ++ plugin_script X (settings w) (plugins w) name)%list, w)).
    { unfold body, bind, get_settings, get_plugin_sql, plugin_script, ret.
      destruct (plugin_sql X name (DATABASE_TYPE (settings w))
                  (DATABASE_PK_MODE (settings w)) (plugins w)) as [script|]; simpl.
      - destruct (script =? ""); simpl; rewrite ?app_nil_r; reflexivity.
      - rewrite app_nil_r. reflexivity. }
    rewrite Hbody, IH, <- app_assoc. reflexivity.
Qed.

Lemma get_sql_scripts_run (w : W) :
  get_sql_scripts X BASE_PATH w = (Returns (resolved_scripts X BASE_PATH w), w).
Proof.
  unfold get_sql_scripts, resolved_scripts, main_script.
  unfold bind at 1. unfold get_settings at 1.
  unfold bind at 1. unfold path_exists at 1.
  unfold bind at 1. unfold get_plugins at 1.
  rewrite plugin_loop.
  destruct (files w (main_sql_file BASE_PATH (settings w))); reflexivity.
Qed.

(** C3.  [get_sql_scripts] returns the main seed script when its file
    exists and nothing for it otherwise, followed by the seed script of each
    installed plugin that resolves to one, in the order in which the
    plugins are enumerated; the world is left as it was.  In particular,
    when the main script is absent and of two plugins only the second has a
    script, the result is that one script. *)
Theorem get_sql_scripts_resolved (w : W) :
  let s := settings w in
  let main := main_sql_file BASE_PATH s in
  let resolve name := plugin_sql X name (DATABASE_TYPE s) (DATABASE_PK_MODE s) (plugins w) in
  get_sql_scripts X BASE_PATH w =
    (Returns
       ((match files w main with Some _ => [main] | None => [] end)
        ++ flat_map
             (fun name =>
                match resolve name with
                | Some script => if script =? "" then [] else [script]
                | None => []
                end)
             (plugin_names X (plugins w)))%list,
     w)
  /\
  (forall a b script : string,
     files w main = None ->
     plugin_names X (plugins w) = [a; b] ->
     resolve a = None ->
     resolve b = Some script ->
     script <> "" ->
     get_sql_scripts X BASE_PATH w = (Returns [script], w)).
Proof.
  intros s main resolve. rewrite get_sql_scripts_run.
  unfold resolved_scripts, main_script. fold s main.
  split; [reflexivity|].
  intros a b script Hmain Hnames Ha Hb Hscript.
  rewrite Hmain, Hnames. simpl. unfold plugin_script. fold s.
  unfold resolve in Ha, Hb. rewrite Ha, Hb.
  destruct (script =? "") eqn:Hempty; [|reflexivity].
  apply String.eqb_eq in Hempty. contradiction.
Qed.

End Resolution.

Lemma get_sql_scripts_resolved_witness :
  let w := Demo.world Demo.conf Demo.disk_without_main [] in
  get_sql_scripts Demo.services Demo.base w = (Returns [Demo.plugin_b_sql], w).
Proof.
  intros w.
  destruct (get_sql_scripts_resolved Demo.services Demo.base w) as [_ H].
  apply (H "a" "b" Demo.plugin_b_sql); try reflexivity.
  discriminate.
Defined.

(** ** The log of the scripts *)

Section ScriptLogs.

Variables DB Cache Plugins : Type.
Variable X : Collaborators DB Cache Plugins.
Variable fs : string -> option string.

Lemma statements_log_steps (stmts : list string) :
  forall d : DB, steps_started (statements_log X stmts d) = [].
Proof.
  induction stmts as [|stmt rest IH]; intros d; simpl; [reflexivity|].
  destruct (db_execute X stmt d); simpl; auto.
Qed.

Lemma statements_log_bounds (stmts : list string) :
  forall d : DB, filter bounds (statements_log X stmts d) = [].
Proof.
  induction stmts as [|stmt rest IH]; intros d; simpl; [reflexivity|].
  destruct (db_execute X stmt d); simpl; auto.
Qed.

Lemma statements_log_unattended (stmts : list string) :
  forall d : DB, forallb unattended (statements_log X stmts d) = true.
Proof.
  induction stmts as [|stmt rest IH]; intros d; simpl; [reflexivity|].
  destruct (db_execute X stmt d); simpl; auto.
Qed.

Lemma statements_log_failed (stmts : list string) :
  forall d : DB,
    existsb failed (statements_log X stmts d) =
    match run_statements X stmts d with inr _ => false | inl _ => true end.
Proof.
  induction stmts as [|stmt rest IH]; intros d; simpl; [reflexivity|].
  destruct (db_execute X stmt d); simpl; auto.
Qed.

Lemma statements_log_after_failure (stmts : list string) :
  forall d : DB, after_first_failure (statements_log X stmts d) = [].
Proof.
  induction stmts as [|stmt rest IH]; intros d; simpl; [reflexivity|].
  destruct (db_execute X stmt d); simpl; auto.
Qed.

Lemma script_log_steps (path : string) (d : DB) :
  steps_started (script_log X fs path d) = [RunScript path].
Proof.
  unfold script_log. destruct (sql_split X path fs) as [e|stmts]; [reflexivity|].
  change (steps_started ([Begin; ParseScript path true]
            ++ statements_log X stmts d
            ++ [match run_statements X stmts d with
                | inl _ => Rollback | inr _ => Commit end]) = [RunScript path]).
  rewrite !steps_started_app, statements_log_steps.
  destruct (run_statements X stmts d); reflexivity.
Qed.

Lemma script_log_bounds (path : string) (d : DB) :
  filter bounds (script_log X fs path d) =
  [Begin; match script_effect X fs path d with inr _ => Commit | inl _ => Rollback end].
Proof.
  unfold script_log, script_effect.
  destruct (sql_split X path fs) as [e|stmts]; [reflexivity|].
  simpl. rewrite filter_app, statements_log_bounds.
  destruct (run_statements X stmts d); reflexivity.
Qed.

Lemma script_log_unattended (path : string) (d : DB) :
  forallb unattended (script_log X fs path d) = true.
Proof.
  unfold script_log. destruct (sql_split X path fs) as [e|stmts]; [reflexivity|].
  simpl. rewrite forallb_app, statements_log_unattended.
  destruct (run_statements X stmts d); reflexivity.
Qed.

Lemma script_log_failed (path : string) (d : DB) :
  existsb failed (script_log X fs path d) =
  match script_effect X fs path d with inr _ => false | inl _ => true end.
Proof.
  unfold script_log, script_effect.
  destruct (sql_split X path fs) as [e|stmts]; [reflexivity|].
  simpl. rewrite existsb_app, statements_log_failed.
  destruct (run_statements X stmts d); reflexivity.
Qed.

Lemma script_log_after_failure (path : string) (d : DB) :
  steps_started (after_first_failure (script_log X fs path d)) = [].
Proof.
  unfold script_log.
  destruct (sql_split X path fs) as [e|stmts]; [reflexivity|].
  simpl. rewrite after_first_failure_app, statements_log_failed,
    statements_log_after_failure.
  destruct (run_statements X stmts d); reflexivity.
Qed.

Lemma scripts_log_steps (paths : list string) :
  forall d : DB,
    (exists k : nat,
       steps_started (scripts_log X fs paths d) = firstn k (map RunScript paths)) /\
    (forall d' : DB,
       run_scripts X fs paths d = inr d' ->
       steps_started (scripts_log X fs paths d) = map RunScript paths).
Proof.
  induction paths as [|path rest IH]; intros d; simpl.
  - split; [exists 0; reflexivity | reflexivity].
  - change (Print ("正在执行：" ++ path) :: ?l) with ([Print ("正在执行：" ++ path)] ++ l)%list.
    rewrite !steps_started_app, script_log_steps. simpl.
    destruct (script_effect X fs path d) as [e|d1].
    + split; [exists 1; reflexivity | discriminate].
    + destruct (IH d1) as [[k Hk] Hall]. split.
      * exists (S k). simpl. rewrite Hk. reflexivity.
      * intros d' Hrun. rewrite (Hall d' Hrun). reflexivity.
Qed.

Lemma scripts_log_failed (paths : list string) :
  forall d : DB,
    existsb failed (scripts_log X fs paths d) =
    match run_scripts X fs paths d with inr _ => false | inl _ => true end.
Proof.
  induction paths as [|path rest IH]; intros d; simpl; [reflexivity|].
  rewrite existsb_app, script_log_failed.
  destruct (script_effect X fs path d) as [e|d1]; simpl; auto.
Qed.

Lemma scripts_log_after_failure (paths : list string) :
  forall d : DB, steps_started (after_first_failure (scripts_log X fs paths d)) = [].
Proof.
  induction paths as [|path rest IH]; intros d; simpl; [reflexivity|].
  rewrite after_first_failure_app, script_log_failed.
  destruct (script_effect X fs path d) as [e|d1].
  - rewrite app_nil_r. apply script_log_after_failure.
  - apply IH.
Qed.

Lemma scripts_log_unattended (paths : list string) :
  forall d : DB, forallb unattended (scripts_log X fs paths d) = true.
Proof.
  induction paths as [|path rest IH]; intros d; simpl; [reflexivity|].
  rewrite forallb_app, script_log_unattended.
  destruct (script_effect X fs path d) as [e|d1]; simpl; auto.
Qed.

End ScriptLogs.

(** ** Bulk initialization *)

Section Initialization.

Variables DB Cache Plugins : Type.
Variable X : Collaborators DB Cache Plugins.
Variables BASE_PATH version : string.

Abbreviation W := (World DB Cache Plugins).

Lemma console_print_run (text : string) (d : DB) (c : Cache) (es : list Event) (w : W) :
  console_print text (evolve d c es w) = (Returns tt, evolve d c (es ++ [Print text]) w).
Proof. unfold console_print. rewrite log_evolve. reflexivity. Qed.

Lemma delete_prefix_run (prefix : string) (d : DB) (c : Cache) (es : list Event) (w : W) :
  delete_prefix X prefix (evolve d c es w) =
  match redis_delete_prefix X prefix c with
  | inr c' => (Returns tt, evolve d c' (es ++ [DeletePrefix prefix true]) w)
  | inl e => (Raises e, evolve d c (es ++ [DeletePrefix prefix false]) w)
  end.
Proof.
  unfold delete_prefix. simpl.
  destruct (redis_delete_prefix X prefix c);
    rewrite ?with_cache_evolve, log_evolve; reflexivity.
Qed.

Lemma drop_tables_run (d : DB) (c : Cache) (es : list Event) (w : W) :
  drop_tables X (evolve d c es w) =
  match drop_all X d with
  | inr d' => (Returns tt, evolve d' c (es ++ [DropTables true]) w)
  | inl e => (Raises e, evolve d c (es ++ [DropTables false]) w)
  end.
Proof.
  unfold drop_tables. simpl.
  destruct (drop_all X d); rewrite ?with_db_evolve, log_evolve; reflexivity.
Qed.

Lemma create_tables_run (d : DB) (c : Cache) (es : list Event) (w : W) :
  create_tables X (evolve d c es w) =
  match create_all X d with
  | inr d' => (Returns tt, evolve d' c (es ++ [CreateTables true]) w)
  | inl e => (Raises e, evolve d c (es ++ [CreateTables false]) w)
  end.
Proof.
  unfold create_tables. simpl.
  destruct (create_all X d); rewrite ?with_db_evolve, log_evolve; reflexivity.
Qed.

Lemma scripts_loop (paths : list string) :
  let body (sql_script : string) :=
    bind (@console_print DB Cache Plugins ("正在执行：" ++ sql_script))
      (fun _ => execute_sql_scripts X sql_script true) in
  forall (d : DB) (c : Cache) (es : list Event) (w : W),
    for_each paths body (evolve d c es w) =
    (match run_scripts X (files w) paths d with
     | inr _ => Returns tt
     | inl e => Raises (sql_error e)
     end,
     evolve (committed X (files w) paths d) c
       (es ++ scripts_log X (files w) paths d) w).
Proof.
  intros body.
  induction paths as [|path rest IH]; intros d c es w.
  - simpl. unfold ret. rewrite app_nil_r. reflexivity.
  - cbn [for_each run_scripts scripts_log committed]. unfold bind at 1.
    assert (Hbody : body path (evolve d c es w) =
                    match script_effect X (files w) path d with
                    | inr d' =>
                        (Returns tt,
                         evolve d' c
                           (es ++ Print ("正在执行：" ++ path)
                               :: script_log X (files w) path d) w)
                    | inl e =>
                        (Raises (sql_error e),
                         evolve d c
                           (es ++ Print ("正在执行：" ++ path)
                               :: script_log X (files w) path d) w)
                    end).
    { unfold body, bind. rewrite console_print_run, execute_sql_scripts_run.
      destruct (script_effect X (files w) path d);
        rewrite <- !app_assoc; cbn [app]; rewrite ?app_nil_r; reflexivity. }
    rewrite Hbody.
    destruct (script_effect X (files w) path d) as [e|d1].
    + rewrite app_nil_r. reflexivity.
    + rewrite IH. rewrite <- !app_assoc. reflexivity.
Qed.

(** The log of the [try] block when the cache and the tables go through. *)
Lemma init_try_scripts (d d1 d2 : DB) (c c' : Cache) (es : list Event) (w : W) :
  clear_prefixes X (settings w) c = inr c' ->
  drop_all X d = inr d1 ->
  create_all X d1 = inr d2 ->
  let s := settings w in
  let paths := resolved_scripts X BASE_PATH w in
  init_try X BASE_PATH (evolve d c es w) =
  (match run_scripts X (files w) paths d2 with
   | inr _ => Returns tt
   | inl e => Raises (sql_error e)
   end,
   evolve (committed X (files w) paths d2) c'
     (es ++ [Print "清理 Redis 缓存";
             DeletePrefix (JWT_USER_REDIS_PREFIX s) true;
             DeletePrefix (TOKEN_EXTRA_INFO_REDIS_PREFIX s) true;
             DeletePrefix (TOKEN_REDIS_PREFIX s) true;
             DeletePrefix (TOKEN_REFRESH_REDIS_PREFIX s) true;
             Print "重建数据库表"; DropTables true; CreateTables true;
             Print "执行 SQL 脚本"]
         ++ scripts_log X (files w) paths d2
         ++ match run_scripts X (files w) paths d2 with
            | inr _ =>
                [Print "初始化成功";
                 Print (nl ++ "快试试 [bold cyan]fba run[/bold cyan] 启动服务吧~")]
            | inl _ => []
            end) w).
Proof.
  intros Hclear Hdrop Hcreate s paths.
  unfold clear_prefixes in Hclear. fold s in Hclear.
  destruct (redis_delete_prefix X (JWT_USER_REDIS_PREFIX s) c) as [?|c1] eqn:H1;
    [discriminate|].
  destruct (redis_delete_prefix X (TOKEN_EXTRA_INFO_REDIS_PREFIX s) c1) as [?|c2] eqn:H2;
    [discriminate|].
  destruct (redis_delete_prefix X (TOKEN_REDIS_PREFIX s) c2) as [?|c3] eqn:H3;
    [discriminate|].
  unfold init_try, bind.
  rewrite console_print_run. cbv beta iota.
  unfold get_settings at 1. cbv beta iota.
  change (settings (evolve d c (es ++ [Print "清理 Redis 缓存"]) w)) with s.
  rewrite delete_prefix_run, H1. cbv beta iota.
  rewrite delete_prefix_run, H2. cbv beta iota.
  rewrite delete_prefix_run, H3. cbv beta iota.
  rewrite delete_prefix_run, Hclear. cbv beta iota.
  rewrite console_print_run. cbv beta iota.
  rewrite drop_tables_run, Hdrop. cbv beta iota.
  rewrite create_tables_run, Hcreate. cbv beta iota.
  rewrite console_print_run. cbv beta iota.
  rewrite get_sql_scripts_run. cbv beta iota.
  change (resolved_scripts X BASE_PATH (evolve _ _ _ w)) with paths.
  pose proof (scripts_loop paths) as Hloop. cbv zeta in Hloop.
  rewrite Hloop. cbv beta iota.
  destruct (run_scripts X (files w) paths d2) as [e|d3].
  - rewrite <- !app_assoc. cbn [app]. rewrite app_nil_r. reflexivity.
  - rewrite console_print_run. cbv beta iota. rewrite console_print_run.
    rewrite <- !app_assoc. cbn [app]. reflexivity.
Qed.

Lemma get_settings_run (d : DB) (c : Cache) (es : list Event) (w : W) :
  get_settings (evolve d c es w) = (Returns (settings w), evolve d c es w).
Proof. reflexivity. Qed.

(** The steps of a bulk initialization under the settings [s] and for the
    scripts [paths]. *)
Lemma init_try_orderly (d : DB) (c : Cache) (es : list Event) (w : W) :
  let s := settings w in
  let deletions :=
    [DeletePrefix (JWT_USER_REDIS_PREFIX s) true;
     DeletePrefix (TOKEN_EXTRA_INFO_REDIS_PREFIX s) true;
     DeletePrefix (TOKEN_REDIS_PREFIX s) true;
     DeletePrefix (TOKEN_REFRESH_REDIS_PREFIX s) true] in
  let plan :=
    ([ClearPrefix (JWT_USER_REDIS_PREFIX s);
      ClearPrefix (TOKEN_EXTRA_INFO_REDIS_PREFIX s);
      ClearPrefix (TOKEN_REDIS_PREFIX s);
      ClearPrefix (TOKEN_REFRESH_REDIS_PREFIX s);
      DropAllTables; CreateAllTables]
     ++ map RunScript (resolved_scripts X BASE_PATH w))%list in
  let run := init_try X BASE_PATH (evolve d c es w) in
  exists (d' : DB) (c' : Cache) (es' : list Event),
    snd run = evolve d' c' (es ++ es') w /\
    (exists k : nat, steps_started es' = firstn k plan) /\
    (fst run = Returns tt -> steps_started es' = plan) /\
    (existsb failed es' = false -> fst run = Returns tt) /\
    (existsb failed es' = true ->
     steps_started (after_first_failure es') = [] /\
     exists e : Thrown,
       fst run = Raises e /\ forall message code, e = Exit message code -> code = 1%Z) /\
    (existsb schema_work es' = true ->
     filter clears (before schema_work es') = deletions) /\
    forallb unattended es' = true.
Proof.
  intros s deletions plan run. subst run.
  destruct (redis_delete_prefix X (JWT_USER_REDIS_PREFIX s) c) as [e1|c1] eqn:H1;
    [|destruct (redis_delete_prefix X (TOKEN_EXTRA_INFO_REDIS_PREFIX s) c1)
        as [e2|c2] eqn:H2;
      [|destruct (redis_delete_prefix X (TOKEN_REDIS_PREFIX s) c2) as [e3|c3] eqn:H3;
        [|destruct (redis_delete_prefix X (TOKEN_REFRESH_REDIS_PREFIX s) c3)
            as [e4|c4] eqn:H4;
          [|destruct (drop_all X d) as [e5|d1] eqn:H5;
            [|destruct (create_all X d1) as [e6|d2] eqn:H6]]]]].
  1-6: unfold init_try, bind;
    repeat (first [ rewrite console_print_run | rewrite get_settings_run
                  | rewrite delete_prefix_run | rewrite drop_tables_run
                  | rewrite create_tables_run ];
            fold s; rewrite ?H1, ?H2, ?H3, ?H4, ?H5, ?H6; cbv beta iota);
    cbn [fst snd]; rewrite <- !app_assoc; cbn [app];
    do 3 eexists; (split; [reflexivity|]);
    (split; [first [ exists 0; reflexivity | exists 1; reflexivity
                   | exists 2; reflexivity | exists 3; reflexivity
                   | exists 4; reflexivity | exists 5; reflexivity
                   | exists 6; reflexivity ]|]);
    (split; [discriminate|]);
    (split; [discriminate|]);
    (split; [intros _; split;
             [reflexivity
             | eexists; split; [reflexivity | intros ? ? Hexit; discriminate Hexit]]|]);
    (split; [first [discriminate | reflexivity] | reflexivity]).
  assert (Hclear : clear_prefixes X (settings w) c = inr c4).
  { unfold clear_prefixes. fold s. rewrite H1, H2, H3. exact H4. }
  rewrite (@init_try_scripts d d1 d2 c c4 es w Hclear H5 H6). fold s.
  set (paths := resolved_scripts X BASE_PATH w) in *.
  cbn [fst snd].
  destruct (scripts_log_steps X (files w) paths d2) as [[k Hk] Hall].
  pose proof (scripts_log_failed X (files w) paths d2) as Hfailed.
  pose proof (scripts_log_after_failure X (files w) paths d2) as Hafter.
  pose proof (scripts_log_unattended X (files w) paths d2) as Hquiet.
  do 3 eexists. split; [reflexivity|].
  rewrite !steps_started_app, !existsb_app, !forallb_app, Hfailed, Hquiet.
  rewrite !after_first_failure_app, ?existsb_app, ?Hfailed.
  cbn [app].
  destruct (run_scripts X (files w) paths d2) as [e|d3] eqn:Hrun.
  - repeat split; try discriminate; try reflexivity.
    + exists (6 + k). rewrite Hk. simpl. rewrite app_nil_r. reflexivity.
    + simpl. rewrite app_nil_r. exact Hafter.
    + eexists. split; [reflexivity|].
      intros ? ? Hexit. unfold sql_error in Hexit. congruence.
  - repeat split; try discriminate; try reflexivity.
    + exists (6 + k). rewrite Hk. simpl. rewrite app_nil_r. reflexivity.
    + intros _. rewrite (Hall d3 eq_refl). simpl. rewrite app_nil_r. reflexivity.
Qed.

(** [init] once the user has agreed. *)
Lemma init_confirmed (w : W) (a : string) (rest : list string) :
  answers w = a :: rest ->
  lower a = "y" ->
  init X BASE_PATH version w =
  try_except (init_try X BASE_PATH)
    (fun e => raise (Exit ("初始化失败：" ++ str e) 1))
    (evolve (db w) (cache w)
       [PrintPanel ("fba v" ++ version ++ " 初始化")
          (init_panel (settings w) (plugin_names X (plugins w)));
        Ask init_question ["y"; "n"] "n";
        Print "开始初始化..."]
       (with_answers rest w)).
Proof.
  intros Hanswers Hyes.
  unfold init, bind, get_settings, get_plugins, console_print_panel, Prompt_ask.
  cbn [answers log]. rewrite Hanswers, Hyes. cbn [String.eqb Ascii.eqb Bool.eqb].
  unfold console_print, log, with_answers, evolve. cbn -[init_try init_panel init_question].
  rewrite <- !app_assoc. reflexivity.
Qed.

(** The plan of a bulk initialization under the settings of [w]. *)
Lemma init_ordered (w : W) (a : string) (rest : list string) :
  answers w = a :: rest ->
  lower a = "y" ->
  let s := settings w in
  let deletions :=
    [DeletePrefix (JWT_USER_REDIS_PREFIX s) true;
     DeletePrefix (TOKEN_EXTRA_INFO_REDIS_PREFIX s) true;
     DeletePrefix (TOKEN_REDIS_PREFIX s) true;
     DeletePrefix (TOKEN_REFRESH_REDIS_PREFIX s) true] in
  let plan :=
    ([ClearPrefix (JWT_USER_REDIS_PREFIX s);
      ClearPrefix (TOKEN_EXTRA_INFO_REDIS_PREFIX s);
      ClearPrefix (TOKEN_REDIS_PREFIX s);
      ClearPrefix (TOKEN_REFRESH_REDIS_PREFIX s);
      DropAllTables; CreateAllTables]
     ++ map RunScript (resolved_scripts X BASE_PATH w))%list in
  let run := init X BASE_PATH version w in
  exists es : list Event,
    trace (snd run) = (trace w ++ es)%list /\
    (exists k : nat, steps_started es = firstn k plan) /\
    (fst run = Returns tt -> steps_started es = plan) /\
    (existsb failed es = false -> fst run = Returns tt) /\
    (existsb failed es = true ->
     steps_started (after_first_failure es) = [] /\
     exists msg, fst run = Raises (Exit msg 1)) /\
    (existsb schema_work es = true ->
     filter clears (before schema_work es) = deletions).
Proof.
  intros Hanswers Hyes s deletions plan run. subst run.
  rewrite (init_confirmed w Hanswers Hyes).
  set (shown := [PrintPanel _ _; _; _]).
  destruct (init_try_orderly (db w) (cache w) shown (with_answers rest w))
    as (d' & c' & es' & Hsnd & Hprefix & Hall & Hgood & Hbad & Hclear & _).
  change (settings (with_answers rest w)) with s in *.
  change (resolved_scripts X BASE_PATH (with_answers rest w))
    with (resolved_scripts X BASE_PATH w) in *.
  fold plan in Hprefix, Hall. fold deletions in Hclear.
  unfold try_except, raise.
  destruct (init_try X BASE_PATH (evolve (db w) (cache w) shown (with_answers rest w)))
    as [r w'] eqn:Hrun.
  cbn [fst snd] in *. subst w'.
  exists (shown ++ es')%list.
  destruct r as [[]|[message code|e]]; cbn [fst snd]; (split; [reflexivity|]);
    (split; [exact Hprefix|]).
  - split; [intros _; apply Hall; reflexivity|].
    split; [reflexivity|].
    split; [|exact Hclear].
    intros Hfailed. destruct (Hbad Hfailed) as [_ (e & He & _)]. discriminate He.
  - split; [discriminate|].
    split; [intros Hfailed; discriminate (Hgood Hfailed)|].
    split; [|exact Hclear].
    intros Hfailed. destruct (Hbad Hfailed) as [Hafter (e & He & Hcode)].
    split; [exact Hafter|].
    injection He as <-. rewrite (Hcode message code eq_refl).
    eexists; reflexivity.
  - split; [discriminate|].
    split; [intros Hfailed; discriminate (Hgood Hfailed)|].
    split; [|exact Hclear].
    intros Hfailed. destruct (Hbad Hfailed) as [Hafter _].
    split; [exact Hafter | eexists; reflexivity].
Qed.

(** The scripts of the loop are the script steps of the sequence. *)
Lemma sequence_scripts (fs : string -> option string) (paths : list string) :
  forall (d : DB) (c : Cache),
    let p := sequence X fs (map RunScript paths) d c in
    started p = steps_started (scripts_log X fs paths d) /\
    server p = committed X fs paths d /\
    cached p = c /\
    match stopped p with
    | None => exists d3 : DB, run_scripts X fs paths d = inr d3
    | Some (RunScript _, e) => run_scripts X fs paths d = inl e
    | Some _ => False
    end.
Proof.
  induction paths as [|path rest IH]; intros d c; cbn zeta.
  - cbn. repeat split. exists d. reflexivity.
  - cbn [map sequence step_effect scripts_log run_scripts committed].
    change (Print ("正在执行：" ++ path) :: ?l) with ([Print ("正在执行：" ++ path)] ++ l)%list.
    rewrite !steps_started_app, script_log_steps.
    destruct (script_effect X fs path d) as [e|d1].
    + cbn. repeat split.
    + specialize (IH d1 c). cbn zeta in IH.
      destruct IH as (Hstarted & Hserver & Hcached & Hstopped).
      cbn [started stopped server cached]. rewrite Hstarted, Hserver, Hcached.
      repeat split. exact Hstopped.
Qed.

(** A confirmed run of [init] is the sequence of its plan: it starts the
    steps that the sequence starts, leaves the server and the cache where
    the sequence leaves them, and returns or exits as the sequence ends. *)
Lemma init_refines_sequence (w : W) (a : string) (rest : list string) :
  answers w = a :: rest ->
  lower a = "y" ->
  let s := settings w in
  let plan :=
    ([ClearPrefix (JWT_USER_REDIS_PREFIX s);
      ClearPrefix (TOKEN_EXTRA_INFO_REDIS_PREFIX s);
      ClearPrefix (TOKEN_REDIS_PREFIX s);
      ClearPrefix (TOKEN_REFRESH_REDIS_PREFIX s);
      DropAllTables; CreateAllTables]
     ++ map RunScript (resolved_scripts X BASE_PATH w))%list in
  let p := sequence X (files w) plan (db w) (cache w) in
  let run := init X BASE_PATH version w in
  exists es : list Event,
    trace (snd run) = (trace w ++ es)%list /\
    steps_started es = started p /\
    db (snd run) = server p /\
    cache (snd run) = cached p /\
    fst run =
      match stopped p with
      | None => Returns tt
      | Some (RunScript _, e) => Raises (Exit ("SQL 脚本执行失败：" ++ str e) 1)
      | Some (_, e) => Raises (Exit ("初始化失败：" ++ str e) 1)
      end.
Proof.
  intros Hanswers Hyes s plan p run. subst run p plan.
  rewrite (init_confirmed w Hanswers Hyes).
  set (shown := [PrintPanel _ _; _; _]).
  unfold try_except, raise.
  destruct (redis_delete_prefix X (JWT_USER_REDIS_PREFIX s) (cache w)) as [e1|c1] eqn:H1;
    [|destruct (redis_delete_prefix X (TOKEN_EXTRA_INFO_REDIS_PREFIX s) c1)
        as [e2|c2] eqn:H2;
      [|destruct (redis_delete_prefix X (TOKEN_REDIS_PREFIX s) c2) as [e3|c3] eqn:H3;
        [|destruct (redis_delete_prefix X (TOKEN_REFRESH_REDIS_PREFIX s) c3)
            as [e4|c4] eqn:H4;
          [|destruct (drop_all X (db w)) as [e5|d1] eqn:H5;
            [|destruct (create_all X d1) as [e6|d2] eqn:H6]]]]].
  1-6: unfold init_try, bind;
    repeat (first [ rewrite console_print_run | rewrite get_settings_run
                  | rewrite delete_prefix_run | rewrite drop_tables_run
                  | rewrite create_tables_run ];
            change (settings (with_answers rest w)) with s;
            rewrite ?H1, ?H2, ?H3, ?H4, ?H5, ?H6; cbv beta iota);
    cbn [app sequence step_effect];
    rewrite ?H1, ?H2, ?H3, ?H4, ?H5, ?H6;
    cbn [fst snd db cache trace evolve started stopped server cached with_answers];
    rewrite <- ?app_assoc; cbn [app];
    (eexists; split; [reflexivity|]); repeat split.
  assert (Hclear : clear_prefixes X (settings (with_answers rest w)) (cache w) = inr c4).
  { unfold clear_prefixes. change (settings (with_answers rest w)) with s.
    rewrite H1, H2, H3. exact H4. }
  rewrite (@init_try_scripts (db w) d1 d2 (cache w) c4 shown (with_answers rest w)
             Hclear H5 H6).
  change (settings (with_answers rest w)) with s.
  change (resolved_scripts X BASE_PATH (with_answers rest w))
    with (resolved_scripts X BASE_PATH w).
  change (files (with_answers rest w)) with (files w).
  set (paths := resolved_scripts X BASE_PATH w).
  cbn [app sequence step_effect].
  rewrite ?H1, ?H2, ?H3, ?H4, ?H5, ?H6.
  destruct (sequence_scripts (files w) paths d2 c4)
    as (Hstarted & Hserver & Hcached & Hstopped).
  cbn [started stopped server cached].
  rewrite Hstarted, Hserver, Hcached.
  destruct (stopped (sequence X (files w) (map RunScript paths) d2 c4))
    as [[[prefix| | |path] e]|]; try contradiction.
  - rewrite Hstopped. cbn [fst snd db cache trace evolve with_answers].
    eexists. split; [reflexivity|]. split; [|repeat split].
    subst shown. unfold steps_started. rewrite !flat_map_app.
    cbn [flat_map step_of app]. rewrite ?flat_map_app.
    cbn [flat_map step_of app]. rewrite ?app_nil_r. reflexivity.
  - destruct Hstopped as [d3 Hrun]. rewrite Hrun.
    cbn [fst snd db cache trace evolve with_answers].
    eexists. split; [reflexivity|]. split; [|repeat split].
    subst shown. unfold steps_started. rewrite !flat_map_app.
    cbn [flat_map step_of app]. rewrite ?flat_map_app.
    cbn [flat_map step_of app]. rewrite ?app_nil_r. reflexivity.
Qed.

(** C4.  A confirmed run of [init] is the sequence of its plan: the four
    cache prefixes, the dropping of the tables, their creation, then the
    resolved scripts in the order of their list, each step on what the one
    before left and none after the first that fails.  The steps started are
    those of the sequence, the server and the cache end where it leaves
    them, and the run returns when the sequence got through and exits with
    status 1 and the text of the error when a step failed.  On the log: the
    steps started are a beginning of the plan and the whole plan when the
    run returns, a run without a failed call returns, after the first
    failed call no further step is started, and whenever schema work is
    reached the four prefixes have been cleared, successfully, before
    it. *)
Theorem init_sequence (w : W) (a : string) (rest : list string) :
  answers w = a :: rest ->
  lower a = "y" ->
  let s := settings w in
  let deletions :=
    [DeletePrefix (JWT_USER_REDIS_PREFIX s) true;
     DeletePrefix (TOKEN_EXTRA_INFO_REDIS_PREFIX s) true;
     DeletePrefix (TOKEN_REDIS_PREFIX s) true;
     DeletePrefix (TOKEN_REFRESH_REDIS_PREFIX s) true] in
  let plan :=
    ([ClearPrefix (JWT_USER_REDIS_PREFIX s);
      ClearPrefix (TOKEN_EXTRA_INFO_REDIS_PREFIX s);
      ClearPrefix (TOKEN_REDIS_PREFIX s);
      ClearPrefix (TOKEN_REFRESH_REDIS_PREFIX s);
      DropAllTables; CreateAllTables]
     ++ map RunScript (resolved_scripts X BASE_PATH w))%list in
  let p := sequence X (files w) plan (db w) (cache w) in
  let run := init X BASE_PATH version w in
  exists es : list Event,
    trace (snd run) = (trace w ++ es)%list /\
    steps_started es = started p /\
    db (snd run) = server p /\
    cache (snd run) = cached p /\
    fst run =
      match stopped p with
      | None => Returns tt
      | Some (RunScript _, e) => Raises (Exit ("SQL 脚本执行失败：" ++ str e) 1)
      | Some (_, e) => Raises (Exit ("初始化失败：" ++ str e) 1)
      end /\
    (exists k : nat, steps_started es = firstn k plan) /\
    (fst run = Returns tt -> steps_started es = plan) /\
    (existsb failed es = false -> fst run = Returns tt) /\
    (existsb failed es = true ->
     steps_started (after_first_failure es) = [] /\
     exists msg, fst run = Raises (Exit msg 1)) /\
    (existsb schema_work es = true ->
     filter clears (before schema_work es) = deletions).
Proof.
  intros Hanswers Hyes s deletions plan p run.
  destruct (init_refines_sequence w Hanswers Hyes)
    as (es & Htrace & Hstarted & Hdb & Hcache & Hresult).
  destruct (init_ordered w Hanswers Hyes) as (es' & Htrace' & Hlog).
  assert (Hsame : es' = es).
  { apply (app_inv_head (trace w)). rewrite <- Htrace, <- Htrace'. reflexivity. }
  subst es'. exists es.
  split; [exact Htrace|]. split; [exact Hstarted|]. split; [exact Hdb|].
  split; [exact Hcache|]. split; [exact Hresult | exact Hlog].
Qed.

(** *** A failing script among the scripts *)

Section FailingScript.

Variable fs : string -> option string.
Variables (pre post : list string) (script : string) (e : Exn).

Lemma run_scripts_failing :
  forall d d3 : DB,
    run_scripts X fs pre d = inr d3 ->
    script_effect X fs script d3 = inl e ->
    run_scripts X fs (pre ++ script :: post) d = inl e.
Proof.
  induction pre as [|path rest IH]; intros d d3 Hpre Hscript; simpl in *.
  - injection Hpre as ->. rewrite Hscript. reflexivity.
  - destruct (script_effect X fs path d) as [?|d1]; [discriminate|].
    eapply IH; eassumption.
Qed.

Lemma committed_failing :
  forall d d3 : DB,
    run_scripts X fs pre d = inr d3 ->
    script_effect X fs script d3 = inl e ->
    committed X fs (pre ++ script :: post) d = d3.
Proof.
  induction pre as [|path rest IH]; intros d d3 Hpre Hscript; simpl in *.
  - injection Hpre as ->. rewrite Hscript. reflexivity.
  - destruct (script_effect X fs path d) as [?|d1]; [discriminate|].
    eapply IH; eassumption.
Qed.

Lemma scripts_log_failing_bounds :
  forall d d3 : DB,
    run_scripts X fs pre d = inr d3 ->
    script_effect X fs script d3 = inl e ->
    filter bounds (scripts_log X fs (pre ++ script :: post) d) =
    (flat_map (fun _ => [Begin; Commit]) pre ++ [Begin; Rollback])%list.
Proof.
  induction pre as [|path rest IH]; intros d d3 Hpre Hscript; simpl in *.
  - injection Hpre as ->.
    rewrite filter_app, script_log_bounds, Hscript. reflexivity.
  - rewrite filter_app, script_log_bounds.
    destruct (script_effect X fs path d) as [?|d1]; [discriminate|].
    simpl. rewrite (IH d1 d3 Hpre Hscript). reflexivity.
Qed.

End FailingScript.

(** C5.  Bulk initialization is not atomic across scripts.  When the cache
    is cleared, the tables are rebuilt, the scripts [pre] go through and
    the next script fails, the run exits with status 1 and the server is in
    the state that the scripts [pre] left: their effects stay, those of the
    failing script are gone.  Each script had a transaction of its own,
    committed for the scripts of [pre] and rolled back for the failing
    one. *)
Theorem init_partial (w : W) (a : string) (rest : list string)
    (c : Cache) (d1 d2 d3 : DB) (pre post : list string) (script : string) (e : Exn) :
  answers w = a :: rest ->
  lower a = "y" ->
  clear_prefixes X (settings w) (cache w) = inr c ->
  drop_all X (db w) = inr d1 ->
  create_all X d1 = inr d2 ->
  resolved_scripts X BASE_PATH w = (pre ++ script :: post)%list ->
  run_scripts X (files w) pre d2 = inr d3 ->
  script_effect X (files w) script d3 = inl e ->
  let run := init X BASE_PATH version w in
  (exists msg, fst run = Raises (Exit msg 1)) /\
  exit_status (fst run) = 1%Z /\
  db (snd run) = d3 /\
  exists es : list Event,
    trace (snd run) = (trace w ++ es)%list /\
    filter bounds es =
    (flat_map (fun _ => [Begin; Commit]) pre ++ [Begin; Rollback])%list.
Proof.
  intros Hanswers Hyes Hclear Hdrop Hcreate Hscripts Hpre Hscript run. subst run.
  rewrite (init_confirmed w Hanswers Hyes).
  unfold try_except, raise.
  rewrite (@init_try_scripts (db w) d1 d2 (cache w) c _ (with_answers rest w)
             Hclear Hdrop Hcreate).
  change (resolved_scripts X BASE_PATH (with_answers rest w))
    with (resolved_scripts X BASE_PATH w).
  change (files (with_answers rest w)) with (files w).
  rewrite Hscripts.
  rewrite (run_scripts_failing (files w) pre post script d2 Hpre Hscript).
  rewrite (committed_failing (files w) pre post script d2 Hpre Hscript).
  cbn [fst snd exit_status sql_error]. repeat split.
  - eexists; reflexivity.
  - eexists. split; [reflexivity|].
    rewrite !filter_app.
    rewrite (scripts_log_failing_bounds (files w) pre post script d2 Hpre Hscript).
    cbn [filter bounds app]. rewrite app_nil_r. reflexivity.
Qed.

End Initialization.

Lemma init_sequence_witness :
  let w := Demo.world Demo.conf Demo.disk ["y"] in
  let run := init Demo.services Demo.base Demo.version w in
  fst run = Raises (Exit "SQL 脚本执行失败：boom" 1) /\
  db (snd run) = ["<tables>"; "INSERT m1"; "INSERT m2"] /\
  cache (snd run) = ["fba:user"; "fba:token_extra_info"; "fba:token"; "fba:refresh_token"] /\
  steps_started (trace (snd run)) =
    [ClearPrefix "fba:user"; ClearPrefix "fba:token_extra_info";
     ClearPrefix "fba:token"; ClearPrefix "fba:refresh_token";
     DropAllTables; CreateAllTables;
     RunScript Demo.main_sql; RunScript Demo.plugin_b_sql] /\
  steps_started (after_first_failure (trace (snd run))) = [].
Proof.
  intros w run.
  destruct (@init_sequence _ _ _ Demo.services Demo.base Demo.version w "y" []
              eq_refl eq_refl)
    as (es & Htrace & Hstarted & Hdb & Hcache & Hresult & _ & _ & _ & Hbad & _).
  assert (Hes : es = trace (snd run)) by (unfold run; rewrite Htrace; reflexivity).
  rewrite <- Hes.
  split; [unfold run; rewrite Hresult; vm_compute; reflexivity|].
  split; [unfold run; rewrite Hdb; vm_compute; reflexivity|].
  split; [unfold run; rewrite Hcache; vm_compute; reflexivity|].
  split; [rewrite Hstarted; vm_compute; reflexivity|].
  apply Hbad. rewrite Hes. vm_compute. reflexivity.
Defined.

Lemma init_partial_witness :
  let w := Demo.world Demo.conf Demo.disk ["y"] in
  let run := init Demo.services Demo.base Demo.version w in
  exit_status (fst run) = 1%Z /\
  db (snd run) = ["<tables>"; "INSERT m1"; "INSERT m2"].
Proof.
  intros w run.
  destruct (@init_partial _ _ _ Demo.services Demo.base Demo.version w "y" []
              ["fba:user"; "fba:token_extra_info"; "fba:token"; "fba:refresh_token"]
              [] ["<tables>"] ["<tables>"; "INSERT m1"; "INSERT m2"]
              [Demo.main_sql] [] Demo.plugin_b_sql (Exception "boom")
              eq_refl eq_refl eq_refl eq_refl eq_refl eq_refl eq_refl eq_refl)
    as (_ & Hstatus & Hdb & _).
  split; assumption.
Defined.

(** ** The message of a failed script *)

Lemma prefix_same (s : string) : prefix s s = true.
Proof.
  induction s as [|c s IH]; simpl; [reflexivity|].
  destruct (ascii_dec c c) as [_|Hneq]; [exact IH | contradiction].
Qed.

Lemma contains_same (s : string) : contains s s = true.
Proof. destruct s; simpl; [reflexivity|]. rewrite prefix_same. destruct (ascii_dec a a); [reflexivity|contradiction]. Qed.

Lemma contains_suffix (before_ s : string) : contains s (before_ ++ s) = true.
Proof.
  induction before_ as [|c rest IH]; [apply contains_same|].
  change (String c rest ++ s) with (String c (rest ++ s)).
  cbn [contains]. rewrite IH. destruct (prefix s (String c (rest ++ s))); reflexivity.
Qed.

Section ScriptFailure.

Variables DB Cache Plugins : Type.
Variable X : Collaborators DB Cache Plugins.

(** C8, as the code has it.  When a statement of a script fails, the
    transaction is rolled back, the server is as it was before the script,
    and [execute_sql_scripts] exits with status 1 and a message made of a
    fixed text followed by the text of the underlying error: the error is
    surfaced, the name of the script is not added. *)
Theorem sql_error_message (path : string) (is_init : bool) (w : World DB Cache Plugins)
    (pre post : list string) (stmt : string) (d1 : DB) (e : Exn) :
  sql_split X path (files w) = inr (pre ++ stmt :: post)%list ->
  run_statements X pre (db w) = inr d1 ->
  db_execute X stmt d1 = inl e ->
  let run := execute_sql_scripts X path is_init w in
  let message := "SQL 脚本执行失败：" ++ str e in
  fst run = Raises (Exit message 1) /\
  contains (str e) message = true /\
  db (snd run) = db w /\
  exists es : list Event,
    trace (snd run) = (trace w ++ es ++ [Execute stmt false; Rollback])%list /\
    existsb failed es = false.
Proof.
  intros Hsplit Hpre Hstmt run message. subst run.
  replace (execute_sql_scripts X path is_init w)
    with (execute_sql_scripts X path is_init (evolve (db w) (cache w) [] w))
    by (rewrite evolve_nothing; reflexivity).
  rewrite execute_sql_scripts_run.
  unfold script_effect, script_log. rewrite Hsplit.
  rewrite run_statements_app, Hpre. simpl run_statements. rewrite Hstmt.
  rewrite statements_log_app, Hpre, (statements_log_ok X _ _ Hpre).
  simpl statements_log. rewrite Hstmt.
  cbn [fst snd]. split; [reflexivity|].
  split; [apply contains_suffix|].
  split; [reflexivity|].
  exists ([Begin; ParseScript path true] ++ map (fun s => Execute s true) pre)%list.
  split.
  - cbn [trace evolve app]. rewrite <- !app_assoc. reflexivity.
  - cbn [app existsb failed negb orb]. clear. induction pre; simpl; auto.
Qed.

End ScriptFailure.

Lemma sql_error_message_witness :
  let w := Demo.world Demo.conf Demo.disk [] in
  let run := execute_sql_scripts Demo.services Demo.plugin_b_sql true w in
  fst run = Raises (Exit ("SQL 脚本执行失败：" ++ "boom") 1) /\ db (snd run) = db w.
Proof.
  intros w run.
  destruct (@sql_error_message _ _ _ Demo.services Demo.plugin_b_sql true w
              ["INSERT b1"; "INSERT b2"] ["INSERT b4"; "INSERT b5"] "FAIL b3"
              ["<old>"; "INSERT b1"; "INSERT b2"] (Exception "boom")
              eq_refl eq_refl eq_refl) as (Hr & _ & Hd & _).
  split; assumption.
Defined.

(** C8, as it is worded, does not hold: the third statement of this script
    fails, and the message of the exit does not hold the name of the
    script. *)
Lemma sql_error_message_lacks_script_name :
  let w := Demo.world Demo.conf Demo.disk [] in
  let run := execute_sql_scripts Demo.services Demo.plugin_b_sql false w in
  fst run = Raises (Exit "SQL 脚本执行失败：boom" 1) /\
  contains Demo.plugin_b_sql "SQL 脚本执行失败：boom" = false /\
  ~ (forall (path : string) (w : World Demo.DB Demo.Cache Demo.Plugins) (message : string),
       fst (execute_sql_scripts Demo.services path false w) = Raises (Exit message 1) ->
       contains path message = true).
Proof.
  intros w run. split; [reflexivity|]. split; [reflexivity|].
  intros Hclaim.
  specialize (Hclaim Demo.plugin_b_sql w "SQL 脚本执行失败：boom" eq_refl).
  discriminate Hclaim.
Qed.

(** ** Plugin installation *)

Section Installation.

Variables DB Cache Plugins : Type.
Variable X : Collaborators DB Cache Plugins.

(** C7.  When both the archive path and the repository address are given,
    or neither is (an argument that is missing or empty is not given),
    [install_plugin] exits with status 1 and leaves the world as it found
    it: nothing was installed, read, fetched, executed or even printed. *)
Theorem install_plugin_precondition (path repo_url : option string) (no_sql : bool)
    (db_type pk_type : string) (w : World DB Cache Plugins) :
  (truthy path = true /\ truthy repo_url = true) \/
  (truthy path = false /\ truthy repo_url = false) ->
  let run := install_plugin X path repo_url no_sql db_type pk_type w in
  (exists message, fst run = Raises (Exit message 1)) /\
  exit_status (fst run) = 1%Z /\
  snd run = w.
Proof.
  intros [[Hpath Hrepo]|[Hpath Hrepo]] run; subst run;
    unfold install_plugin, bind, raise, ret; rewrite Hpath, Hrepo; cbn;
    (split; [eexists; reflexivity | split; reflexivity]).
Qed.

End Installation.

Lemma install_plugin_precondition_witness :
  let w := Demo.world Demo.conf Demo.disk [] in
  (snd (install_plugin Demo.services (Some "/tmp/demo.zip")
          (Some "https://example.org/demo.git") false "postgresql" "autoincrement" w) = w)
  /\
  (snd (install_plugin Demo.services None (Some "") false "postgresql" "autoincrement" w) = w).
Proof.
  intros w. split.
  - apply (@install_plugin_precondition _ _ _ Demo.services (Some "/tmp/demo.zip")
             (Some "https://example.org/demo.git") false "postgresql" "autoincrement" w).
    left. split; reflexivity.
  - apply (@install_plugin_precondition _ _ _ Demo.services None (Some "")
             false "postgresql" "autoincrement" w).
    right. split; reflexivity.
Defined.

(** ** Database provisioning *)

Section Provisioner.

Variables DB Cache Plugins : Type.
Variable X : Collaborators DB Cache Plugins.

Lemma terminate_sql_mysql (s : Settings) :
  DATABASE_TYPE s = DataBaseType.mysql -> terminate_sql (provisioning s) = None.
Proof.
  intros H. unfold provisioning. rewrite H. reflexivity.
Qed.

Lemma terminate_sql_other (s : Settings) :
  DATABASE_TYPE s <> DataBaseType.mysql ->
  exists sql, terminate_sql (provisioning s) = Some sql /\ truthy (Some sql) = true.
Proof.
  intros H. unfold provisioning.
  destruct (DataBaseType.mysql =? DATABASE_TYPE s) eqn:Hmysql.
  - apply String.eqb_eq in Hmysql. congruence.
  - eexists. split; reflexivity.
Qed.

(** C2.  The queries that [create_database_if_not_exists] sends follow one
    plan: the existence check; when it finds the database, the termination
    of the connections (a query that only the dialects other than MySQL
    have) and then DROP DATABASE; and in every case CREATE DATABASE last.
    Once the address and the engine are there and the connection is open,
    the run sends the queries of the plan one by one, each on what the one
    before left on the server, and none after the first that fails; it
    leaves the server where these queries leave it, and returns [True] when
    all went through and [False], with the text of the error printed,
    otherwise.  A connection that cannot be opened, and an address or an
    engine that cannot be built, give [False] without any query.  On the
    log: the queries sent are a beginning of the plan, and the whole plan
    when the call returns [True], which it never does after a failed
    call. *)
Theorem create_database_plan (w : World DB Cache Plugins) :
  let s := settings w in
  let q := provisioning s in
  let found :=
    match admin_execute X (check_sql q) (db w) with
    | inr (row, _) => row
    | inl _ => false
    end in
  let plan :=
    (check_sql q
     :: (if found
         then match terminate_sql q with Some sql => [sql] | None => [] end
              ++ [drop_sql q]
         else [])
     ++ [create_sql q])%list in
  let run := create_database_if_not_exists X w in
  (DATABASE_TYPE s = DataBaseType.mysql -> terminate_sql q = None) /\
  (DATABASE_TYPE s <> DataBaseType.mysql -> exists sql, terminate_sql q = Some sql) /\
  exists es : list Event,
    trace (snd run) = (trace w ++ es)%list /\
    (exists k : nat, queries es = firstn k plan) /\
    (fst run = Returns true -> queries es = plan) /\
    (fst run = Returns true -> existsb failed es = false) /\
    (existsb failed es = true -> fst run = Returns false) /\
    match url_create X (url q), engine_create X (url q) with
    | None, None =>
        match admin_connect X (url q) (db w) with
        | None =>
            let p := send X plan (db w) in
            queries es = sent p /\
            db (snd run) = state p /\
            match refused p with
            | None => fst run = Returns true
            | Some e =>
                fst run = Returns false /\
                In (Print ("数据库创建失败: " ++ str e)) es
            end /\
            (existsb failed es = false <-> fst run = Returns true)
        | Some e =>
            fst run = Returns false /\
            db (snd run) = db w /\
            es = [Connect (url q) false; Dispose; Print ("数据库创建失败: " ++ str e)]
        end
    | Some e, _ | None, Some e =>
        fst run = Returns false /\
        db (snd run) = db w /\
        es = [Print ("数据库创建失败: " ++ str e)]
    end.
Proof.
  intros s q found plan run.
  split; [apply terminate_sql_mysql|].
  split; [intros H; destruct (terminate_sql_other s H) as (sql & Hsql & _);
          exists sql; exact Hsql|].
  assert (Hterm : terminate_sql q = None \/
                  exists sql, terminate_sql q = Some sql /\ truthy (Some sql) = true).
  { destruct (string_dec (DATABASE_TYPE s) DataBaseType.mysql) as [Hmysql|Hother].
    - left. apply terminate_sql_mysql. exact Hmysql.
    - right. apply terminate_sql_other. exact Hother. }
  subst run plan found.
  unfold create_database_if_not_exists, try_except, try_finally, bind,
    get_settings, URL_create, create_async_engine, engine_connect, conn_execute,
    console_print, engine_dispose, ret.
  fold s. fold q. clearbody q.
  destruct q as [u chk term drp crt].
  cbn [url check_sql terminate_sql drop_sql create_sql] in *.
  destruct (url_create X u) as [e|];
    [|destruct (engine_create X u) as [e|];
      [|destruct (admin_connect X u (db w)) as [e|]]];
    [cbn [fst snd trace db log]; rewrite <- ?app_assoc; cbn [app];
     (eexists; split; [reflexivity|]);
     (split; [exists 0; reflexivity|]);
     (split; [intros H; discriminate H|]);
     (split; [intros H; discriminate H|]);
     (split; [reflexivity|]);
     repeat split .. |].
  destruct Hterm as [->|(sql & -> & Htruthy)]; [|rewrite Htruthy];
    cbn [db log with_db send app];
    (destruct (admin_execute X chk (db w)) as [e1|[[|] d1]];
     cbn [db log with_db send app];
     repeat match goal with
            | |- context [admin_execute X ?sql ?d] =>
                destruct (admin_execute X sql d) as [?|[? ?]];
                cbn [db log with_db send app]
            end);
    cbn [fst snd trace db log with_db sent refused state];
    rewrite <- ?app_assoc; cbn [app];
    (eexists; split; [reflexivity|]);
    (split; [first [ exists 0; reflexivity | exists 1; reflexivity
                   | exists 2; reflexivity | exists 3; reflexivity
                   | exists 4; reflexivity ]|]);
    (split; [first [intros H; discriminate H | reflexivity]|]);
    (split; [first [intros H; discriminate H | reflexivity]|]);
    (split; [first [intros H; discriminate H | reflexivity]|]);
    (split; [reflexivity|]);
    (split; [reflexivity|]);
    (split; [first [ reflexivity
                   | split; [reflexivity | cbn [In]; auto 12] ]|]);
    split; first [intros H; discriminate H | reflexivity].
Qed.

End Provisioner.

Lemma create_database_plan_witness :
  let w := Demo.world Demo.conf Demo.disk [] in
  let run := create_database_if_not_exists Demo.services w in
  fst run = Returns true /\
  db (snd run) = ["<database>"] /\
  queries (trace (snd run)) =
    ["SELECT 1 FROM pg_database WHERE datname = 'fba'";
     "SELECT pg_terminate_backend(pid) FROM pg_stat_activity WHERE datname = 'fba' AND pid <> pg_backend_pid()";
     "DROP DATABASE IF EXISTS fba";
     "CREATE DATABASE fba"].
Proof.
  intros w run.
  destruct (create_database_plan Demo.services w)
    as (_ & _ & es & Htrace & _ & _ & _ & _ & Hsent & Hstate & Hresult & _).
  assert (Hes : es = trace (snd run)) by (unfold run; rewrite Htrace; reflexivity).
  rewrite <- Hes.
  split; [exact Hresult|].
  split; [unfold run; rewrite Hstate; vm_compute; reflexivity|].
  rewrite Hsent. vm_compute. reflexivity.
Defined.

(** ** Secrets *)

Ltac div_lia := zify; Z.to_euclidean_division_equations; lia.

Lemma checked_below (P : N -> bool) (k : nat) :
  forallb (fun i => P (N.of_nat i)) (seq 0 k) = true ->
  forall n : N, (n < N.of_nat k)%N -> P n = true.
Proof.
  intros Hall n Hn.
  rewrite forallb_forall in Hall.
  specialize (Hall (N.to_nat n)).
  rewrite N2Nat.id in Hall. apply Hall.
  apply in_seq. lia.
Qed.

Lemma index_of_digit (alphabet : string) (k : nat) :
  forallb
    (fun i =>
       match index_of alphabet (digit alphabet (N.of_nat i)) with
       | Some m => N.eqb m (N.of_nat i)
       | None => false
       end) (seq 0 k) = true ->
  forall n : N, (n < N.of_nat k)%N -> index_of alphabet (digit alphabet n) = Some n.
Proof.
  intros Hall n Hn.
  pose proof (@checked_below
                (fun n => match index_of alphabet (digit alphabet n) with
                          | Some m => N.eqb m n
                          | None => false
                          end) k Hall n Hn) as H.
  cbv beta in H.
  destruct (index_of alphabet (digit alphabet n)) as [m|]; [|discriminate].
  apply N.eqb_eq in H. congruence.
Qed.

Lemma hexdigit_index (n : N) :
  (n < 16)%N -> index_of hexdigits (digit hexdigits n) = Some n.
Proof. apply (@index_of_digit hexdigits 16). vm_compute. reflexivity. Qed.

Lemma urlsafe_index (n : N) :
  (n < 64)%N -> index_of urlsafe_alphabet (digit urlsafe_alphabet n) = Some n.
Proof. apply (@index_of_digit urlsafe_alphabet 64). vm_compute. reflexivity. Qed.

Lemma urlsafe_not_padding (n : N) :
  (n < 64)%N -> Ascii.eqb (digit urlsafe_alphabet n) "=" = false.
Proof.
  intros Hn. apply Ascii.eqb_neq. intros Heq.
  pose proof (urlsafe_index Hn) as H. rewrite Heq in H. discriminate H.
Qed.

Lemma byte_bound (b : Byte.byte) : (Byte.to_N b < 256)%N.
Proof. pose proof (Byte.to_N_bounded b). lia. Qed.

(** The hexadecimal text of some bytes gives them back and has two
    characters for each. *)
Lemma fromhex_hex (bs : list Byte.byte) : fromhex (hex bs) = Some bs.
Proof.
  induction bs as [|b rest IH]; [reflexivity|].
  cbn [hex fromhex].
  pose proof (byte_bound b) as Hb.
  rewrite !hexdigit_index, IH by div_lia.
  replace (Byte.to_N b / 16 * 16 + Byte.to_N b mod 16)%N with (Byte.to_N b) by div_lia.
  rewrite Byte.of_to_N. reflexivity.
Qed.

Lemma length_hex (bs : list Byte.byte) : String.length (hex bs) = 2 * List.length bs.
Proof.
  induction bs as [|b rest IH]; [reflexivity|].
  cbn [hex String.length List.length]. rewrite IH. lia.
Qed.

Lemma rstrip_keep (c x : ascii) (s : string) :
  Ascii.eqb x c = false -> rstrip c (String x s) = String x (rstrip c s).
Proof.
  intros Hx. cbn [rstrip]. destruct (rstrip c s); [rewrite Hx|]; reflexivity.
Qed.

Lemma list_ind3 (A : Type) (P : list A -> Prop) :
  P [] ->
  (forall a, P [a]) ->
  (forall a b, P [a; b]) ->
  (forall a b c rest, P rest -> P (a :: b :: c :: rest)) ->
  forall l, P l.
Proof.
  intros H0 H1 H2 H3 l.
  assert (H : forall n l, List.length l <= n -> P l).
  { induction n as [|n IH]; intros [|a [|b [|c rest]]] Hlen; simpl in Hlen;
      auto; try lia.
    apply H3. apply IH. lia. }
  apply (H (List.length l)). lia.
Qed.

(** The URL-safe text of some bytes, with its padding stripped, gives them
    back. *)
Lemma urlsafe_b64decode_encode (bs : list Byte.byte) :
  urlsafe_b64decode (rstrip "=" (urlsafe_b64encode bs)) = Some bs.
Proof.
  induction bs as [|a|a b|a b c rest IH] using list_ind3.
  - reflexivity.
  - pose proof (byte_bound a) as Ha.
    cbn [urlsafe_b64encode].
    rewrite !rstrip_keep by (apply urlsafe_not_padding; div_lia).
    change (rstrip "=" "==") with EmptyString.
    cbn [urlsafe_b64decode].
    rewrite !urlsafe_index by div_lia.
    replace (Byte.to_N a / 4 * 4 + Byte.to_N a mod 4 * 16 / 16)%N
      with (Byte.to_N a) by div_lia.
    rewrite Byte.of_to_N. reflexivity.
  - pose proof (byte_bound a) as Ha. pose proof (byte_bound b) as Hb.
    cbn [urlsafe_b64encode].
    rewrite !rstrip_keep by (apply urlsafe_not_padding; div_lia).
    change (rstrip "=" "=") with EmptyString.
    cbn [urlsafe_b64decode].
    rewrite !urlsafe_index by div_lia.
    replace (Byte.to_N a / 4 * 4 + (Byte.to_N a mod 4 * 16 + Byte.to_N b / 16) / 16)%N
      with (Byte.to_N a) by div_lia.
    replace ((Byte.to_N a mod 4 * 16 + Byte.to_N b / 16) mod 16 * 16
             + Byte.to_N b mod 16 * 4 / 4)%N
      with (Byte.to_N b) by div_lia.
    rewrite !Byte.of_to_N. reflexivity.
  - pose proof (byte_bound a) as Ha. pose proof (byte_bound b) as Hb.
    pose proof (byte_bound c) as Hc.
    cbn [urlsafe_b64encode].
    rewrite !rstrip_keep by (apply urlsafe_not_padding; div_lia).
    cbn [urlsafe_b64decode].
    rewrite !urlsafe_index by div_lia.
    fold urlsafe_b64decode. rewrite IH.
    replace (Byte.to_N a / 4 * 4 + (Byte.to_N a mod 4 * 16 + Byte.to_N b / 16) / 16)%N
      with (Byte.to_N a) by div_lia.
    replace ((Byte.to_N a mod 4 * 16 + Byte.to_N b / 16) mod 16 * 16
             + (Byte.to_N b mod 16 * 4 + Byte.to_N c / 64) / 4)%N
      with (Byte.to_N b) by div_lia.
    replace ((Byte.to_N b mod 16 * 4 + Byte.to_N c / 64) mod 4 * 64 + Byte.to_N c mod 64)%N
      with (Byte.to_N c) by div_lia.
    rewrite !Byte.of_to_N. reflexivity.
Qed.

Lemma length_urlsafe (bs : list Byte.byte) :
  String.length (rstrip "=" (urlsafe_b64encode bs)) = (4 * List.length bs + 2) / 3.
Proof.
  induction bs as [|a|a b|a b c rest IH] using list_ind3.
  - reflexivity.
  - pose proof (byte_bound a) as Ha.
    cbn [urlsafe_b64encode].
    rewrite !rstrip_keep by (apply urlsafe_not_padding; div_lia).
    reflexivity.
  - pose proof (byte_bound a) as Ha. pose proof (byte_bound b) as Hb.
    cbn [urlsafe_b64encode].
    rewrite !rstrip_keep by (apply urlsafe_not_padding; div_lia).
    reflexivity.
  - pose proof (byte_bound a) as Ha. pose proof (byte_bound b) as Hb.
    pose proof (byte_bound c) as Hc.
    cbn [urlsafe_b64encode].
    rewrite !rstrip_keep by (apply urlsafe_not_padding; div_lia).
    cbn [String.length List.length]. rewrite IH.
    replace (4 * S (S (S (List.length rest))) + 2)
      with (4 * List.length rest + 2 + 4 * 3) by lia.
    rewrite Nat.div_add by lia. lia.
Qed.

(** ** Environment setup *)

(** Runs the computation on a world given by its fields, unfolding the monad
    and the primitives and nothing of the text processing. *)
Ltac run_world :=
  cbv beta iota delta
    [bind try_except path_exists read_text console_print console_print_panel
     Prompt_ask token_urlsafe token_hex token_bytes set_setting write_text ret raise
     get_settings log with_answers with_drawn with_settings with_files
     answers files readonly entropy drawn settings trace db cache plugins
     fst snd negb].

Section EnvironmentSetup.

Variables DB Cache Plugins : Type.
Variable BASE_PATH : string.

(** C9.  Whenever the environment setup comes to generate its secrets (the
    template is there and the nine values were typed; whether the file can
    then be written does not matter), the token-signing secret is the
    URL-safe base64 text, without padding, of 32 bytes taken from the
    system's entropy, and the log-encryption secret is the hexadecimal text
    of the next 32 bytes: each decodes to its 32 bytes, the first has 43
    characters and the second 64. *)
Theorem setup_env_file_secrets (w : World DB Cache Plugins) (content : string)
    (a1 a2 a3 a4 a5 a6 a7 a8 a9 : string) (rest : list string) :
  files w (BASE_PATH // ".env.example") = Some content ->
  answers w = a1 :: a2 :: a3 :: a4 :: a5 :: a6 :: a7 :: a8 :: a9 :: rest ->
  let run := setup_env_file BASE_PATH w in
  let token := map (fun i => entropy w (drawn w + i)) (seq 0 32) in
  let opera := map (fun i => entropy w (drawn w + 32 + i)) (seq 0 32) in
  let s := settings (snd run) in
  List.length token = 32 /\
  TOKEN_SECRET_KEY s = rstrip "=" (urlsafe_b64encode token) /\
  urlsafe_b64decode (TOKEN_SECRET_KEY s) = Some token /\
  String.length (TOKEN_SECRET_KEY s) = 43 /\
  List.length opera = 32 /\
  OPERA_LOG_ENCRYPT_SECRET_KEY s = hex opera /\
  fromhex (OPERA_LOG_ENCRYPT_SECRET_KEY s) = Some opera /\
  String.length (OPERA_LOG_ENCRYPT_SECRET_KEY s) = 64 /\
  drawn (snd run) = drawn w + 64.
Proof.
  intros Hfile Hanswers run. subst run.
  destruct w as [s d c p f ro ans ent n tr]. cbn [files answers entropy drawn] in *.
  unfold setup_env_file. run_world.
  destruct (f (BASE_PATH // ".env.example")) as [content'|] eqn:Hfile';
    [|discriminate Hfile].
  run_world. rewrite ?Hfile'. run_world.
  destruct ans as [|b1 [|b2 [|b3 [|b4 [|b5 [|b6 [|b7 [|b8 [|b9 rest']]]]]]]]];
    try discriminate Hanswers.
  run_world.
  set (token := map (fun i => ent (n + i)) (seq 0 32)).
  set (opera := map (fun i => ent (n + 32 + i)) (seq 0 32)).
  assert (Htoken : List.length token = 32)
    by (unfold token; rewrite length_map, length_seq; reflexivity).
  assert (Hopera : List.length opera = 32)
    by (unfold opera; rewrite length_map, length_seq; reflexivity).
  destruct (ro (BASE_PATH // ".env")); run_world;
    cbn [TOKEN_SECRET_KEY OPERA_LOG_ENCRYPT_SECRET_KEY assign Field_eqb];
    fold token; fold opera;
    rewrite urlsafe_b64decode_encode, length_urlsafe, Htoken;
    rewrite fromhex_hex, length_hex, Hopera;
    repeat split; try reflexivity; lia.
Qed.

(** A setup that returns [True] had its template and its nine values, and
    could write its file. *)
Lemma setup_env_file_true (w : World DB Cache Plugins) :
  fst (setup_env_file BASE_PATH w) = Returns true ->
  readonly w (BASE_PATH // ".env") = false /\
  exists (content a1 a2 a3 a4 a5 a6 a7 a8 a9 : string) (rest : list string),
    files w (BASE_PATH // ".env.example") = Some content /\
    answers w = a1 :: a2 :: a3 :: a4 :: a5 :: a6 :: a7 :: a8 :: a9 :: rest.
Proof.
  destruct w as [s d c p f ro ans ent n tr]. cbn [files readonly answers].
  unfold setup_env_file. run_world.
  destruct (f (BASE_PATH // ".env.example")) as [content|] eqn:Hfile; run_world;
    rewrite ?Hfile; run_world; [|intros H; discriminate H].
  destruct ans as [|a1 [|a2 [|a3 [|a4 [|a5 [|a6 [|a7 [|a8 [|a9 rest]]]]]]]]]; run_world;
    try (intros H; discriminate H).
  destruct (ro (BASE_PATH // ".env")); run_world; [intros H; discriminate H|].
  intros _. split; [reflexivity|].
  exists content, a1, a2, a3, a4, a5, a6, a7, a8, a9, rest. split; reflexivity.
Qed.

(** Whatever happens, the environment setup returns a boolean, leaves the
    server alone and logs nothing but its own reading, asking, printing and
    writing. *)
Lemma setup_env_file_log (w : World DB Cache Plugins) :
  let run := setup_env_file BASE_PATH w in
  exists es : list Event,
    trace (snd run) = (trace w ++ es)%list /\
    forallb idle es = true /\
    (fst run = Returns true \/ fst run = Returns false).
Proof.
  intros run. subst run. destruct w as [s d c p f ro ans ent n tr].
  unfold setup_env_file. run_world.
  destruct (f (BASE_PATH // ".env.example")) as [content|] eqn:Hfile; run_world;
    rewrite ?Hfile; run_world.
  2: { eexists. split; [reflexivity|]. split; [reflexivity|].
       right; reflexivity. }
  destruct ans as [|a1 [|a2 [|a3 [|a4 [|a5 [|a6 [|a7 [|a8 [|a9 rest]]]]]]]]]; run_world;
    try destruct (ro (BASE_PATH // ".env")); run_world;
    rewrite <- ?app_assoc; cbn [app];
    (eexists; split; [reflexivity|]);
    (split; [reflexivity|]);
    first [left; reflexivity | right; reflexivity].
Qed.

(** With the template in place, nine answers typed and the target writable,
    the setup goes through. *)
Lemma setup_env_file_success (w : World DB Cache Plugins) (content : string)
    (a1 a2 a3 a4 a5 a6 a7 a8 a9 : string) (rest : list string) :
  files w (BASE_PATH // ".env.example") = Some content ->
  readonly w (BASE_PATH // ".env") = false ->
  answers w = a1 :: a2 :: a3 :: a4 :: a5 :: a6 :: a7 :: a8 :: a9 :: rest ->
  let run := setup_env_file BASE_PATH w in
  fst run = Returns true /\
  answers (snd run) = rest /\
  db (snd run) = db w /\
  cache (snd run) = cache w /\
  plugins (snd run) = plugins w.
Proof.
  intros Hfile Hro Hanswers run. subst run.
  destruct w as [s d c p f ro ans ent n tr]. cbn [files readonly answers] in *.
  unfold setup_env_file. run_world.
  destruct (f (BASE_PATH // ".env.example")) as [content'|] eqn:Hfile';
    [|discriminate Hfile].
  run_world. rewrite ?Hfile'. run_world.
  destruct ans as [|b1 [|b2 [|b3 [|b4 [|b5 [|b6 [|b7 [|b8 [|b9 rest']]]]]]]]];
    try discriminate Hanswers.
  injection Hanswers as _ _ _ _ _ _ _ _ _ ->.
  run_world.
  destruct (ro (BASE_PATH // ".env")); [discriminate Hro|].
  run_world. repeat split.
Qed.

End EnvironmentSetup.

Lemma setup_env_file_secrets_witness :
  let w := Demo.world Demo.conf Demo.disk Demo.nine_answers in
  let s := settings (snd (setup_env_file Demo.base w)) in
  String.length (TOKEN_SECRET_KEY s) = 43 /\
  String.length (OPERA_LOG_ENCRYPT_SECRET_KEY s) = 64.
Proof.
  intros w s.
  destruct (@setup_env_file_secrets Demo.DB Demo.Cache Demo.Plugins Demo.base w
              _ _ _ _ _ _ _ _ _ _ [] eq_refl eq_refl)
    as (_ & _ & _ & Htoken & _ & _ & _ & Hopera & _).
  split; assumption.
Defined.

(** ** The automatic workflow *)

Lemma before_app (P : Event -> bool) (es1 es2 : list Event) :
  before P (es1 ++ es2) =
  if existsb P es1 then before P es1 else (es1 ++ before P es2)%list.
Proof.
  induction es1 as [|e es1 IH]; simpl; [reflexivity|].
  destruct (P e); simpl; [reflexivity|].
  rewrite IH. destruct (existsb P es1); reflexivity.
Qed.

Lemma confirmations_before (P : Event -> bool) (es : list Event) :
  confirmations es = [] -> confirmations (before P es) = [].
Proof.
  induction es as [|e es IH]; simpl; [reflexivity|].
  intros H. apply app_eq_nil in H. destruct H as [He Hes].
  destruct (P e); [reflexivity|].
  simpl. rewrite He. simpl. apply IH. exact Hes.
Qed.

Lemma idle_facts (es : list Event) :
  forallb idle es = true ->
  existsb provisions es = false /\ existsb initializes es = false /\
  confirmations es = [].
Proof.
  induction es as [|e es IH]; simpl; [auto|].
  intros H. apply andb_prop in H. destruct H as [He Hes].
  destruct (IH Hes) as (Hp & Hi & Hc). rewrite Hp, Hi, Hc.
  unfold idle, unconfirmed in He.
  destruct (provisions e), (initializes e), (confirmation_of e); try discriminate.
  auto.
Qed.

Lemma unattended_facts (es : list Event) :
  forallb unattended es = true ->
  existsb provisions es = false /\ existsb writes es = false /\
  confirmations es = [].
Proof.
  induction es as [|e es IH]; simpl; [auto|].
  intros H. apply andb_prop in H. destruct H as [He Hes].
  destruct (IH Hes) as (Hp & Hw & Hc). rewrite Hp, Hw, Hc.
  destruct e; try discriminate He; auto.
Qed.

Lemma administrative_facts (es : list Event) :
  forallb administrative es = true ->
  existsb initializes es = false /\ existsb writes es = false /\
  confirmations es = [].
Proof.
  induction es as [|e es IH]; simpl; [auto|].
  intros H. apply andb_prop in H. destruct H as [He Hes].
  destruct (IH Hes) as (Hi & Hw & Hc). rewrite Hi, Hw, Hc.
  unfold administrative, unconfirmed in He.
  destruct (initializes e), (writes e), (confirmation_of e); try discriminate.
  auto.
Qed.

Lemma confirmations_cons (e : Event) (es : list Event) :
  confirmations (e :: es) = (confirmation_of e ++ confirmations es)%list.
Proof. reflexivity. Qed.

(** Reads a log made of known events and of stretches known by their
    properties, which [facts] rewrites. *)
Ltac read_log facts :=
  repeat first
    [ progress cbn [existsb provisions initializes clears schema_work writes orb negb
                    app confirmation_of before]
    | rewrite before_app
    | rewrite existsb_app
    | rewrite confirmations_app
    | rewrite confirmations_cons
    | progress facts ].

Ltac settle facts :=
  read_log facts;
  repeat (match goal with
          | |- context [if ?b then _ else _] => destruct b
          end; read_log facts);
  first [ intros H; discriminate H | intros _; reflexivity | reflexivity ].

(** Every path through the provisioner: the address, the engine, the
    connection, the check and the queries that follow it. *)
Ltac provisioner_cases X w :=
  unfold create_database_if_not_exists, try_except, try_finally, bind,
    get_settings, URL_create, create_async_engine, engine_connect, conn_execute,
    console_print, engine_dispose, ret;
  generalize (provisioning (settings w)); intros [u chk term drp crt];
  cbn [url check_sql terminate_sql drop_sql create_sql];
  destruct (url_create X u) as [?|];
    [|destruct (engine_create X u) as [?|];
      [|destruct (admin_connect X u (db w)) as [?|];
        [|cbn [db log with_db];
          destruct (admin_execute X chk (db w)) as [?|[[|] ?]];
          cbn [db log with_db];
          try (destruct term as [?|]; [destruct (truthy (Some _))|]);
          repeat match goal with
                 | |- context [admin_execute X ?sql ?d] =>
                     destruct (admin_execute X sql d) as [?|[? ?]];
                     cbn [db log with_db]
                 end]]];
  cbn [fst snd trace log with_db];
  rewrite <- ?app_assoc; cbn [app].

Section Automatic.

Variables DB Cache Plugins : Type.
Variable X : Collaborators DB Cache Plugins.
Variables BASE_PATH version : string.

(** The provisioner returns a boolean and logs nothing but its connection,
    its queries and its printing. *)
Lemma create_database_log (w : World DB Cache Plugins) :
  let run := create_database_if_not_exists X w in
  exists es : list Event,
    trace (snd run) = (trace w ++ es)%list /\
    forallb administrative es = true /\
    (fst run = Returns true \/ fst run = Returns false).
Proof.
  intros run. subst run.
  provisioner_cases X w;
    (eexists; split; [reflexivity|]);
    (split; [reflexivity|]);
    first [left; reflexivity | right; reflexivity].
Qed.

(** [init] shows its panel, asks its question and then, whatever the answer,
    neither asks, provisions nor writes; it touches the cache and the schema
    only when the answer was yes. *)
Lemma init_log (w : World DB Cache Plugins) :
  let run := init X BASE_PATH version w in
  exists es : list Event,
    trace (snd run) =
      (trace w
       ++ [PrintPanel ("fba v" ++ version ++ " 初始化")
             (init_panel (settings w) (plugin_names X (plugins w)));
           Ask init_question ["y"; "n"] "n"]
       ++ es)%list /\
    forallb unattended es = true /\
    (existsb initializes es = true ->
     exists a rest, answers w = a :: rest /\ lower a = "y").
Proof.
  intros run. subst run.
  destruct (answers w) as [|a rest] eqn:Hanswers.
  - unfold init, bind, get_settings, get_plugins, console_print_panel, Prompt_ask.
    cbn [answers log]. rewrite Hanswers. cbn [fst snd trace log].
    exists []. rewrite <- !app_assoc. repeat split. intros H; discriminate H.
  - destruct (lower a =? "y") eqn:Hyes.
    + apply String.eqb_eq in Hyes.
      rewrite (init_confirmed X BASE_PATH version w Hanswers Hyes).
      set (shown := [PrintPanel _ _; _; _]).
      destruct (init_try_orderly X BASE_PATH (db w) (cache w) shown (with_answers rest w))
        as (d' & c' & es' & Hsnd & _ & _ & _ & _ & _ & Hquiet).
      unfold try_except, raise.
      destruct (init_try X BASE_PATH (evolve (db w) (cache w) shown (with_answers rest w)))
        as [r w'].
      cbn [snd] in Hsnd. subst w'.
      exists (Print "开始初始化..." :: es').
      assert (Htrace : forall o : Outcome unit,
                 trace (snd (o, evolve d' c' (shown ++ es') (with_answers rest w))) =
                 (trace w
                  ++ [PrintPanel ("fba v" ++ version ++ " 初始化")
                        (init_panel (settings w) (plugin_names X (plugins w)));
                      Ask init_question ["y"; "n"] "n"]
                  ++ Print "开始初始化..." :: es')%list) by reflexivity.
      destruct r as [[]|[message code|e]]; (split; [apply Htrace|]);
        (split; [exact Hquiet | intros _; exists a, rest; split; [reflexivity | exact Hyes]]).
    + unfold init, bind, get_settings, get_plugins, console_print_panel, Prompt_ask.
      cbn [answers log]. rewrite Hanswers, Hyes.
      unfold console_print. cbn [fst snd trace log with_answers].
      exists [Print "已取消初始化操作"]. rewrite <- !app_assoc.
      repeat split. intros H; discriminate H.
Qed.

(** C10.  In the automatic workflow, once the environment is set up (the
    template is there, nine values were typed, the target is writable),
    answering the database question with anything but yes does not end the
    run: the run is that of [init], started on the same server, after the
    note of cancellation and the heading of step 3 were printed; nothing of
    the provisioner (connection, query, disposal) is in the log, and the
    question of [init] is asked. *)
Theorem auto_init_declined (w : World DB Cache Plugins) (content : string)
    (a1 a2 a3 a4 a5 a6 a7 a8 a9 a : string) (rest : list string) :
  files w (BASE_PATH // ".env.example") = Some content ->
  readonly w (BASE_PATH // ".env") = false ->
  answers w = a1 :: a2 :: a3 :: a4 :: a5 :: a6 :: a7 :: a8 :: a9 :: a :: rest ->
  lower a <> "y" ->
  let run := auto_init X BASE_PATH version w in
  exists w3 : World DB Cache Plugins,
    run = init X BASE_PATH version w3 /\
    db w3 = db w /\
    answers w3 = rest /\
    exists es : list Event,
      trace (snd run) = (trace w ++ es)%list /\
      existsb provisions es = false /\
      In (Print "已取消数据库操作") es /\
      In (Print (nl ++ "[bold cyan]步骤 3/3:[/] 初始化数据库表和数据")) es /\
      In (Ask init_question ["y"; "n"] "n") es.
Proof.
  intros Hfile Hro Hanswers Hno run.
  apply String.eqb_neq in Hno.
  assert (Hrun : exists (w3 : World DB Cache Plugins) (es0 : list Event),
             run = init X BASE_PATH version w3 /\
             db w3 = db w /\ answers w3 = rest /\
             trace w3 = (trace w ++ es0)%list /\
             existsb provisions es0 = false /\
             In (Print "已取消数据库操作") es0 /\
             In (Print (nl ++ "[bold cyan]步骤 3/3:[/] 初始化数据库表和数据")) es0).
  { subst run. unfold auto_init.
    unfold bind at 1. unfold console_print at 1.
    unfold bind at 1. unfold console_print_panel at 1.
    set (w1 := log (PrintPanel _ _) (log (Print _) w)).
    unfold bind at 1.
    destruct (@setup_env_file_success DB Cache Plugins BASE_PATH w1 content
                a1 a2 a3 a4 a5 a6 a7 a8 a9 (a :: rest) Hfile Hro Hanswers)
      as (Hok & Hrest & Hdb & _).
    destruct (setup_env_file_log BASE_PATH w1) as (es1 & Htrace1 & Hidle & _).
    destruct (setup_env_file BASE_PATH w1) as [r w2].
    cbn [fst snd] in Hok, Hrest, Hdb, Htrace1. subst r.
    cbn [negb]. unfold bind at 1. unfold ret at 1.
    unfold bind at 1. unfold console_print at 1.
    unfold bind at 1. unfold get_settings at 1.
    unfold bind at 1. unfold console_print_panel at 1.
    unfold bind at 1. unfold Prompt_ask at 1.
    cbn [answers log]. rewrite Hrest. rewrite Hno.
    unfold bind at 1. unfold console_print at 1.
    unfold bind at 1. unfold console_print at 1.
    cbv beta iota.
    match goal with |- context [init X BASE_PATH version ?w'] => set (w3 := w') end.
    destruct (@idle_facts _ Hidle) as (Hp1 & _ & _).
    exists w3. eexists. split; [reflexivity|].
    split; [exact Hdb|]. split; [reflexivity|].
    subst w3. cbn [trace log with_answers].
    rewrite Htrace1. subst w1. cbn [trace log].
    rewrite <- !app_assoc. cbn [app].
    split; [reflexivity|].
    split.
    - cbn [existsb provisions orb]. rewrite existsb_app, Hp1. reflexivity.
    - split; right; right; apply in_or_app; right; cbn [In]; auto 12. }
  destruct Hrun as (w3 & es0 & Hrun & Hdb & Hrest & Htrace0 & Hp0 & Hnote & Hstep).
  exists w3. split; [exact Hrun|]. split; [exact Hdb|]. split; [exact Hrest|].
  rewrite Hrun.
  destruct (init_log w3) as (es3 & Htrace3 & Hquiet & _).
  destruct (@unattended_facts _ Hquiet) as (Hp3 & _ & _).
  rewrite Htrace3, Htrace0, <- !app_assoc.
  eexists. split; [reflexivity|].
  split.
  - rewrite !existsb_app, Hp0, Hp3. reflexivity.
  - repeat split.
    + apply in_or_app. left. exact Hnote.
    + apply in_or_app. left. exact Hstep.
    + apply in_or_app. right. cbn [app In]. auto.
Qed.

(** The confirmations of the automatic workflow, on its log: nothing is
    asked before the environment file is written, the database question is
    asked before anything is provisioned, and the question of [init] before
    the cache or the schema is touched. *)
Lemma auto_init_asks (w : World DB Cache Plugins) :
  let run := auto_init X BASE_PATH version w in
  exists es : list Event,
    trace (snd run) = (trace w ++ es)%list /\
    (exists k : nat, confirmations es = firstn k [database_question; init_question]) /\
    (existsb writes es = true -> confirmations (before writes es) = []) /\
    (existsb provisions es = true ->
     confirmations (before provisions es) = [database_question]) /\
    (existsb initializes es = true ->
     confirmations (before initializes es) = [database_question; init_question]).
Proof.
  intros run. subst run. unfold auto_init.
  unfold bind at 1. unfold console_print at 1.
  unfold bind at 1. unfold console_print_panel at 1.
  set (w1 := log (PrintPanel _ _) (log (Print _) w)).
  unfold bind at 1.
  destruct (setup_env_file_log BASE_PATH w1) as (es1 & Htrace1 & Hidle1 & Hbool).
  destruct (setup_env_file BASE_PATH w1) as [r w2].
  cbn [fst snd] in Htrace1, Hbool.
  assert (Hstart : exists es0 : list Event,
             trace w2 = (trace w ++ es0)%list /\ forallb idle es0 = true).
  { rewrite Htrace1. subst w1. cbn [trace log]. rewrite <- !app_assoc.
    eexists. split; [reflexivity|]. cbn [app forallb]. rewrite Hidle1. reflexivity. }
  clear Htrace1 Hidle1 es1. clearbody w1. clear w1.
  destruct Hstart as (es0 & Htrace2 & Hidle).
  destruct (@idle_facts _ Hidle) as (Hp0 & Hi0 & Hc0).
  pose proof (confirmations_before writes _ Hc0) as Hw0.
  destruct Hbool as [-> | ->]; cbn [negb].
  2: { unfold bind, raise. cbn [snd]. eexists. split; [exact Htrace2|].
       split; [exists 0|]; read_log ltac:(rewrite ?Hp0, ?Hi0, ?Hc0, ?Hw0);
         repeat split; intros; try discriminate; try reflexivity. }
  unfold bind at 1. unfold ret at 1.
  unfold bind at 1. unfold console_print at 1.
  unfold bind at 1. unfold get_settings at 1.
  unfold bind at 1. unfold console_print_panel at 1.
  unfold bind at 1. unfold Prompt_ask at 1.
  cbn [answers log].
  destruct (answers w2) as [|a rest] eqn:Hanswers.
  { cbv beta iota. cbn [snd trace log]. rewrite Htrace2, <- !app_assoc. cbn [app].
    eexists. split; [reflexivity|].
    split; [exists 1|]; read_log ltac:(rewrite ?Hp0, ?Hi0, ?Hc0, ?Hw0);
      repeat split; intros; try discriminate; try reflexivity.
    destruct (existsb writes es0); [apply Hw0 | discriminate]. }
  cbv beta iota.
  match goal with
  | |- context [with_answers rest ?w'] => set (w3 := with_answers rest w')
  end.
  assert (Htrace3 : exists shown : list Event,
             trace w3 = (trace w ++ es0 ++ shown
                         ++ [Ask database_question ["y"; "n"] "n"])%list /\
             forallb idle shown = true).
  { subst w3. cbn [trace log with_answers]. rewrite Htrace2, <- !app_assoc.
    exists [Print (nl ++ "[bold cyan]步骤 2/3:[/] 数据库创建");
            PrintPanel ("fba v" ++ version ++ " 数据库")
              ("【数据库配置】"
               ++ nl ++ nl ++ "  • 类型: " ++ DATABASE_TYPE (settings w2)
               ++ nl ++ "  • 数据库：" ++ DATABASE_SCHEMA (settings w2)
               ++ nl ++ "  • 主机：" ++ DATABASE_HOST (settings w2) ++ ":"
               ++ DATABASE_PORT (settings w2))].
    split; reflexivity. }
  clearbody w3. clear Htrace2 Hanswers w2.
  destruct Htrace3 as (shown & Htrace3 & Hshown).
  destruct (@idle_facts _ Hshown) as (Hp2 & Hi2 & Hc2).
  pose proof (confirmations_before writes _ Hc2) as Hw2.
  destruct (lower a =? "y").
  - unfold bind at 1. unfold bind at 1.
    destruct (create_database_log w3) as (es4 & Htrace4 & Hadmin & Hbool).
    destruct (create_database_if_not_exists X w3) as [r4 w4].
    cbn [fst snd] in Htrace4, Hbool.
    destruct (@administrative_facts _ Hadmin) as (Hi4 & Hw4 & Hc4).
    pose proof (confirmations_before provisions _ Hc4) as Hb4.
    destruct Hbool as [-> | ->]; cbn [negb].
    + unfold ret at 1. cbv beta iota.
      unfold bind at 1. unfold console_print at 1. cbv beta iota.
      match goal with
      | |- context [init X BASE_PATH version ?w'] => set (w5 := w')
      end.
      destruct (init_log w5) as (es5 & Htrace5 & Hquiet & _).
      destruct (@unattended_facts _ Hquiet) as (Hp5 & Hw5 & Hc5).
      pose proof (confirmations_before initializes _ Hc5) as Hb5.
      rewrite Htrace5. subst w5. cbn [trace log].
      rewrite Htrace4, Htrace3, <- !app_assoc. cbn [app].
      eexists. split; [reflexivity|].
      split; [exists 2|]; repeat split;
        settle ltac:(rewrite ?Hp0, ?Hi0, ?Hc0, ?Hw0, ?Hp2, ?Hi2, ?Hc2, ?Hw2,
                       ?Hi4, ?Hw4, ?Hc4, ?Hb4, ?Hp5, ?Hw5, ?Hc5, ?Hb5).
    + unfold raise. cbn [snd].
      rewrite Htrace4, Htrace3, <- !app_assoc. cbn [app].
      eexists. split; [reflexivity|].
      split; [exists 1|]; repeat split;
        settle ltac:(rewrite ?Hp0, ?Hi0, ?Hc0, ?Hw0, ?Hp2, ?Hi2, ?Hc2, ?Hw2,
                       ?Hi4, ?Hw4, ?Hc4, ?Hb4).
  - unfold bind at 1. unfold console_print at 1. cbv beta iota.
    unfold bind at 1. unfold console_print at 1. cbv beta iota.
    match goal with
    | |- context [init X BASE_PATH version ?w'] => set (w5 := w')
    end.
    destruct (init_log w5) as (es5 & Htrace5 & Hquiet & _).
    destruct (@unattended_facts _ Hquiet) as (Hp5 & Hw5 & Hc5).
    pose proof (confirmations_before initializes _ Hc5) as Hb5.
    rewrite Htrace5. subst w5. cbn [trace log].
    rewrite Htrace3, <- !app_assoc. cbn [app].
    eexists. split; [reflexivity|].
    split; [exists 2|]; repeat split;
      settle ltac:(rewrite ?Hp0, ?Hi0, ?Hc0, ?Hw0, ?Hp2, ?Hi2, ?Hc2, ?Hw2,
                     ?Hp5, ?Hw5, ?Hc5, ?Hb5).
Qed.

(** What the answer to the question of [init] decides. *)
Lemma init_answered (w : World DB Cache Plugins) :
  let run := init X BASE_PATH version w in
  exists es : list Event,
    trace (snd run) = (trace w ++ es)%list /\
    existsb provisions es = false /\
    (existsb initializes es = true ->
     exists b rest, answers w = b :: rest /\ lower b = "y") /\
    (forall b rest,
       answers w = b :: rest -> lower b <> "y" ->
       fst run = Returns tt /\ In (Print "已取消初始化操作") es) /\
    (forall b rest,
       answers w = b :: rest -> lower b = "y" -> In (Print "开始初始化...") es).
Proof.
  intros run. subst run.
  destruct (answers w) as [|a rest] eqn:Hanswers.
  - unfold init, bind, get_settings, get_plugins, console_print_panel, Prompt_ask.
    cbn [answers log]. rewrite Hanswers. cbn [fst snd trace log].
    eexists. rewrite <- !app_assoc. split; [reflexivity|].
    split; [reflexivity|].
    split; [intros H; discriminate H|].
    split; intros b rest' H; discriminate H.
  - destruct (lower a =? "y") eqn:Hyes.
    + apply String.eqb_eq in Hyes.
      rewrite (init_confirmed X BASE_PATH version w Hanswers Hyes).
      set (shown := [PrintPanel _ _; _; _]).
      destruct (init_try_orderly X BASE_PATH (db w) (cache w) shown (with_answers rest w))
        as (d' & c' & es' & Hsnd & _ & _ & _ & _ & _ & Hquiet).
      destruct (@unattended_facts _ Hquiet) as (Hp & _ & _).
      unfold try_except, raise.
      destruct (init_try X BASE_PATH (evolve (db w) (cache w) shown (with_answers rest w)))
        as [r w'].
      cbn [snd] in Hsnd. subst w'.
      exists (shown ++ es')%list.
      assert (Htrace : forall o : Outcome unit,
                 trace (snd (o, evolve d' c' (shown ++ es') (with_answers rest w))) =
                 (trace w ++ shown ++ es')%list) by reflexivity.
      destruct r as [[]|[message code|e]]; (split; [apply Htrace|]);
        (split; [rewrite existsb_app, Hp; reflexivity|]);
        (split; [intros _; exists a, rest; split; [reflexivity | exact Hyes]|]);
        (split; [intros b rest' Hb Hno; injection Hb as <- <-; contradiction
                |intros b rest' _ _; apply in_or_app; left; subst shown; cbn [In]; auto]).
    + unfold init, bind, get_settings, get_plugins, console_print_panel, Prompt_ask.
      cbn [answers log]. rewrite Hanswers, Hyes.
      unfold console_print. cbn [fst snd trace log with_answers].
      eexists. rewrite <- !app_assoc. split; [reflexivity|].
      split; [reflexivity|].
      split; [intros H; discriminate H|].
      split.
      * intros b rest' _ _. split; [reflexivity | cbn [In app]; auto].
      * intros b rest' Hb Hy. injection Hb as <- <-. rewrite Hy in Hyes.
        discriminate Hyes.
Qed.

(** What the provisioner reports: it asks nothing and touches neither the
    cache nor the schema; when it returns [True] the server was called. *)
Lemma create_database_report (w : World DB Cache Plugins) :
  let run := create_database_if_not_exists X w in
  exists es : list Event,
    trace (snd run) = (trace w ++ es)%list /\
    forallb administrative es = true /\
    answers (snd run) = answers w /\
    ((fst run = Returns true /\ existsb provisions es = true) \/
     fst run = Returns false).
Proof.
  intros run. subst run.
  provisioner_cases X w;
    (eexists; split; [reflexivity|]);
    (split; [reflexivity|]);
    (split; [reflexivity|]);
    first [left; split; reflexivity | right; reflexivity].
Qed.

(** The automatic workflow once its environment step went through: the
    database question was asked, nothing else was, and what follows is the
    database step under the typed answer and then [init]. *)
Lemma auto_init_environment_done (w : World DB Cache Plugins) (content : string)
    (a1 a2 a3 a4 a5 a6 a7 a8 a9 a : string) (rest : list string) :
  files w (BASE_PATH // ".env.example") = Some content ->
  readonly w (BASE_PATH // ".env") = false ->
  answers w = a1 :: a2 :: a3 :: a4 :: a5 :: a6 :: a7 :: a8 :: a9 :: a :: rest ->
  let w1 :=
    log (PrintPanel ("fba v" ++ version ++ " 环境变量")
           ("【环境变量配置】"
            ++ nl ++ nl ++ "  • 数据库连接信息"
            ++ nl ++ "  • Redis 连接信息"
            ++ nl ++ "  • Token 密钥（自动生成）"))
      (log (Print (nl ++ "[bold cyan]步骤 1/3:[/] 配置环境变量")) w) in
  exists (w3 : World DB Cache Plugins) (pre : list Event),
    auto_init X BASE_PATH version w =
      bind (if lower a =? "y"
            then bind (create_database_if_not_exists X)
                   (fun created : bool =>
                      if negb created
                      then raise (Exit "数据库创建失败" 1)
                      else ret tt)
            else console_print "已取消数据库操作")
        (fun _ : unit =>
           bind (console_print (nl ++ "[bold cyan]步骤 3/3:[/] 初始化数据库表和数据"))
             (fun _ : unit => init X BASE_PATH version))
        w3 /\
    trace w3 = (trace w ++ pre)%list /\
    existsb provisions pre = false /\
    existsb initializes pre = false /\
    db w3 = db w /\ cache w3 = cache w /\ answers w3 = rest /\
    settings w3 = settings (snd (setup_env_file BASE_PATH w1)).
Proof.
  intros Hfile Hro Hanswers w1.
  unfold auto_init.
  unfold bind at 1. unfold console_print at 1.
  unfold bind at 1. unfold console_print_panel at 1.
  fold w1.
  unfold bind at 1.
  destruct (@setup_env_file_success DB Cache Plugins BASE_PATH w1 content
              a1 a2 a3 a4 a5 a6 a7 a8 a9 (a :: rest) Hfile Hro Hanswers)
    as (Hok & Hrest & Hdb & Hcache & _).
  destruct (setup_env_file_log BASE_PATH w1) as (es1 & Htrace1 & Hidle & _).
  destruct (setup_env_file BASE_PATH w1) as [r w2].
  cbn [fst snd] in Hok, Hrest, Hdb, Hcache, Htrace1 |- *. subst r.
  cbn [negb]. unfold bind at 1. unfold ret at 1.
  unfold bind at 1. unfold console_print at 1.
  unfold bind at 1. unfold get_settings at 1.
  unfold bind at 1. unfold console_print_panel at 1.
  unfold bind at 1. unfold Prompt_ask at 1.
  cbn [answers log]. rewrite Hrest. cbv beta iota.
  match goal with
  | |- context [with_answers rest ?w'] => set (w3 := with_answers rest w')
  end.
  destruct (@idle_facts _ Hidle) as (Hp1 & Hi1 & _).
  assert (Htrace3 : exists pre : list Event,
             trace w3 = (trace w ++ pre)%list /\
             existsb provisions pre = false /\
             existsb initializes pre = false).
  { subst w3. cbn [trace log with_answers]. rewrite Htrace1. subst w1.
    cbn [trace log]. rewrite <- !app_assoc. cbn [app].
    eexists. split; [reflexivity|].
    cbn [existsb provisions initializes clears schema_work orb].
    rewrite !existsb_app, Hp1, Hi1. split; reflexivity. }
  destruct Htrace3 as (pre & Htrace3 & Hp & Hi).
  exists w3, pre.
  split; [reflexivity|].
  split; [exact Htrace3|]. split; [exact Hp|]. split; [exact Hi|].
  subst w3. cbn [db cache answers settings log with_answers].
  repeat split; assumption.
Qed.

(** What the two answers of the automatic workflow decide, once its
    environment step went through. *)
Lemma auto_init_answers (w : World DB Cache Plugins) (content : string)
    (a1 a2 a3 a4 a5 a6 a7 a8 a9 a : string) (rest : list string) :
  files w (BASE_PATH // ".env.example") = Some content ->
  readonly w (BASE_PATH // ".env") = false ->
  answers w = a1 :: a2 :: a3 :: a4 :: a5 :: a6 :: a7 :: a8 :: a9 :: a :: rest ->
  let run := auto_init X BASE_PATH version w in
  exists es : list Event,
    trace (snd run) = (trace w ++ es)%list /\
    (lower a <> "y" -> existsb provisions es = false) /\
    (lower a = "y" ->
     existsb provisions es = true \/ fst run = Raises (Exit "数据库创建失败" 1)) /\
    (existsb initializes es = true ->
     exists b rest', rest = b :: rest' /\ lower b = "y") /\
    (forall b rest',
       rest = b :: rest' -> lower b <> "y" ->
       existsb initializes es = false /\
       (fst run = Returns tt /\ In (Print "已取消初始化操作") es
        \/ fst run = Raises (Exit "数据库创建失败" 1))) /\
    (forall b rest',
       rest = b :: rest' -> lower b = "y" ->
       In (Print "开始初始化...") es
       \/ fst run = Raises (Exit "数据库创建失败" 1)).
Proof.
  intros Hfile Hro Hanswers run. subst run.
  destruct (@auto_init_environment_done w content a1 a2 a3 a4 a5 a6 a7 a8 a9 a rest
              Hfile Hro Hanswers)
    as (w3 & pre & -> & Htrace3 & Hp & Hi & _ & _ & Hrest & _).
  destruct (lower a =? "y") eqn:Hyes.
  - apply String.eqb_eq in Hyes. unfold bind.
    destruct (create_database_report w3) as (es4 & Htrace4 & Hadmin & Hanswers4 & Hbool).
    destruct (@administrative_facts _ Hadmin) as (Hi4 & _ & _).
    destruct (create_database_if_not_exists X w3) as [r4 w4].
    cbn [fst snd] in Htrace4, Hanswers4, Hbool.
    destruct Hbool as [[-> Hp4] | ->]; cbn [negb]; unfold raise, ret, console_print.
    + match goal with
      | |- context [init X BASE_PATH version ?w'] => set (w5 := w')
      end.
      destruct (init_answered w5) as (es5 & Htrace5 & Hp5 & Hinit & Hno & Hgo).
      assert (Hanswers5 : answers w5 = rest)
        by (subst w5; cbn [answers log]; congruence).
      rewrite Hanswers5 in Hinit, Hno, Hgo.
      destruct (init X BASE_PATH version w5) as [r5 w6].
      cbn [fst snd] in Htrace5, Hno |- *.
      rewrite Htrace5. subst w5. cbn [trace log].
      rewrite Htrace4, Htrace3, <- !app_assoc. cbn [app].
      eexists. split; [reflexivity|].
      rewrite !existsb_app, Hp, Hi, Hp4, Hi4.
      cbn [existsb provisions initializes clears schema_work orb].
      split; [intros Hno'; contradiction|].
      split; [intros _; left; reflexivity|].
      split; [exact Hinit|].
      split.
      * intros b rest' Hb Hdecline.
        destruct (Hno b rest' Hb Hdecline) as (Hr & Hin).
        split.
        -- destruct (existsb initializes es5) eqn:Hi5; [|reflexivity].
           destruct (Hinit eq_refl) as (b' & rest'' & Hb' & Hy').
           rewrite Hb in Hb'. injection Hb' as <- <-. contradiction.
        -- left. split; [exact Hr|].
           apply in_or_app. right. apply in_or_app. right. right. exact Hin.
      * intros b rest' Hb Hy. left.
        apply in_or_app. right. apply in_or_app. right. right.
        exact (Hgo b rest' Hb Hy).
    + cbn [fst snd]. rewrite Htrace4, Htrace3, <- !app_assoc.
      eexists. split; [reflexivity|].
      rewrite !existsb_app, Hi, Hi4.
      split; [intros Hno'; contradiction|].
      split; [intros _; right; reflexivity|].
      split; [intros H; discriminate H|].
      split; intros b rest' _ _; [split; [reflexivity|]|]; right; reflexivity.
  - assert (Hno' : lower a <> "y") by (apply String.eqb_neq; exact Hyes).
    unfold bind, console_print.
    match goal with
    | |- context [init X BASE_PATH version ?w'] => set (w5 := w')
    end.
    destruct (init_answered w5) as (es5 & Htrace5 & Hp5 & Hinit & Hno & Hgo).
    assert (Hanswers5 : answers w5 = rest) by (subst w5; cbn [answers log]; exact Hrest).
    rewrite Hanswers5 in Hinit, Hno, Hgo.
    destruct (init X BASE_PATH version w5) as [r5 w6].
    cbn [fst snd] in Htrace5, Hno |- *.
    rewrite Htrace5. subst w5. cbn [trace log].
    rewrite Htrace3, <- !app_assoc. cbn [app].
    eexists. split; [reflexivity|].
    rewrite !existsb_app, Hp, Hi.
    cbn [existsb provisions initializes clears schema_work orb].
    split; [intros _; exact Hp5|].
    split; [intros Hy; contradiction|].
    split; [exact Hinit|].
    split.
    + intros b rest' Hb Hdecline.
      destruct (Hno b rest' Hb Hdecline) as (Hr & Hin).
      split.
      * destruct (existsb initializes es5) eqn:Hi5; [|reflexivity].
        destruct (Hinit eq_refl) as (b' & rest'' & Hb' & Hy').
        rewrite Hb in Hb'. injection Hb' as <- <-. contradiction.
      * left. split; [exact Hr|].
        apply in_or_app. right. right. right. exact Hin.
    + intros b rest' Hb Hy. left.
      apply in_or_app. right. right. right. exact (Hgo b rest' Hb Hy).
Qed.

(** C6, as the code has it.  In the automatic workflow the environment
    file is written without any confirmation having been asked; the
    confirmation of the database step is asked before anything is
    provisioned; and the schema step is not exempt: [init] asks its own
    confirmation before the cache or the schema is touched.  These two are
    the only confirmations, in this order.  Each step waits for its yes:
    once the environment step went through, an answer other than yes to
    the database question keeps everything of the provisioner away, and
    after a yes the provisioner is run; the cache and the schema are
    touched only after a yes to the question of [init], and an answer
    other than yes cancels the schema step, the run returning after the
    note of cancellation. *)
Theorem auto_init_confirmations (w : World DB Cache Plugins) :
  let run := auto_init X BASE_PATH version w in
  exists es : list Event,
    trace (snd run) = (trace w ++ es)%list /\
    (exists k : nat, confirmations es = firstn k [database_question; init_question]) /\
    (existsb writes es = true -> confirmations (before writes es) = []) /\
    (existsb provisions es = true ->
     confirmations (before provisions es) = [database_question]) /\
    (existsb initializes es = true ->
     confirmations (before initializes es) = [database_question; init_question]) /\
    forall (content a1 a2 a3 a4 a5 a6 a7 a8 a9 a : string) (rest : list string),
      files w (BASE_PATH // ".env.example") = Some content ->
      readonly w (BASE_PATH // ".env") = false ->
      answers w = a1 :: a2 :: a3 :: a4 :: a5 :: a6 :: a7 :: a8 :: a9 :: a :: rest ->
      (lower a <> "y" -> existsb provisions es = false) /\
      (lower a = "y" ->
       existsb provisions es = true \/ fst run = Raises (Exit "数据库创建失败" 1)) /\
      (existsb initializes es = true ->
       exists b rest', rest = b :: rest' /\ lower b = "y") /\
      (forall b rest',
         rest = b :: rest' -> lower b <> "y" ->
         existsb initializes es = false /\
         (fst run = Returns tt /\ In (Print "已取消初始化操作") es
          \/ fst run = Raises (Exit "数据库创建失败" 1))) /\
      (forall b rest',
         rest = b :: rest' -> lower b = "y" ->
         In (Print "开始初始化...") es
         \/ fst run = Raises (Exit "数据库创建失败" 1)).
Proof.
  intros run.
  destruct (auto_init_asks w)
    as (es & Htrace & Hk & Hwrites & Hprovisions & Hinitializes).
  exists es. split; [exact Htrace|]. split; [exact Hk|]. split; [exact Hwrites|].
  split; [exact Hprovisions|]. split; [exact Hinitializes|].
  intros content a1 a2 a3 a4 a5 a6 a7 a8 a9 a rest Hfile Hro Hanswers.
  destruct (@auto_init_answers w content a1 a2 a3 a4 a5 a6 a7 a8 a9 a rest
              Hfile Hro Hanswers)
    as (es' & Htrace' & Hanswered).
  assert (Hsame : es' = es).
  { apply (app_inv_head (trace w)). rewrite <- Htrace, <- Htrace'. reflexivity. }
  subst es'. exact Hanswered.
Qed.

End Automatic.

Lemma auto_init_declined_witness :
  let w := Demo.world Demo.conf Demo.disk (Demo.nine_answers ++ ["n"; "n"]) in
  let run := auto_init Demo.services Demo.base Demo.version w in
  exists es : list Event,
    trace (snd run) = es /\
    existsb provisions es = false /\
    In (Print "已取消数据库操作") es.
Proof.
  intros w run.
  destruct (@auto_init_declined _ _ _ Demo.services Demo.base Demo.version w
              _ _ _ _ _ _ _ _ _ _ "n" ["n"] eq_refl eq_refl eq_refl)
    as (w3 & _ & _ & _ & es & Htrace & Hquiet & Hnote & _).
  - discriminate.
  - exists es. split; [exact Htrace|]. split; assumption.
Defined.

Lemma auto_init_confirmations_witness :
  let w := Demo.world Demo.conf Demo.disk (Demo.nine_answers ++ ["n"; "y"]) in
  let run := auto_init Demo.services Demo.base Demo.version w in
  existsb provisions (trace (snd run)) = false /\
  confirmations (before initializes (trace (snd run))) = [database_question; init_question] /\
  In (Print "开始初始化...") (trace (snd run)).
Proof.
  intros w run.
  destruct (auto_init_confirmations Demo.services Demo.base Demo.version w)
    as (es & Htrace & _ & _ & _ & Hschema & Hanswered).
  assert (Hes : es = trace (snd run)) by (unfold run; rewrite Htrace; reflexivity).
  destruct (Hanswered _ _ _ _ _ _ _ _ _ _ "n" ["y"] eq_refl eq_refl eq_refl)
    as (Hdeclined & _ & _ & _ & Hgo).
  rewrite <- Hes.
  split; [apply Hdeclined; vm_compute; intros H; discriminate H|].
  split; [apply Hschema; rewrite Hes; vm_compute; reflexivity|].
  destruct (Hgo "y" [] eq_refl eq_refl) as [Hin | Hexit]; [exact Hin|].
  vm_compute in Hexit. discriminate Hexit.
Defined.

(** C6, as it is worded, does not hold: in this automatic run the
    environment is set up, the database question is declined, and then the
    question of the schema step is asked all the same; declined as well, it
    keeps the cache and the schema from being touched. *)
Lemma auto_init_asks_before_schema :
  let w := Demo.world Demo.conf Demo.disk (Demo.nine_answers ++ ["n"; "n"]) in
  let run := auto_init Demo.services Demo.base Demo.version w in
  fst run = Returns tt /\
  In (Ask init_question ["y"; "n"] "n") (trace (snd run)) /\
  confirmations (trace (snd run)) = [database_question; init_question] /\
  existsb initializes (trace (snd run)) = false /\
  In (Print "已取消初始化操作") (trace (snd run)).
Proof.
  intros w run. vm_compute. repeat split; auto 50.
Qed.


(** * Further properties *)

(** ** The script runner *)

Section ScriptRunnerEdges.

Variables DB Cache Plugins : Type.
Variable X : Collaborators DB Cache Plugins.

(** X1.  A script that cannot be read or split: nothing is executed, the
    transaction that was opened is rolled back, and the call exits with
    status 1 and the text of the error. *)
Theorem execute_sql_scripts_unreadable (path : string) (is_init : bool)
    (w : World DB Cache Plugins) (e : Exn) :
  sql_split X path (files w) = inl e ->
  let run := execute_sql_scripts X path is_init w in
  fst run = Raises (Exit ("SQL 脚本执行失败：" ++ str e) 1) /\
  db (snd run) = db w /\
  trace (snd run) = (trace w ++ [Begin; ParseScript path false; Rollback])%list.
Proof.
  intros Hsplit run. subst run.
  replace (execute_sql_scripts X path is_init w)
    with (execute_sql_scripts X path is_init (evolve (db w) (cache w) [] w))
    by (rewrite evolve_nothing; reflexivity).
  rewrite execute_sql_scripts_run.
  unfold script_effect, script_log. rewrite Hsplit.
  repeat split.
Qed.

(** X2.  The [is_init] flag changes nothing but the closing message: with and
    without it the outcome and the state of the server are the same, and
    the log of the plain call is that of the bulk call, followed, when the
    script went through, by the message. *)
Theorem execute_sql_scripts_is_init (path : string) (w : World DB Cache Plugins) :
  let bulk := execute_sql_scripts X path true w in
  let plain := execute_sql_scripts X path false w in
  fst plain = fst bulk /\
  db (snd plain) = db (snd bulk) /\
  trace (snd plain) =
    (trace (snd bulk)
     ++ match fst bulk with
        | Returns _ => [Print "SQL 脚本已执行完成"]
        | Raises _ => []
        end)%list.
Proof.
  intros bulk plain. subst bulk plain.
  replace (execute_sql_scripts X path true w)
    with (execute_sql_scripts X path true (evolve (db w) (cache w) [] w))
    by (rewrite evolve_nothing; reflexivity).
  replace (execute_sql_scripts X path false w)
    with (execute_sql_scripts X path false (evolve (db w) (cache w) [] w))
    by (rewrite evolve_nothing; reflexivity).
  rewrite !execute_sql_scripts_run.
  destruct (script_effect X (files w) path (db w)); cbn [fst snd db trace evolve];
    repeat split; rewrite ?app_nil_r, <- ?app_assoc; reflexivity.
Qed.

End ScriptRunnerEdges.

Lemma execute_sql_scripts_unreadable_witness :
  let w := Demo.world Demo.conf Demo.disk [] in
  let run := execute_sql_scripts Demo.services "/srv/fba/none.sql" false w in
  db (snd run) = db w /\ exit_status (fst run) = 1%Z.
Proof.
  intros w run.
  destruct (@execute_sql_scripts_unreadable _ _ _ Demo.services "/srv/fba/none.sql"
              false w (Exception "no script at /srv/fba/none.sql") eq_refl)
    as (Hr & Hd & _).
  split; [exact Hd|]. unfold run. rewrite Hr. reflexivity.
Defined.

(** ** The provisioner *)

Section ProvisionerEdges.

Variables DB Cache Plugins : Type.
Variable X : Collaborators DB Cache Plugins.

(** X4.  The provisioner never raises: it returns [True] or [False].  Once
    the address and the engine are built, the engine is disposed of exactly
    once, whether the connection or one of the queries fails or none does,
    and no connection or query follows the disposal; a run that returns
    [True] ends with the message of success and the disposal, a run that
    returns [False] ends with the message of failure, which carries the
    text of the error.  When the address or the engine cannot be built,
    there is nothing to dispose of: nothing is connected to, sent or
    disposed of, and the run returns [False] after the message of
    failure. *)
Theorem create_database_releases (w : World DB Cache Plugins) :
  let q := provisioning (settings w) in
  let run := create_database_if_not_exists X w in
  exists es : list Event,
    trace (snd run) = (trace w ++ es)%list /\
    (fst run = Returns true \/ fst run = Returns false) /\
    match url_create X (url q), engine_create X (url q) with
    | None, None =>
        filter disposes es = [Dispose] /\
        existsb calls_server (after disposes es) = false /\
        ((fst run = Returns true /\
          firstn 2 (rev es) = [Dispose; Print "数据库创建成功"])
         \/
         (fst run = Returns false /\
          exists e, hd_error (rev es) = Some (Print ("数据库创建失败: " ++ str e))))
    | Some e, _ | None, Some e =>
        fst run = Returns false /\
        es = [Print ("数据库创建失败: " ++ str e)]
    end.
Proof.
  intros q run. subst run q.
  provisioner_cases X w;
    (eexists; split; [reflexivity|]);
    (split; [first [left; reflexivity | right; reflexivity]|]);
    first [ split; reflexivity
          | (split; [reflexivity|]); (split; [reflexivity|]);
            first [ left; split; reflexivity
                  | right; split; [reflexivity | eexists; reflexivity] ] ].
Qed.

End ProvisionerEdges.

(** ** Environment setup *)

Section EnvironmentEdges.

Variables DB Cache Plugins : Type.
Variable BASE_PATH : string.

(** X5.  Without the template nothing is asked, read, drawn or written: the
    setup prints that the file is missing and returns [False]. *)
Theorem setup_env_file_missing_template (w : World DB Cache Plugins) :
  files w (BASE_PATH // ".env.example") = None ->
  setup_env_file BASE_PATH w = (Returns false, log (Print ".env.example 文件不存在") w).
Proof.
  intros Hfile. unfold setup_env_file, bind, path_exists, console_print, ret.
  rewrite Hfile. reflexivity.
Qed.

(** X6.  When the input ends before the nine values are typed, the setup returns
    [False] having changed neither the settings nor any file, and having
    drawn no random byte. *)
Theorem setup_env_file_short_input (w : World DB Cache Plugins) :
  List.length (answers w) < 9 ->
  let run := setup_env_file BASE_PATH w in
  fst run = Returns false /\
  settings (snd run) = settings w /\
  files (snd run) = files w /\
  drawn (snd run) = drawn w.
Proof.
  intros Hshort run. subst run.
  destruct w as [s d c p f ro ans ent n tr]. cbn [answers settings files drawn] in *.
  unfold setup_env_file. run_world.
  destruct (f (BASE_PATH // ".env.example")) as [content|] eqn:Hfile; run_world;
    rewrite ?Hfile; run_world; [|repeat split].
  destruct ans as [|a1 [|a2 [|a3 [|a4 [|a5 [|a6 [|a7 [|a8 [|a9 rest]]]]]]]]];
    run_world; try (repeat split; fail).
  cbn [List.length] in Hshort. lia.
Qed.

(** X7.  Once the nine values are typed, the settings in memory hold them, in
    the order of the questions, whether or not the file can then be
    written; the settings that are not asked for stay as they were. *)
Theorem setup_env_file_settings (w : World DB Cache Plugins) (content : string)
    (a1 a2 a3 a4 a5 a6 a7 a8 a9 : string) (rest : list string) :
  files w (BASE_PATH // ".env.example") = Some content ->
  answers w = a1 :: a2 :: a3 :: a4 :: a5 :: a6 :: a7 :: a8 :: a9 :: rest ->
  let s := settings w in
  let s' := settings (snd (setup_env_file BASE_PATH w)) in
  (DATABASE_TYPE s' = a1 /\ DATABASE_HOST s' = a2 /\ DATABASE_PORT s' = a3 /\
   DATABASE_USER s' = a4 /\ DATABASE_PASSWORD s' = a5 /\
   REDIS_HOST s' = a6 /\ REDIS_PORT s' = a7 /\ REDIS_PASSWORD s' = a8 /\
   REDIS_DATABASE s' = a9) /\
  (DATABASE_SCHEMA s' = DATABASE_SCHEMA s /\
   DATABASE_CHARSET s' = DATABASE_CHARSET s /\
   DATABASE_PK_MODE s' = DATABASE_PK_MODE s /\
   JWT_USER_REDIS_PREFIX s' = JWT_USER_REDIS_PREFIX s /\
   TOKEN_EXTRA_INFO_REDIS_PREFIX s' = TOKEN_EXTRA_INFO_REDIS_PREFIX s /\
   TOKEN_REDIS_PREFIX s' = TOKEN_REDIS_PREFIX s /\
   TOKEN_REFRESH_REDIS_PREFIX s' = TOKEN_REFRESH_REDIS_PREFIX s).
Proof.
  intros Hfile Hanswers.
  destruct w as [s d c p f ro ans ent n tr]. cbn [files answers settings] in *.
  unfold setup_env_file. run_world.
  destruct (f (BASE_PATH // ".env.example")) as [content'|] eqn:Hfile';
    [|discriminate Hfile].
  run_world. rewrite ?Hfile'. run_world.
  destruct ans as [|b1 [|b2 [|b3 [|b4 [|b5 [|b6 [|b7 [|b8 [|b9 rest']]]]]]]]];
    try discriminate Hanswers.
  injection Hanswers as -> -> -> -> -> -> -> -> -> _.
  run_world.
  destruct (ro (BASE_PATH // ".env")); run_world; repeat split.
Qed.

(** X8.  When the file cannot be written the setup returns [False] and no file
    is changed, although the settings in memory have already taken the
    typed values. *)
Theorem setup_env_file_unwritable (w : World DB Cache Plugins) (content : string)
    (a1 a2 a3 a4 a5 a6 a7 a8 a9 : string) (rest : list string) :
  files w (BASE_PATH // ".env.example") = Some content ->
  answers w = a1 :: a2 :: a3 :: a4 :: a5 :: a6 :: a7 :: a8 :: a9 :: rest ->
  readonly w (BASE_PATH // ".env") = true ->
  let run := setup_env_file BASE_PATH w in
  fst run = Returns false /\
  files (snd run) = files w /\
  DATABASE_HOST (settings (snd run)) = a2.
Proof.
  intros Hfile Hanswers Hro run. subst run.
  destruct w as [s d c p f ro ans ent n tr]. cbn [files answers readonly trace] in *.
  unfold setup_env_file. run_world.
  destruct (f (BASE_PATH // ".env.example")) as [content'|] eqn:Hfile';
    [|discriminate Hfile].
  run_world. rewrite ?Hfile'. run_world.
  destruct ans as [|b1 [|b2 [|b3 [|b4 [|b5 [|b6 [|b7 [|b8 [|b9 rest']]]]]]]]];
    try discriminate Hanswers.
  injection Hanswers as -> -> -> -> -> -> -> -> -> _.
  run_world.
  destruct (ro (BASE_PATH // ".env")); [|discriminate Hro].
  run_world. repeat split.
Qed.

(** X9.  The setup writes one file at most, [.env] under the base directory:
    every other path, the template among them, keeps its content in every
    run. *)
Theorem setup_env_file_writes_only_env (w : World DB Cache Plugins) (path : string) :
  path <> BASE_PATH // ".env" ->
  files (snd (setup_env_file BASE_PATH w)) path = files w path.
Proof.
  intros Hpath. apply String.eqb_neq in Hpath.
  destruct w as [s d c p f ro ans ent n tr]. cbn [files].
  unfold setup_env_file. run_world.
  destruct (f (BASE_PATH // ".env.example")) as [content|] eqn:Hfile; run_world;
    rewrite ?Hfile; run_world; [|reflexivity].
  destruct ans as [|a1 [|a2 [|a3 [|a4 [|a5 [|a6 [|a7 [|a8 [|a9 rest]]]]]]]]];
    run_world; try reflexivity.
  destruct (ro (BASE_PATH // ".env")); run_world; [reflexivity|].
  rewrite Hpath. reflexivity.
Qed.

(** X10.  The setup never raises, and it returns [True] exactly when the [.env]
    file was written; the file then holds the text that was written. *)
Theorem setup_env_file_true_iff_written (w : World DB Cache Plugins) :
  let run := setup_env_file BASE_PATH w in
  exists es : list Event,
    trace (snd run) = (trace w ++ es)%list /\
    (fst run = Returns true \/ fst run = Returns false) /\
    (fst run = Returns true <-> existsb written es = true) /\
    (fst run = Returns true ->
     exists content,
       In (WriteText (BASE_PATH // ".env") content true) es /\
       files (snd run) (BASE_PATH // ".env") = Some content).
Proof.
  intros run. subst run. destruct w as [s d c p f ro ans ent n tr].
  unfold setup_env_file. run_world.
  destruct (f (BASE_PATH // ".env.example")) as [content|] eqn:Hfile; run_world;
    rewrite ?Hfile; run_world.
  2: { eexists. split; [reflexivity|]. split; [right; reflexivity|].
       split; [split; intros H; discriminate H | intros H; discriminate H]. }
  destruct ans as [|a1 [|a2 [|a3 [|a4 [|a5 [|a6 [|a7 [|a8 [|a9 rest]]]]]]]]]; run_world;
    try destruct (ro (BASE_PATH // ".env")); run_world;
    rewrite <- ?app_assoc; cbn [app];
    (eexists; split; [reflexivity|]);
    try (split; [right; reflexivity|];
         split; [split; intros H; discriminate H | intros H; discriminate H]).
  split; [left; reflexivity|].
  split; [split; reflexivity|].
  intros _. eexists. split.
  - cbn [In]. do 14 right. left. reflexivity.
  - rewrite String.eqb_refl. reflexivity.
Qed.

End EnvironmentEdges.

Lemma setup_env_file_missing_template_witness :
  let w := Demo.world Demo.conf (fun _ => None) Demo.nine_answers in
  let run := setup_env_file Demo.base w in
  fst run = Returns false /\ answers (snd run) = Demo.nine_answers.
Proof.
  intros w run. unfold run.
  rewrite (@setup_env_file_missing_template _ _ _ Demo.base w eq_refl).
  split; reflexivity.
Defined.

Lemma setup_env_file_short_input_witness :
  let w := Demo.world Demo.conf Demo.disk ["mysql"; "db.local"] in
  let run := setup_env_file Demo.base w in
  fst run = Returns false /\ settings (snd run) = Demo.conf.
Proof.
  intros w run.
  destruct (@setup_env_file_short_input _ _ _ Demo.base w ltac:(simpl; lia))
    as (Hr & Hs & _).
  split; assumption.
Defined.

Lemma setup_env_file_settings_witness :
  let w := Demo.world Demo.conf Demo.disk Outage.mysql_answers in
  let s' := settings (snd (setup_env_file Demo.base w)) in
  DATABASE_TYPE s' = "mysql" /\ REDIS_DATABASE s' = "1" /\ DATABASE_SCHEMA s' = "fba".
Proof.
  intros w s'.
  destruct (@setup_env_file_settings _ _ _ Demo.base w _ _ _ _ _ _ _ _ _ _ []
              eq_refl eq_refl)
    as ((Htype & _ & _ & _ & _ & _ & _ & _ & Hredis) & Hschema & _).
  repeat split; assumption.
Defined.

Lemma setup_env_file_unwritable_witness :
  let w := Outage.locked Outage.mysql_answers in
  let run := setup_env_file Demo.base w in
  fst run = Returns false /\
  files (snd run) = Demo.disk /\
  DATABASE_HOST (settings (snd run)) = "db.local".
Proof.
  intros w run.
  exact (@setup_env_file_unwritable _ _ _ Demo.base w _ _ _ _ _ _ _ _ _ _ []
           eq_refl eq_refl eq_refl).
Defined.

Lemma setup_env_file_writes_only_env_witness :
  let w := Demo.world Demo.conf Demo.disk Demo.nine_answers in
  files (snd (setup_env_file Demo.base w)) "/srv/fba/.env.example"
  = Demo.disk "/srv/fba/.env.example".
Proof.
  intros w.
  apply (@setup_env_file_writes_only_env _ _ _ Demo.base w "/srv/fba/.env.example").
  vm_compute. intros H. discriminate H.
Defined.


(** ** Bulk initialization *)

Section InitializationEdges.

Variables DB Cache Plugins : Type.
Variable X : Collaborators DB Cache Plugins.
Variables BASE_PATH version : string.

(** X11.  An answer other than yes cancels the initialization: [init] returns
    after its note, and the server, the cache, the settings and the files
    are as they were. *)
Theorem init_declined (w : World DB Cache Plugins) (a : string) (rest : list string) :
  answers w = a :: rest ->
  lower a <> "y" ->
  let run := init X BASE_PATH version w in
  fst run = Returns tt /\
  db (snd run) = db w /\ cache (snd run) = cache w /\
  settings (snd run) = settings w /\ files (snd run) = files w /\
  trace (snd run) =
    (trace w
     ++ [PrintPanel ("fba v" ++ version ++ " 初始化")
           (init_panel (settings w) (plugin_names X (plugins w)));
         Ask init_question ["y"; "n"] "n";
         Print "已取消初始化操作"])%list.
Proof.
  intros Hanswers Hno run. subst run. apply String.eqb_neq in Hno.
  unfold init, bind, get_settings, get_plugins, console_print_panel, Prompt_ask.
  cbn [answers log]. rewrite Hanswers, Hno.
  unfold console_print. cbn [fst snd db cache settings files trace log with_answers].
  rewrite <- !app_assoc. repeat split.
Qed.

Lemma committed_complete (fs : string -> option string) (paths : list string) :
  forall d d' : DB, run_scripts X fs paths d = inr d' -> committed X fs paths d = d'.
Proof.
  induction paths as [|path rest IH]; intros d d' H; simpl in *; [congruence|].
  destruct (script_effect X fs path d); [discriminate | auto].
Qed.

Lemma scripts_log_complete_bounds (fs : string -> option string) (paths : list string) :
  forall d d' : DB,
    run_scripts X fs paths d = inr d' ->
    filter bounds (scripts_log X fs paths d) = flat_map (fun _ => [Begin; Commit]) paths.
Proof.
  induction paths as [|path rest IH]; intros d d' H; simpl in *; [reflexivity|].
  rewrite filter_app, script_log_bounds.
  destruct (script_effect X fs path d) as [?|d1]; [discriminate|].
  simpl. rewrite (IH d1 d' H). reflexivity.
Qed.

(** X12.  A confirmed initialization in which nothing fails returns with the four
    prefixes cleared and the server in the state that the scripts, run in
    their order on the recreated tables, lead to; each script was committed
    in a transaction of its own. *)
Theorem init_complete (w : World DB Cache Plugins) (a : string) (rest : list string)
    (c : Cache) (d1 d2 d3 : DB) :
  answers w = a :: rest ->
  lower a = "y" ->
  clear_prefixes X (settings w) (cache w) = inr c ->
  drop_all X (db w) = inr d1 ->
  create_all X d1 = inr d2 ->
  run_scripts X (files w) (resolved_scripts X BASE_PATH w) d2 = inr d3 ->
  let run := init X BASE_PATH version w in
  fst run = Returns tt /\
  db (snd run) = d3 /\
  cache (snd run) = c /\
  exists es : list Event,
    trace (snd run) = (trace w ++ es)%list /\
    existsb failed es = false /\
    filter bounds es =
      flat_map (fun _ => [Begin; Commit]) (resolved_scripts X BASE_PATH w).
Proof.
  intros Hanswers Hyes Hclear Hdrop Hcreate Hscripts run. subst run.
  rewrite (init_confirmed X BASE_PATH version w Hanswers Hyes).
  unfold try_except.
  rewrite (@init_try_scripts _ _ _ X BASE_PATH (db w) d1 d2 (cache w) c _
             (with_answers rest w) Hclear Hdrop Hcreate).
  change (resolved_scripts X BASE_PATH (with_answers rest w))
    with (resolved_scripts X BASE_PATH w).
  change (files (with_answers rest w)) with (files w).
  pose proof (scripts_log_failed X (files w) (resolved_scripts X BASE_PATH w) d2) as Hfailed.
  rewrite Hscripts in *.
  rewrite (committed_complete _ _ _ Hscripts).
  cbn [fst snd db cache trace evolve with_answers]. repeat split.
  eexists. split; [reflexivity|]. split.
  - rewrite !existsb_app, Hfailed. reflexivity.
  - rewrite !filter_app, (scripts_log_complete_bounds _ _ _ Hscripts).
    cbn [filter bounds app]. rewrite app_nil_r. reflexivity.
Qed.

(** X13.  When the clearing of the cache fails, the initialization exits with
    status 1 and the text of the error, and the schema is not touched: the
    server is as it was. *)
Theorem init_cache_failure (w : World DB Cache Plugins) (a : string) (rest : list string)
    (e : Exn) :
  answers w = a :: rest ->
  lower a = "y" ->
  clear_prefixes X (settings w) (cache w) = inl e ->
  let run := init X BASE_PATH version w in
  fst run = Raises (Exit ("初始化失败：" ++ str e) 1) /\
  db (snd run) = db w /\
  exists es : list Event,
    trace (snd run) = (trace w ++ es)%list /\
    existsb schema_work es = false.
Proof.
  intros Hanswers Hyes Hclear run. subst run.
  rewrite (init_confirmed X BASE_PATH version w Hanswers Hyes).
  unfold try_except, raise, init_try, bind.
  unfold clear_prefixes in Hclear.
  repeat (first [ rewrite console_print_run | rewrite get_settings_run
                | rewrite delete_prefix_run ];
          cbn [settings with_answers]; cbv beta iota;
          try match goal with
              | |- context [redis_delete_prefix X ?p ?c] =>
                  destruct (redis_delete_prefix X p c) eqn:?
              end;
          cbv beta iota);
    try discriminate Hclear;
    injection Hclear as ->;
    cbn [fst snd db trace evolve]; rewrite <- ?app_assoc; cbn [app];
    (split; [reflexivity|]); (split; [reflexivity|]);
    (eexists; split; [reflexivity | reflexivity]).
Qed.

(** X14.  When the tables cannot be rebuilt, the initialization exits with status
    1 and the text of the error without opening any transaction.  Nothing
    is undone: the cleared cache stays cleared, and the server stays where
    the failing step found it, which after a failed creation is with its
    tables dropped. *)
Theorem init_tables_failure (w : World DB Cache Plugins) (a : string) (rest : list string)
    (c : Cache) (e : Exn) (d : DB) :
  answers w = a :: rest ->
  lower a = "y" ->
  clear_prefixes X (settings w) (cache w) = inr c ->
  (drop_all X (db w) = inl e /\ d = db w) \/
  (drop_all X (db w) = inr d /\ create_all X d = inl e) ->
  let run := init X BASE_PATH version w in
  fst run = Raises (Exit ("初始化失败：" ++ str e) 1) /\
  db (snd run) = d /\ cache (snd run) = c /\
  exists es : list Event,
    trace (snd run) = (trace w ++ es)%list /\ existsb bounds es = false.
Proof.
  intros Hanswers Hyes Hclear Htables run. subst run.
  rewrite (init_confirmed X BASE_PATH version w Hanswers Hyes).
  unfold try_except, raise, init_try, bind.
  unfold clear_prefixes in Hclear.
  repeat (first [ rewrite console_print_run | rewrite get_settings_run
                | rewrite delete_prefix_run ];
          cbn [settings with_answers]; cbv beta iota;
          try match goal with
              | |- context [redis_delete_prefix X ?p ?c] =>
                  destruct (redis_delete_prefix X p c) eqn:?
              end;
          cbv beta iota);
    try discriminate Hclear.
  injection Hclear as ->.
  rewrite drop_tables_run.
  destruct Htables as [[Hdrop ->] | [Hdrop Hcreate]]; rewrite Hdrop.
  - cbn [fst snd db cache trace evolve].
    rewrite <- ?app_assoc; cbn [app].
    repeat split. eexists. split; reflexivity.
  - cbv beta iota.
    rewrite create_tables_run, Hcreate. cbn [fst snd db cache trace evolve].
    rewrite <- ?app_assoc; cbn [app].
    repeat split. eexists. split; reflexivity.
Qed.

End InitializationEdges.

Lemma init_declined_witness :
  let w := Demo.world Demo.conf Demo.disk ["n"] in
  let run := init Demo.services Demo.base Demo.version w in
  fst run = Returns tt /\ db (snd run) = ["<old>"] /\ cache (snd run) = [].
Proof.
  intros w run.
  destruct (@init_declined _ _ _ Demo.services Demo.base Demo.version w "n" [] eq_refl
              ltac:(vm_compute; intros H; discriminate H))
    as (Hr & Hd & Hc & _).
  repeat split; assumption.
Defined.

Lemma init_complete_witness :
  let w := with_plugins [("a", None)] (Demo.world Demo.conf Demo.disk ["y"]) in
  let run := init Demo.services Demo.base Demo.version w in
  fst run = Returns tt /\
  db (snd run) = ["<tables>"; "INSERT m1"; "INSERT m2"] /\
  cache (snd run) = ["fba:user"; "fba:token_extra_info"; "fba:token"; "fba:refresh_token"].
Proof.
  intros w run.
  destruct (@init_complete _ _ _ Demo.services Demo.base Demo.version w "y" []
              ["fba:user"; "fba:token_extra_info"; "fba:token"; "fba:refresh_token"]
              [] ["<tables>"] ["<tables>"; "INSERT m1"; "INSERT m2"]
              eq_refl eq_refl eq_refl eq_refl eq_refl eq_refl)
    as (Hr & Hd & Hc & _).
  repeat split; assumption.
Defined.

Lemma init_cache_failure_witness :
  let w := Demo.world Demo.conf Demo.disk ["y"] in
  let run := init (Outage.services Outage.cache_down) Demo.base Demo.version w in
  fst run = Raises (Exit ("初始化失败：" ++ "redis is down") 1) /\
  db (snd run) = ["<old>"].
Proof.
  intros w run.
  destruct (@init_cache_failure _ _ _ (Outage.services Outage.cache_down)
              Demo.base Demo.version w "y" [] (Exception "redis is down")
              eq_refl eq_refl eq_refl)
    as (Hr & Hd & _).
  split; assumption.
Defined.

Lemma init_tables_failure_witness :
  let w := Demo.world Demo.conf Demo.disk ["y"] in
  let run := init (Outage.services Outage.create_down) Demo.base Demo.version w in
  fst run = Raises (Exit ("初始化失败：" ++ "cannot create") 1) /\
  db (snd run) = [] /\
  cache (snd run) = ["fba:user"; "fba:token_extra_info"; "fba:token"; "fba:refresh_token"].
Proof.
  intros w run.
  destruct (@init_tables_failure _ _ _ (Outage.services Outage.create_down)
              Demo.base Demo.version w "y" []
              ["fba:user"; "fba:token_extra_info"; "fba:token"; "fba:refresh_token"]
              (Exception "cannot create") []
              eq_refl eq_refl eq_refl (or_intror (conj eq_refl eq_refl)))
    as (Hr & Hd & Hc & _).
  repeat split; assumption.
Defined.


(** ** Plugin installation *)

Section InstallationEdges.

Variables DB Cache Plugins : Type.
Variable X : Collaborators DB Cache Plugins.

Lemma execute_sql_scripts_on (path : string) (is_init : bool) (w : World DB Cache Plugins) :
  execute_sql_scripts X path is_init w =
  match script_effect X (files w) path (db w) with
  | inr d' =>
      (Returns tt,
       evolve d' (cache w)
         (script_log X (files w) path (db w)
          ++ if is_init then [] else [Print "SQL 脚本已执行完成"]) w)
  | inl e =>
      (Raises (sql_error e),
       evolve (db w) (cache w) (script_log X (files w) path (db w)) w)
  end.
Proof.
  replace (execute_sql_scripts X path is_init w)
    with (execute_sql_scripts X path is_init (evolve (db w) (cache w) [] w))
    by (rewrite evolve_nothing; reflexivity).
  apply execute_sql_scripts_run.
Qed.

Lemma statements_log_schema_work (stmts : list string) :
  forall d : DB, forallb schema_work (statements_log X stmts d) = true.
Proof.
  induction stmts as [|stmt rest IH]; intros d; simpl; [reflexivity|].
  destruct (db_execute X stmt d); simpl; auto.
Qed.

Lemma script_log_schema_work (fs : string -> option string) (path : string) (d : DB) :
  forallb schema_work (script_log X fs path d) = true.
Proof.
  unfold script_log. destruct (sql_split X path fs) as [e|stmts]; [reflexivity|].
  simpl. rewrite forallb_app, statements_log_schema_work.
  destruct (run_statements X stmts d); reflexivity.
Qed.

Lemma existsb_excluded (P Q : Event -> bool) (es : list Event) :
  (forall e, P e = true -> Q e = false) ->
  forallb P es = true -> existsb Q es = false.
Proof.
  intros HPQ. induction es as [|e es IH]; simpl; [reflexivity|].
  intros H. apply andb_prop in H. destruct H as [He Hes].
  rewrite (HPQ e He), (IH Hes). reflexivity.
Qed.

(** Splits on the next thing that [install_plugin] depends on. *)
Ltac plugin_step X :=
  match goal with
  | |- context [negb (?s =? "")] => destruct (s =? "")
  | |- context [zip_install X ?f ?p] => destruct (zip_install X f p) as [?|[? ?]]
  | |- context [git_install X ?u ?p] => destruct (git_install X u p) as [?|[? ?]]
  | |- context [plugin_sql X ?n ?a ?b ?p] => destruct (plugin_sql X n a b p) as [?|]
  end.

Ltac plugin_cases X :=
  unfold install_plugin, bind, try_except, raise, ret, console_print,
    install_zip_plugin, install_git_plugin, get_plugin_sql;
  cbn [truthy negb andb fst snd plugins log with_plugins format_name];
  repeat (plugin_step X;
          cbn [truthy negb andb fst snd plugins log with_plugins format_name]).

(** X15.  Whatever goes wrong in [install_plugin] ends as an exit with status 1:
    the call either returns or raises [cappa.Exit] with that code, never
    another exception. *)
Theorem install_plugin_exits (path repo_url : option string) (no_sql : bool)
    (db_type pk_type : string) (w : World DB Cache Plugins) :
  let run := install_plugin X path repo_url no_sql db_type pk_type w in
  fst run = Returns tt \/ exists message, fst run = Raises (Exit message 1).
Proof.
  intros run. subst run.
  destruct path as [file|], repo_url as [url|], no_sql; plugin_cases X;
    try (rewrite execute_sql_scripts_on;
         match goal with
         | |- context [script_effect X ?fs ?s ?d] => destruct (script_effect X fs s d)
         end);
    cbn [fst sql_error];
    first [left; reflexivity | right; eexists; reflexivity].
Qed.

(** X16.  [install_plugin] calls the installer of the argument it was given and
    never the other one, and with [no_sql] it opens no transaction and
    executes nothing. *)
Theorem install_plugin_restraint (path repo_url : option string) (no_sql : bool)
    (db_type pk_type : string) (w : World DB Cache Plugins) :
  let run := install_plugin X path repo_url no_sql db_type pk_type w in
  exists es : list Event,
    trace (snd run) = (trace w ++ es)%list /\
    (truthy path = false -> existsb installs_zip es = false) /\
    (truthy repo_url = false -> existsb installs_git es = false) /\
    (no_sql = true -> existsb schema_work es = false).
Proof.
  intros run. subst run.
  destruct path as [file|], repo_url as [url|], no_sql; plugin_cases X;
    try (rewrite execute_sql_scripts_on;
         cbn [files db cache log with_plugins];
         match goal with
         | |- context [script_log X ?fs ?s ?d] =>
             pose proof (script_log_schema_work fs s d) as Hlog;
             pose proof (@existsb_excluded schema_work installs_zip _
                           ltac:(intros [] He; first [discriminate He | reflexivity])
                           Hlog) as Hzip;
             pose proof (@existsb_excluded schema_work installs_git _
                           ltac:(intros [] He; first [discriminate He | reflexivity])
                           Hlog) as Hgit;
             destruct (script_effect X fs s d)
         end);
    cbn [fst snd trace evolve log with_plugins sql_error];
    rewrite <- ?app_assoc; cbn [app];
    first [ exists []; rewrite app_nil_r; split; [reflexivity|]
          | eexists; split; [reflexivity|] ];
    repeat split; intros H; try discriminate H;
    cbn [existsb installs_zip installs_git schema_work orb];
    rewrite ?existsb_app, ?Hzip, ?Hgit;
    reflexivity.
Qed.

(** X17.  An installer that fails ends the call with status 1, with the [msg] of
    a project error and the text of any other, and nothing is run on the
    server. *)
Theorem install_plugin_install_failure (path repo_url : option string) (no_sql : bool)
    (db_type pk_type : string) (w : World DB Cache Plugins) (e : Exn) :
  (exists file, path = Some file /\ truthy path = true /\ truthy repo_url = false /\
                zip_install X file (plugins w) = inl e)
  \/
  (exists url, repo_url = Some url /\ truthy repo_url = true /\ truthy path = false /\
               git_install X url (plugins w) = inl e) ->
  let run := install_plugin X path repo_url no_sql db_type pk_type w in
  fst run = Raises (Exit (match e with
                          | BaseExceptionError msg _ => msg
                          | _ => str e
                          end) 1) /\
  db (snd run) = db w /\
  exists es : list Event,
    trace (snd run) = (trace w ++ es)%list /\ existsb schema_work es = false.
Proof.
  intros Hinstall run. subst run.
  unfold install_plugin, bind, try_except, raise, ret, console_print,
    install_zip_plugin, install_git_plugin.
  destruct Hinstall as [(file & -> & Hpath & Hrepo & Hfail)
                       |(url & -> & Hrepo & Hpath & Hfail)];
    rewrite Hpath, Hrepo; cbn [negb andb plugins log];
    [|destruct path as [file|]; cbn [plugins log]; rewrite ?Hpath; cbn [plugins log]];
    rewrite Hfail; cbn [fst snd db trace log];
    rewrite <- ?app_assoc; cbn [app];
    (split; [reflexivity|]); (split; [reflexivity|]);
    (eexists; split; [reflexivity | reflexivity]).
Qed.


End InstallationEdges.

Lemma install_plugin_install_failure_witness :
  let w := Demo.world Demo.conf Demo.disk [] in
  let run := install_plugin (Outage.services Outage.archive_bad)
               (Some "/tmp/demo.zip") None false "postgresql" "autoincrement" w in
  fst run = Raises (Exit "插件压缩包格式非法" 1) /\ db (snd run) = ["<old>"].
Proof.
  intros w run.
  destruct (@install_plugin_install_failure _ _ _ (Outage.services Outage.archive_bad)
              (Some "/tmp/demo.zip") None false "postgresql" "autoincrement" w
              (BaseExceptionError "插件压缩包格式非法" "400: 插件压缩包格式非法")
              (or_introl (ex_intro _ "/tmp/demo.zip"
                            (conj eq_refl (conj eq_refl (conj eq_refl eq_refl))))))
    as (Hr & Hd & _).
  split; assumption.
Defined.



(** ** The resolved scripts *)

Section ResolutionEdges.

Variables DB Cache Plugins : Type.
Variable X : Collaborators DB Cache Plugins.
Variable BASE_PATH : string.

(** X19.  Every script that [get_sql_scripts] returns is accounted for: it is the
    main seed script, whose file exists, or the non-empty script to which
    an installed plugin resolves under the dialect and key mode of the
    settings; and there is at most one script more than there are
    plugins. *)
Theorem get_sql_scripts_sound (w : World DB Cache Plugins) (scripts : list string) :
  fst (get_sql_scripts X BASE_PATH w) = Returns scripts ->
  List.length scripts <= 1 + List.length (plugin_names X (plugins w)) /\
  forall script : string,
    In script scripts ->
    (script = main_sql_file BASE_PATH (settings w) /\ files w script <> None)
    \/
    (script <> "" /\
     exists name : string,
       In name (plugin_names X (plugins w)) /\
       plugin_sql X name (DATABASE_TYPE (settings w)) (DATABASE_PK_MODE (settings w))
         (plugins w) = Some script).
Proof.
  rewrite get_sql_scripts_run. cbn [fst]. intros H. injection H as <-.
  unfold resolved_scripts, main_script. split.
  - rewrite length_app.
    assert (Hplugins : forall names,
               List.length (flat_map (plugin_script X (settings w) (plugins w)) names)
               <= List.length names).
    { induction names as [|name names IH]; simpl; [lia|].
      rewrite length_app. unfold plugin_script at 1.
      destruct (plugin_sql X name _ _ _) as [script|]; [destruct (script =? "")|];
        simpl; lia. }
    specialize (Hplugins (plugin_names X (plugins w))).
    destruct (files w (main_sql_file BASE_PATH (settings w))); simpl; lia.
  - intros script Hin. apply in_app_or in Hin. destruct Hin as [Hmain|Hplugin].
    + left. destruct (files w (main_sql_file BASE_PATH (settings w))) eqn:Hfile;
        cbn [In] in Hmain; [|contradiction].
      destruct Hmain as [<-|[]]. split; [reflexivity | congruence].
    + right. apply in_flat_map in Hplugin. destruct Hplugin as (name & Hname & Hscript).
      unfold plugin_script in Hscript.
      destruct (plugin_sql X name _ _ _) as [script'|] eqn:Hsql; [|contradiction].
      destruct (script' =? "") eqn:Hempty; cbn [In] in Hscript; [contradiction|].
      destruct Hscript as [<-|[]]. apply String.eqb_neq in Hempty.
      split; [exact Hempty|]. exists name. split; assumption.
Qed.

End ResolutionEdges.

Lemma get_sql_scripts_sound_witness :
  let w := Demo.world Demo.conf Demo.disk [] in
  List.length [Demo.main_sql; Demo.plugin_b_sql]
  <= 1 + List.length (plugin_names Demo.services (plugins w)).
Proof.
  intros w.
  exact (proj1 (@get_sql_scripts_sound _ _ _ Demo.services Demo.base w
                  [Demo.main_sql; Demo.plugin_b_sql] eq_refl)).
Defined.

(** ** The server *)

Section ServerEdges.

Variables DB Cache Plugins : Type.
Variable X : Collaborators DB Cache Plugins.
Variable version : string.
Variable server : ServerSettings.
Variable version_info : VersionInfo.

(** X20.  The [run] command serves the application on the host and port given,
    with the number of workers given, and reloads unless [--no-reload] was
    passed: the flag reaches the server negated once, not twice.  The
    number of workers is passed on as it is, whether or not reloading is
    on; nothing but a panel is printed, and the settings, the server and
    the cache of the world are left alone. *)
Theorem Run_call_serves (host : string) (port : Z) (no_reload : bool) (workers : Z)
    (w : World DB Cache Plugins) :
  let run := Run_call X version server version_info host port no_reload workers w in
  exists (g : granian.Granian) (content : string),
    run = (Returns g, log (PrintPanel ("fba v" ++ version) content) w) /\
    granian.reload g = negb no_reload /\
    granian.address g = host /\
    granian.port g = port /\
    granian.workers g = workers /\
    granian.target g = "backend.main:app" /\
    granian.interface g = "asgi".
Proof.
  intros run. subst run.
  unfold Run_call, run, bind, get_plugins, console_print_panel, ret.
  do 2 eexists. split; [reflexivity|]. repeat split.
Qed.

(** X21.  Outside the development environment the panel of [run] does not depend
    on the addresses of the documentation: they are shown in the [dev]
    environment only. *)
Theorem run_hides_docs (host : string) (port : Z) (reload : bool) (workers : Z)
    (w : World DB Cache Plugins) (docs redoc : string) (openapi : option string) :
  ENVIRONMENT server <> "dev" ->
  let other :=
    {| FASTAPI_API_V1_PATH := FASTAPI_API_V1_PATH server;
       FASTAPI_DOCS_URL := docs;
       FASTAPI_REDOC_URL := redoc;
       FASTAPI_OPENAPI_URL := openapi;
       ENVIRONMENT := ENVIRONMENT server |} in
  run X version other version_info host port reload workers w =
  run X version server version_info host port reload workers w.
Proof.
  intros Hdev other. apply String.eqb_neq in Hdev.
  unfold run, bind, get_plugins, console_print_panel, ret. subst other.
  cbn [FASTAPI_API_V1_PATH FASTAPI_DOCS_URL FASTAPI_REDOC_URL FASTAPI_OPENAPI_URL
       ENVIRONMENT].
  rewrite Hdev. reflexivity.
Qed.

End ServerEdges.

Lemma run_hides_docs_witness :
  let w := Demo.world Demo.conf Demo.disk [] in
  let version_info := {| major := 3; minor := 10; micro := 4 |} in
  let other :=
    {| FASTAPI_API_V1_PATH := "/api/v1";
       FASTAPI_DOCS_URL := "/private/docs";
       FASTAPI_REDOC_URL := "/private/redoc";
       FASTAPI_OPENAPI_URL := None;
       ENVIRONMENT := "prod" |} in
  run Demo.services Demo.version other version_info "127.0.0.1" 8000 false 1 w =
  run Demo.services Demo.version Outage.production version_info "127.0.0.1" 8000 false 1 w.
Proof.
  intros w version_info other.
  apply (@run_hides_docs _ _ _ Demo.services Demo.version Outage.production version_info
           "127.0.0.1" 8000%Z false 1%Z w "/private/docs" "/private/redoc" None).
  vm_compute. intros H. discriminate H.
Defined.


(** ** The automatic workflow *)

Section AutomaticEdges.

Variables DB Cache Plugins : Type.
Variable X : Collaborators DB Cache Plugins.
Variables BASE_PATH version : string.

(** What the setup returns depends on the files, the typed answers and the
    write permissions only. *)
Lemma setup_env_file_outcome (w w' : World DB Cache Plugins) :
  files w' = files w -> answers w' = answers w -> readonly w' = readonly w ->
  fst (setup_env_file BASE_PATH w') = fst (setup_env_file BASE_PATH w).
Proof.
  destruct w as [s d c p f ro ans ent n tr], w' as [s' d' c' p' f' ro' ans' ent' n' tr'].
  cbn [files answers readonly]. intros -> -> ->.
  unfold setup_env_file. run_world.
  destruct (f (BASE_PATH // ".env.example")) as [content|] eqn:Hfile; run_world;
    rewrite ?Hfile; run_world; [|reflexivity].
  destruct ans as [|a1 [|a2 [|a3 [|a4 [|a5 [|a6 [|a7 [|a8 [|a9 rest]]]]]]]]]; run_world;
    try reflexivity.
  destruct (ro (BASE_PATH // ".env")); run_world; reflexivity.
Qed.

(** The setup leaves the server, the cache and the registry alone. *)
Lemma setup_env_file_frame (w : World DB Cache Plugins) :
  let run := setup_env_file BASE_PATH w in
  db (snd run) = db w /\ cache (snd run) = cache w /\ plugins (snd run) = plugins w.
Proof.
  intros run. subst run. destruct w as [s d c p f ro ans ent n tr].
  unfold setup_env_file. run_world.
  destruct (f (BASE_PATH // ".env.example")) as [content|] eqn:Hfile; run_world;
    rewrite ?Hfile; run_world; [|repeat split].
  destruct ans as [|a1 [|a2 [|a3 [|a4 [|a5 [|a6 [|a7 [|a8 [|a9 rest]]]]]]]]]; run_world;
    try (repeat split; fail).
  destruct (ro (BASE_PATH // ".env")); run_world; repeat split.
Qed.

(** X22.  When the environment setup fails, the automatic workflow stops there:
    it exits with status 1 before the database question is asked, and
    nothing is provisioned or initialized. *)
Theorem auto_init_env_failure (w : World DB Cache Plugins) :
  fst (setup_env_file BASE_PATH w) = Returns false ->
  let run := auto_init X BASE_PATH version w in
  fst run = Raises (Exit ".env 文件配置失败" 1) /\
  db (snd run) = db w /\ cache (snd run) = cache w /\
  exists es : list Event,
    trace (snd run) = (trace w ++ es)%list /\
    confirmations es = [] /\
    existsb provisions es = false /\
    existsb initializes es = false.
Proof.
  intros Hfalse run.
  assert (Hrun : exists (w2 : World DB Cache Plugins) (es : list Event),
             run = (Raises (Exit ".env 文件配置失败" 1), w2) /\
             db w2 = db w /\ cache w2 = cache w /\
             trace w2 = (trace w ++ es)%list /\
             confirmations es = [] /\
             existsb provisions es = false /\
             existsb initializes es = false).
  { subst run. unfold auto_init.
    unfold bind at 1. unfold console_print at 1.
    unfold bind at 1. unfold console_print_panel at 1.
    set (w1 := log (PrintPanel _ _) (log (Print _) w)).
    unfold bind at 1.
    assert (Hfalse1 : fst (setup_env_file BASE_PATH w1) = Returns false).
    { rewrite <- Hfalse. apply setup_env_file_outcome; reflexivity. }
    destruct (setup_env_file_log BASE_PATH w1) as (es1 & Htrace1 & Hidle & _).
    destruct (setup_env_file_frame w1) as (Hdb & Hcache & _).
    destruct (setup_env_file BASE_PATH w1) as [r w2].
    cbn [fst snd] in *. subst r. cbn [negb].
    unfold bind, raise.
    destruct (@idle_facts _ Hidle) as (Hp1 & Hi1 & Hc1).
    exists w2. eexists. split; [reflexivity|].
    split; [exact Hdb|]. split; [exact Hcache|].
    rewrite Htrace1. subst w1. cbn [trace log]. rewrite <- !app_assoc. cbn [app].
    split; [reflexivity|].
    rewrite !confirmations_cons, Hc1.
    cbn [existsb provisions initializes clears schema_work orb confirmation_of app].
    rewrite Hp1, Hi1. repeat split. }
  destruct Hrun as (w2 & es & -> & Hdb & Hcache & Htrace & Hc & Hp & Hi).
  cbn [fst snd]. repeat split; try assumption.
  exists es. repeat split; assumption.
Qed.

Lemma provision_failure_of_provisions (es : list Event) :
  existsb provisions es = false -> existsb provision_failure es = false.
Proof.
  induction es as [|e es IH]; simpl; [reflexivity|].
  intros H. apply orb_false_elim in H. destruct H as [He Hes].
  unfold provision_failure at 1. rewrite He, (IH Hes). reflexivity.
Qed.

Lemma provision_failure_of_failed (es : list Event) :
  existsb failed es = false -> existsb provision_failure es = false.
Proof.
  induction es as [|e es IH]; simpl; [reflexivity|].
  intros H. apply orb_false_elim in H. destruct H as [He Hes].
  unfold provision_failure at 1. rewrite He, (IH Hes), andb_false_r. reflexivity.
Qed.

(** The provisioner returns [True] only when none of its calls failed. *)
Lemma create_database_outcome (w : World DB Cache Plugins) :
  let run := create_database_if_not_exists X w in
  exists es : list Event,
    trace (snd run) = (trace w ++ es)%list /\
    forallb administrative es = true /\
    ((fst run = Returns true /\ existsb failed es = false) \/ fst run = Returns false).
Proof.
  intros run. subst run.
  provisioner_cases X w;
    (eexists; split; [reflexivity|]);
    (split; [reflexivity|]);
    first [left; split; reflexivity | right; reflexivity].
Qed.

(** X23.  When a call of the provisioner fails in the automatic workflow, the run
    exits with status 1 and the schema step is never reached: the question
    of [init] is not asked, and neither the cache nor the schema is
    touched. *)
Theorem auto_init_provisioning_failure (w : World DB Cache Plugins) :
  let run := auto_init X BASE_PATH version w in
  exists es : list Event,
    trace (snd run) = (trace w ++ es)%list /\
    (existsb provision_failure es = true ->
     fst run = Raises (Exit "数据库创建失败" 1) /\
     confirmations es = [database_question] /\
     existsb initializes es = false).
Proof.
  intros run.
  enough (Hgen : forall r : Outcome unit * World DB Cache Plugins,
             r = run ->
             exists es : list Event,
               trace (snd r) = (trace w ++ es)%list /\
               (existsb provision_failure es = true ->
                fst r = Raises (Exit "数据库创建失败" 1) /\
                confirmations es = [database_question] /\
                existsb initializes es = false))
    by (apply Hgen; reflexivity).
  intros r Hr. subst run. unfold auto_init in Hr.
  unfold bind at 1 in Hr. unfold console_print at 1 in Hr.
  unfold bind at 1 in Hr. unfold console_print_panel at 1 in Hr.
  set (w1 := log (PrintPanel _ _) (log (Print _) w)) in Hr.
  unfold bind at 1 in Hr.
  destruct (setup_env_file_log BASE_PATH w1) as (es1 & Htrace1 & Hidle1 & Hbool).
  destruct (setup_env_file BASE_PATH w1) as [r1 w2].
  cbn [fst snd] in Htrace1, Hbool.
  assert (Hstart : exists es0 : list Event,
             trace w2 = (trace w ++ es0)%list /\ forallb idle es0 = true).
  { rewrite Htrace1. subst w1. cbn [trace log]. rewrite <- !app_assoc.
    eexists. split; [reflexivity|]. cbn [app forallb]. rewrite Hidle1. reflexivity. }
  clear Htrace1 Hidle1 es1. clearbody w1. clear w1.
  destruct Hstart as (es0 & Htrace2 & Hidle).
  destruct (@idle_facts _ Hidle) as (Hp0 & Hi0 & Hc0).
  pose proof (provision_failure_of_provisions _ Hp0) as Hf0.
  destruct Hbool as [-> | ->]; cbn [negb] in Hr.
  2: { unfold bind, raise in Hr. subst r. cbn [fst snd]. eexists.
       split; [exact Htrace2|]. rewrite Hf0. intros H; discriminate H. }
  unfold bind at 1 in Hr. unfold ret at 1 in Hr.
  unfold bind at 1 in Hr. unfold console_print at 1 in Hr.
  unfold bind at 1 in Hr. unfold get_settings at 1 in Hr.
  unfold bind at 1 in Hr. unfold console_print_panel at 1 in Hr.
  unfold bind at 1 in Hr. unfold Prompt_ask at 1 in Hr.
  cbn [answers log] in Hr.
  destruct (answers w2) as [|a rest] eqn:Hanswers.
  { cbv beta iota in Hr. subst r. cbn [fst snd trace log].
    rewrite Htrace2, <- !app_assoc. cbn [app].
    eexists. split; [reflexivity|].
    rewrite existsb_app, Hf0. intros H; discriminate H. }
  cbv beta iota in Hr.
  match type of Hr with
  | context [with_answers rest ?w'] => set (w3 := with_answers rest w') in Hr
  end.
  assert (Htrace3 : exists shown : list Event,
             trace w3 = (trace w ++ es0 ++ shown
                         ++ [Ask database_question ["y"; "n"] "n"])%list /\
             forallb idle shown = true).
  { subst w3. cbn [trace log with_answers]. rewrite Htrace2, <- !app_assoc.
    exists [Print (nl ++ "[bold cyan]步骤 2/3:[/] 数据库创建");
            PrintPanel ("fba v" ++ version ++ " 数据库")
              ("【数据库配置】"
               ++ nl ++ nl ++ "  • 类型: " ++ DATABASE_TYPE (settings w2)
               ++ nl ++ "  • 数据库：" ++ DATABASE_SCHEMA (settings w2)
               ++ nl ++ "  • 主机：" ++ DATABASE_HOST (settings w2) ++ ":"
               ++ DATABASE_PORT (settings w2))].
    split; reflexivity. }
  clearbody w3. clear Htrace2 Hanswers w2.
  destruct Htrace3 as (shown & Htrace3 & Hshown).
  destruct (@idle_facts _ Hshown) as (Hp2 & Hi2 & Hc2).
  pose proof (provision_failure_of_provisions _ Hp2) as Hf2.
  destruct (lower a =? "y").
  - unfold bind at 1 in Hr. unfold bind at 1 in Hr.
    destruct (create_database_outcome w3) as (es4 & Htrace4 & Hadmin & Hbool).
    destruct (create_database_if_not_exists X w3) as [r4 w4].
    cbn [fst snd] in Htrace4, Hbool.
    destruct (@administrative_facts _ Hadmin) as (Hi4 & Hw4 & Hc4).
    destruct Hbool as [[-> Hgood] | ->]; cbn [negb] in Hr.
    + unfold ret at 1 in Hr. cbv beta iota in Hr.
      unfold bind at 1 in Hr. unfold console_print at 1 in Hr. cbv beta iota in Hr.
      match type of Hr with
      | context [init X BASE_PATH version ?w'] => set (w5 := w') in Hr
      end.
      destruct (init_log X BASE_PATH version w5) as (es5 & Htrace5 & Hquiet & _).
      destruct (@unattended_facts _ Hquiet) as (Hp5 & Hw5 & Hc5).
      pose proof (provision_failure_of_failed _ Hgood) as Hf4.
      pose proof (provision_failure_of_provisions _ Hp5) as Hf5.
      subst r. rewrite Htrace5. subst w5. cbn [trace log].
      rewrite Htrace4, Htrace3, <- !app_assoc. cbn [app].
      eexists. split; [reflexivity|].
      rewrite !existsb_app, Hf0, Hf2.
      cbn [existsb provision_failure provisions failed andb orb].
      rewrite existsb_app, Hf4.
      cbn [existsb provision_failure provisions failed andb orb].
      rewrite Hf5. intros H; discriminate H.
    + unfold raise in Hr. subst r. cbn [fst snd].
      rewrite Htrace4, Htrace3, <- !app_assoc. cbn [app].
      eexists. split; [reflexivity|]. intros _.
      split; [reflexivity|].
      rewrite !confirmations_app, !existsb_app, Hc0, Hc2, Hi0, Hi2.
      rewrite confirmations_cons, Hc4.
      cbn [existsb initializes clears schema_work orb confirmation_of app].
      rewrite Hi4. split; reflexivity.
  - unfold bind at 1 in Hr. unfold console_print at 1 in Hr. cbv beta iota in Hr.
    unfold bind at 1 in Hr. unfold console_print at 1 in Hr. cbv beta iota in Hr.
    match type of Hr with
    | context [init X BASE_PATH version ?w'] => set (w5 := w') in Hr
    end.
    destruct (init_log X BASE_PATH version w5) as (es5 & Htrace5 & Hquiet & _).
    destruct (@unattended_facts _ Hquiet) as (Hp5 & Hw5 & Hc5).
    pose proof (provision_failure_of_provisions _ Hp5) as Hf5.
    subst r. rewrite Htrace5. subst w5. cbn [trace log].
    rewrite Htrace3, <- !app_assoc. cbn [app].
    eexists. split; [reflexivity|].
    rewrite !existsb_app, Hf0, Hf2.
    cbn [existsb provision_failure provisions failed andb orb].
    rewrite Hf5. intros H; discriminate H.
Qed.

(** The values typed for the database reach the settings in memory, and
    the schema stays the one of the settings. *)
Lemma setup_env_file_database_settings (w : World DB Cache Plugins) (content : string)
    (a1 a2 a3 a4 a5 a6 a7 a8 a9 : string) (rest : list string) :
  files w (BASE_PATH // ".env.example") = Some content ->
  answers w = a1 :: a2 :: a3 :: a4 :: a5 :: a6 :: a7 :: a8 :: a9 :: rest ->
  let s' := settings (snd (setup_env_file BASE_PATH w)) in
  DATABASE_TYPE s' = a1 /\ DATABASE_HOST s' = a2 /\ DATABASE_PORT s' = a3 /\
  DATABASE_USER s' = a4 /\ DATABASE_PASSWORD s' = a5 /\
  DATABASE_SCHEMA s' = DATABASE_SCHEMA (settings w).
Proof.
  intros Hfile Hanswers.
  destruct w as [s d c p f ro ans ent n tr]. cbn [files answers settings] in *.
  unfold setup_env_file. run_world.
  destruct (f (BASE_PATH // ".env.example")) as [content'|] eqn:Hfile';
    [|discriminate Hfile].
  run_world. rewrite ?Hfile'. run_world.
  destruct ans as [|b1 [|b2 [|b3 [|b4 [|b5 [|b6 [|b7 [|b8 [|b9 rest']]]]]]]]];
    try discriminate Hanswers.
  injection Hanswers as -> -> -> -> -> -> -> -> -> _.
  run_world.
  destruct (ro (BASE_PATH // ".env")); run_world; repeat split.
Qed.

(** The provisioner starts by connecting to the address that the settings
    of the moment give, once that address and its engine are built. *)
Lemma create_database_connects (w : World DB Cache Plugins) :
  let u := url (provisioning (settings w)) in
  let run := create_database_if_not_exists X w in
  match url_create X u, engine_create X u with
  | None, None =>
      exists (ok : bool) (es : list Event),
        trace (snd run) = (trace w ++ Connect u ok :: es)%list
  | _, _ =>
      fst run = Returns false /\
      exists text : string, trace (snd run) = (trace w ++ [Print text])%list
  end.
Proof.
  intros u run. subst run u.
  provisioner_cases X w;
    first [ do 2 eexists; reflexivity
          | split; [reflexivity | eexists; reflexivity] ].
Qed.

(** X24.  The automatic workflow provisions the server that was just typed in:
    once the database step is confirmed, the address is built from the
    user, password, host and port given in the environment step, on the
    driver of the dialect given there, whatever the settings held when the
    command started.  When that address and its engine can be built, the
    first call of the provisioner is the connection to it; when they
    cannot, as with a port that is not a number, nothing is connected to
    and the run exits with status 1. *)
Theorem auto_init_connects_as_typed (w : World DB Cache Plugins) (content : string)
    (a1 a2 a3 a4 a5 a6 a7 a8 a9 a : string) (rest : list string) :
  files w (BASE_PATH // ".env.example") = Some content ->
  readonly w (BASE_PATH // ".env") = false ->
  answers w = a1 :: a2 :: a3 :: a4 :: a5 :: a6 :: a7 :: a8 :: a9 :: a :: rest ->
  lower a = "y" ->
  let run := auto_init X BASE_PATH version w in
  let address :=
    {| drivername := if DataBaseType.mysql =? a1 then "mysql+asyncmy"
                     else "postgresql+asyncpg";
       username := a4; password := a5; host := a2; port := a3;
       database := if DataBaseType.mysql =? a1 then None else Some "postgres" |} in
  match url_create X address, engine_create X address with
  | None, None =>
      exists (ok : bool) (pre post : list Event),
        trace (snd run) = (trace w ++ pre ++ Connect address ok :: post)%list /\
        existsb provisions pre = false
  | _, _ =>
      fst run = Raises (Exit "数据库创建失败" 1) /\
      exists es : list Event,
        trace (snd run) = (trace w ++ es)%list /\
        existsb provisions es = false
  end.
Proof.
  intros Hfile Hro Hanswers Hyes run address. subst run.
  destruct (@auto_init_environment_done _ _ _ X BASE_PATH version w content
              a1 a2 a3 a4 a5 a6 a7 a8 a9 a rest Hfile Hro Hanswers)
    as (w3 & pre & -> & Htrace3 & Hpre & _ & _ & _ & _ & Hsettings).
  cbv zeta in Hsettings.
  assert (Haddress : url (provisioning (settings w3)) = address).
  { match type of Hsettings with
    | _ = settings (snd (setup_env_file _ ?w1)) =>
        destruct (@setup_env_file_database_settings w1 content
                    a1 a2 a3 a4 a5 a6 a7 a8 a9 (a :: rest) Hfile Hanswers)
          as (Htype & Hhost & Hport & Huser & Hpassword & _)
    end.
    rewrite <- Hsettings in Htype, Hhost, Hport, Huser, Hpassword.
    subst address. unfold provisioning.
    rewrite Htype. destruct (DataBaseType.mysql =? a1); cbn [url];
      rewrite Hhost, Hport, Huser, Hpassword; reflexivity. }
  clearbody address.
  rewrite Hyes, String.eqb_refl.
  pose proof (create_database_connects w3) as Hconnects.
  cbv zeta in Hconnects. rewrite Haddress in Hconnects.
  destruct (create_database_log X w3) as (es4 & _ & _ & Hbool).
  unfold bind.
  destruct (create_database_if_not_exists X w3) as [r4 w4].
  cbn [fst snd] in Hconnects, Hbool.
  destruct (url_create X address) as [e|]; [|destruct (engine_create X address) as [e|]].
  1, 2: destruct Hconnects as (-> & text & Htrace4); cbn [negb]; unfold raise;
    cbn [fst snd]; (split; [reflexivity|]);
    rewrite Htrace4, Htrace3, <- !app_assoc;
    (eexists; split; [reflexivity|]);
    rewrite existsb_app, Hpre; reflexivity.
  destruct Hconnects as (ok & post & Htrace4).
  exists ok, pre.
  destruct Hbool as [-> | ->]; cbn [negb]; unfold raise, ret, console_print.
  - match goal with
    | |- context [init X BASE_PATH version ?w'] => set (w5 := w')
    end.
    destruct (init_log X BASE_PATH version w5) as (es5 & Htrace5 & _).
    rewrite Htrace5. subst w5. cbn [trace log].
    rewrite Htrace4, Htrace3, <- !app_assoc. cbn [app].
    eexists. split; [reflexivity | exact Hpre].
  - cbn [fst snd]. rewrite Htrace4, Htrace3, <- !app_assoc.
    eexists. split; [reflexivity | exact Hpre].
Qed.

End AutomaticEdges.

Lemma auto_init_env_failure_witness :
  let w := Demo.world Demo.conf (fun _ => None) Demo.nine_answers in
  let run := auto_init Demo.services Demo.base Demo.version w in
  fst run = Raises (Exit ".env 文件配置失败" 1) /\ db (snd run) = ["<old>"].
Proof.
  intros w run.
  destruct (@auto_init_env_failure _ _ _ Demo.services Demo.base Demo.version w eq_refl)
    as (Hr & Hd & _).
  split; assumption.
Defined.

Lemma auto_init_provisioning_failure_witness :
  let w := Demo.world Demo.conf Demo.disk (Demo.nine_answers ++ ["y"; "y"]) in
  let run := auto_init (Outage.services Outage.server_down) Demo.base Demo.version w in
  fst run = Raises (Exit "数据库创建失败" 1) /\
  existsb initializes (trace (snd run)) = false.
Proof.
  intros w run.
  destruct (@auto_init_provisioning_failure _ _ _ (Outage.services Outage.server_down)
              Demo.base Demo.version w)
    as (es & Htrace & Hfailure).
  assert (Hes : es = trace (snd run)) by (unfold run; rewrite Htrace; reflexivity).
  rewrite <- Hes.
  destruct Hfailure as (Hr & _ & Hi); [rewrite Hes; vm_compute; reflexivity|].
  split; assumption.
Defined.

Lemma auto_init_connects_as_typed_witness :
  let typed := ["postgresql"; "db.local"; "abc"; "root"; "secret";
                "cache.local"; "6380"; "pw"; "1"] in
  (let w := Demo.world Demo.conf Demo.disk (Outage.mysql_answers ++ ["y"; "n"]) in
   let run := auto_init Demo.services Demo.base Demo.version w in
   exists (ok : bool) (pre post : list Event),
     trace (snd run) =
       (pre ++ Connect {| drivername := "mysql+asyncmy"; username := "root";
                          password := "secret"; host := "db.local"; port := "3306";
                          database := None |} ok :: post)%list /\
     existsb provisions pre = false)
  /\
  (let w := Demo.world Demo.conf Demo.disk (typed ++ ["y"; "y"]) in
   let run := auto_init Demo.services Demo.base Demo.version w in
   fst run = Raises (Exit "数据库创建失败" 1) /\
   exists es : list Event,
     trace (snd run) = es /\ existsb provisions es = false).
Proof.
  intros typed. split.
  - intros w run.
    exact (@auto_init_connects_as_typed _ _ _ Demo.services Demo.base Demo.version w
             _ _ _ _ _ _ _ _ _ _ "y" ["n"] eq_refl eq_refl eq_refl eq_refl).
  - intros w run.
    exact (@auto_init_connects_as_typed _ _ _ Demo.services Demo.base Demo.version w
             _ _ _ _ _ _ _ _ _ _ "y" ["y"] eq_refl eq_refl eq_refl eq_refl).
Defined.
